(** * JARVIS command pipeline: a shallow embedding and its verified properties

    The development follows the per-command pipeline of the assistant:

    - [utils/language_manager.py]: [LanguageManager] (language detection by
      pattern scoring, translated messages);
    - [core/jarvis_brain.py]: [AIResponse], [JARVISBrain] (intent
      classification, message assembly, the call to the text-generation
      service, conversation history);
    - [core/learning_engine.py]: [LearningEngine] (interaction log, user
      context);
    - [core/system_controller.py], [core/hardware_controller.py]: the two
      [execute_command] entry points;
    - [jarvis_main.py]: [AdvancedJARVIS.process_command] and the context
      assembly.

    Python strings are sequences of Unicode code points, Python values that
    travel through duck-typed code are a small universe [pyval], and code that
    can raise lives in a state-and-exception monad in which the state
    survives a raise, as it does in Python.  Logging calls are not
    modelled. *)

From Stdlib Require Import List Bool Arith ZArith NArith QArith Qround Lia.
From Stdlib Require Import String Ascii DecimalString.
Import ListNotations.
Close Scope Q_scope.
Close Scope string_scope.
Open Scope list_scope.

Set Implicit Arguments.

(* ###################################################################### *)
(** * Python strings *)

Module PyStr.

(** A [str] is a sequence of code points. *)
Definition pystr := list N.

Definition eqb (a b : pystr) : bool :=
  if list_eq_dec N.eq_dec a b then true else false.

Lemma eqb_eq a b : eqb a b = true <-> a = b.
Proof. unfold eqb. destruct (list_eq_dec N.eq_dec a b); split; congruence. Qed.

Lemma eqb_refl a : eqb a a = true.
Proof. apply eqb_eq. reflexivity. Qed.

(** ASCII literals of the source. *)
Definition str (s : string) : pystr :=
  map N_of_ascii (list_ascii_of_string s).

(** Non-ASCII literals of the source are written in UTF-8 and decoded. *)
Fixpoint utf8_decode (fuel : nat) (bs : list N) : pystr :=
  match fuel with
  | O => []
  | S fuel' =>
    match bs with
    | [] => []
    | b0 :: r0 =>
      if (b0 <? 128)%N then b0 :: utf8_decode fuel' r0
      else if (b0 <? 224)%N then
        match r0 with
        | b1 :: r1 =>
            ((b0 - 192) * 64 + (b1 - 128))%N :: utf8_decode fuel' r1
        | _ => []
        end
      else if (b0 <? 240)%N then
        match r0 with
        | b1 :: b2 :: r2 =>
            ((b0 - 224) * 4096 + (b1 - 128) * 64 + (b2 - 128))%N
              :: utf8_decode fuel' r2
        | _ => []
        end
      else
        match r0 with
        | b1 :: b2 :: b3 :: r3 =>
            ((b0 - 240) * 262144 + (b1 - 128) * 4096
             + (b2 - 128) * 64 + (b3 - 128))%N :: utf8_decode fuel' r3
        | _ => []
        end
    end
  end.

Definition utf8 (s : string) : pystr :=
  let bs := str s in utf8_decode (List.length bs) bs.

(** [a.startswith(p)] *)
Fixpoint startswith (p s : pystr) : bool :=
  match p, s with
  | [], _ => true
  | _ :: _, [] => false
  | a :: p', b :: s' => (a =? b)%N && startswith p' s'
  end.

(** [p in s] on strings: [p] occurs as a contiguous run of [s]. *)
Fixpoint contains (p s : pystr) : bool :=
  startswith p s ||
  match s with
  | [] => false
  | _ :: s' => contains p s'
  end.

(** Decimal rendering of a natural number, as [str(n)] gives it. *)
Definition of_N (n : N) : pystr :=
  str (NilEmpty.string_of_uint (N.to_uint n)).

Definition of_Z (z : Z) : pystr :=
  match z with
  | Z0 => str "0"
  | Zpos p => of_N (Npos p)
  | Zneg p => str "-" ++ of_N (Npos p)
  end.

End PyStr.
Import PyStr.

(** Dictionaries with string keys, in insertion order. *)
Fixpoint dict_get {V : Type} (k : pystr) (d : list (pystr * V)) : option V :=
  match d with
  | [] => None
  | (k', v) :: d' => if PyStr.eqb k k' then Some v else dict_get k d'
  end.

(** [d[k] = v]: an existing key keeps its place. *)
Fixpoint dict_set {V : Type} (k : pystr) (v : V) (d : list (pystr * V))
  : list (pystr * V) :=
  match d with
  | [] => [(k, v)]
  | (k', v') :: d' =>
      if PyStr.eqb k k' then (k, v) :: d' else (k', v') :: dict_set k v d'
  end.

Example utf8_kya : utf8 "क्या" = [2325; 2381; 2351; 2366]%N.
Proof. reflexivity. Qed.

Example contains_shutdown :
  contains (str "shutdown") (str "please shutdown now") = true.
Proof. reflexivity. Qed.

(* ###################################################################### *)
(** * Python values *)

(** The values that cross the duck-typed boundaries of the pipeline.  A
    [VDict] keeps insertion order; a [VObj] is an instance of a plain class
    (here: the [AIResponse] dataclass), which has attributes and none of the
    mapping methods; a [VDatetime] carries the text [str()] gives. *)
#[warnings="-register-all"]
Inductive pyval :=
| VNone
| VBool (b : bool)
| VInt (z : Z)
| VFloat (q : Q)
| VStr (s : pystr)
| VList (l : list pyval)
| VDict (d : list (pystr * pyval))
| VDatetime (text : pystr)
| VObj (cls : pystr) (attrs : list (pystr * pyval)).

Definition pydict := list (pystr * pyval).

Definition type_name (v : pyval) : pystr :=
  match v with
  | VNone => str "NoneType"
  | VBool _ => str "bool"
  | VInt _ => str "int"
  | VFloat _ => str "float"
  | VStr _ => str "str"
  | VList _ => str "list"
  | VDict _ => str "dict"
  | VDatetime _ => str "datetime.datetime"
  | VObj cls _ => cls
  end.

(** Truth value of an object in a condition. *)
Definition truthy (v : pyval) : bool :=
  match v with
  | VNone => false
  | VBool b => b
  | VInt z => negb (z =? 0)%Z
  | VFloat q => negb (Qeq_bool q 0)
  | VStr s => match s with [] => false | _ => true end
  | VList l => match l with [] => false | _ => true end
  | VDict d => match d with [] => false | _ => true end
  | VDatetime _ => true
  | VObj _ _ => true
  end.

(* ###################################################################### *)
(** * What the Python runtime supplies

    [str.lower] and the word-character test behind [\b] depend on Python's
    Unicode tables, and the text of a float on its formatting routines.  The
    ASCII part of the tables is fixed here; the rest is a parameter of the
    development, so that every theorem holds whatever the tables say about
    other scripts. *)

Definition is_ascii (c : N) : bool := (c <? 128)%N.
Definition is_ascii_upper (c : N) : bool := (65 <=? c)%N && (c <=? 90)%N.
Definition is_ascii_lower (c : N) : bool := (97 <=? c)%N && (c <=? 122)%N.
Definition is_ascii_digit (c : N) : bool := (48 <=? c)%N && (c <=? 57)%N.

(** A letter of the Latin alphabet, [A-Z] or [a-z]. *)
Definition is_latin_letter (c : N) : bool := is_ascii_upper c || is_ascii_lower c.

Definition ascii_lower (c : N) : N := if is_ascii_upper c then (c + 32)%N else c.

Class Runtime := {
  (** [s.lower()] *)
  lower : pystr -> pystr;
  lower_ascii :
    forall s, forallb is_ascii s = true -> lower s = map ascii_lower s;
  (** [c.isalnum()] for a code point above 127 *)
  isalnum_ext : N -> bool;
  (** [str(x)] and [format(x, '.2f')] of a float *)
  float_str : Q -> pystr;
  float_2f : Q -> pystr;
  (** [str(v)] of a list, a dictionary or an object *)
  container_str : pyval -> pystr
}.

(** Fixed-point rendering with [d] decimals, rounding half up. *)
Definition fixed_point (d : nat) (q : Q) : pystr :=
  let scale := Z.pow 10 (Z.of_nat d) in
  let n := Qfloor (Qplus (Qmult q (inject_Z scale)) (1 # 2)) in
  let frac := of_Z (Z.abs n mod scale) in
  (if (n <? 0)%Z then str "-" else [])
  ++ of_Z (Z.abs n / scale) ++ str "."
  ++ repeat 48%N (d - List.length frac) ++ frac.

(** A runtime restricted to ASCII tables: other code points are left alone
    by [lower] and are not word characters; floats are shown with one and
    two decimals and containers by their type name.  Used to run the
    definitions on concrete inputs. *)
Definition ascii_runtime : Runtime :=
  {| lower := map ascii_lower;
     lower_ascii := fun s _ => eq_refl;
     isalnum_ext := fun _ => false;
     float_str := fixed_point 1;
     float_2f := fixed_point 2;
     container_str := fun v => str "<" ++ type_name v ++ str ">" |}.

Example fixed_point_confidence : fixed_point 2 (9 # 10) = str "0.90".
Proof. reflexivity. Qed.

(** Code points that [str.strip()] removes ([str.isspace]). *)
Definition isspace (c : N) : bool :=
  ((9 <=? c) && (c <=? 13) || (28 <=? c) && (c <=? 32)
   || (c =? 133) || (c =? 160) || (c =? 5760)
   || (8192 <=? c) && (c <=? 8202)
   || (c =? 8232) || (c =? 8233) || (c =? 8239) || (c =? 8287)
   || (c =? 12288))%N.

Fixpoint lstrip (s : pystr) : pystr :=
  match s with
  | c :: r => if isspace c then lstrip r else s
  | [] => []
  end.

Definition strip (s : pystr) : pystr := rev (lstrip (rev (lstrip s))).

(* ###################################################################### *)
(** * Regular expressions of the language patterns

    [_load_language_patterns] uses two shapes only: one character class, and
    [\b(w1|...|wn)\b].  [findall_count] is [len(re.findall(p, text,
    re.IGNORECASE))] for these shapes. *)

Module Regex.

Inductive regex :=
| CharClass (ranges : list (N * N))
| Words (alts : list pystr).

(** Pattern characters that a text character stands for under
    [re.IGNORECASE]: itself, its other ASCII case, and the four non-ASCII
    letters that the [re] module folds onto [i], [s] and [k].  The patterns
    of this program contain ASCII letters and uncased Devanagari only. *)
Definition variants (c : N) : list N :=
  c :: (if is_ascii_upper c then [c + 32]
        else if is_ascii_lower c then [c - 32]
        else if (c =? 304) || (c =? 305) then [105; 73]
        else if (c =? 383) then [115; 83]
        else if (c =? 8490) then [107; 75]
        else [])%N.

Definition in_range (r : N * N) (c : N) : bool :=
  (fst r <=? c)%N && (c <=? snd r)%N.

Definition class_match (ranges : list (N * N)) (c : N) : bool :=
  existsb (fun v => existsb (fun r => in_range r v) ranges) (variants c).

Definition lit_match (p c : N) : bool := existsb (N.eqb p) (variants c).

Section WithUnicode.
Context {U : Runtime}.

(** [\w] on one code point. *)
Definition is_word (c : N) : bool :=
  if is_ascii c
  then is_latin_letter c || is_ascii_digit c || (c =? 95)%N
  else isalnum_ext c.

Definition is_word_opt (c : option N) : bool :=
  match c with Some x => is_word x | None => false end.

(** [\b] between the character before and the character after. *)
Definition boundary (prev next : option N) : bool :=
  xorb (is_word_opt prev) (is_word_opt next).

(** The text starts with the literal [w]; returns the last character
    consumed and what follows. *)
Fixpoint match_word (w : pystr) (last : option N) (text : pystr)
  : option (option N * pystr) :=
  match w with
  | [] => Some (last, text)
  | p :: w' =>
    match text with
    | [] => None
    | c :: rest => if lit_match p c then match_word w' (Some c) rest else None
    end
  end.

(** First alternative, in order, that matches at this position between two
    word boundaries; returns the number of characters consumed. *)
Fixpoint match_alts (alts : list pystr) (prev : option N) (text : pystr)
  : option nat :=
  match alts with
  | [] => None
  | w :: alts' =>
    match match_word w prev text with
    | Some (last, rest) =>
        if boundary last (hd_error rest) then Some (List.length w)
        else match_alts alts' prev text
    | None => match_alts alts' prev text
    end
  end.

Definition match_words_at (alts : list pystr) (prev : option N) (text : pystr)
  : option nat :=
  if boundary prev (hd_error text) then match_alts alts prev text else None.

(** Left-to-right scan for non-overlapping matches; [skip] counts the
    characters still covered by the last match. *)
Fixpoint findall_words (alts : list pystr) (prev : option N) (skip : nat)
    (text : pystr) : nat :=
  match text with
  | [] => 0
  | c :: rest =>
    match skip with
    | S k => findall_words alts (Some c) k rest
    | O =>
      match match_words_at alts prev text with
      | Some len => S (findall_words alts (Some c) (len - 1) rest)
      | None => findall_words alts (Some c) 0 rest
      end
    end
  end.

Definition findall_count (r : regex) (text : pystr) : nat :=
  match r with
  | CharClass ranges => List.length (filter (class_match ranges) text)
  | Words alts => findall_words alts None 0 text
  end.

End WithUnicode.
End Regex.
Import Regex.

Example findall_the :
  findall_count (U := ascii_runtime) (Words [str "the"; str "i"])
    (str "The theme: I, the one") = 3.
Proof. reflexivity. Qed.

(* ###################################################################### *)
(** * utils/language_manager.py *)

Module LanguageManager.

(** [_load_translations]: the tables installed when no
    [data/translations.json] override is present. *)
Definition english_translations : list (pystr * pystr) :=
     [ (str "welcome_message", str "Good evening, Sir. JARVIS is online and ready to assist you.");
       (str "user_prompt", str "You");
       (str "error_processing", str "I apologize, Sir. There seems to be an issue processing your request.");
       (str "api_error", str "I'm experiencing connectivity issues with my AI systems, Sir.");
       (str "ai_error", str "My AI processing systems are temporarily unavailable, Sir.");
       (str "language_switched", str "Language switched successfully, Sir.");
       (str "invalid_language", str "I'm sorry, Sir. That language is not supported.");
       (str "shutdown_message", str "Goodbye, Sir. JARVIS going offline.");
       (str "system_status", str "System Status");
       (str "cpu_usage", str "CPU Usage");
       (str "memory_usage", str "Memory Usage");
       (str "disk_usage", str "Disk Usage");
       (str "network_activity", str "Network Activity");
       (str "temperature", str "Temperature");
       (str "uptime", str "Uptime");
       (str "processes", str "Active Processes");
       (str "listening", str "Listening...");
       (str "processing", str "Processing your request, Sir...");
       (str "command_executed", str "Command executed successfully, Sir.");
       (str "command_failed", str "I'm sorry, Sir. The command could not be executed.");
       (str "file_created", str "File created successfully, Sir.");
       (str "file_deleted", str "File deleted successfully, Sir.");
       (str "application_launched", str "Application launched, Sir.");
       (str "system_locked", str "System locked, Sir.");
       (str "system_shutdown", str "System shutdown initiated, Sir.");
       (str "voice_mode_on", str "Voice mode activated, Sir.");
       (str "voice_mode_off", str "Voice mode deactivated, Sir.");
       (str "learning_mode_on", str "Learning mode activated, Sir.");
       (str "learning_mode_off", str "Learning mode deactivated, Sir.") ].

Definition hindi_translations : list (pystr * pystr) :=
     [ (str "welcome_message", utf8 "नमस्कार साहब। जार्विस ऑनलाइन है और आपकी सेवा के लिए तैयार है।");
       (str "user_prompt", utf8 "आप");
       (str "error_processing", utf8 "मुझे खेद है साहब। आपके अनुरोध को संसाधित करने में कोई समस्या है।");
       (str "api_error", utf8 "साहब, मेरे AI सिस्टम में कनेक्टिविटी की समस्या है।");
       (str "ai_error", utf8 "साहब, मेरे AI प्रोसेसिंग सिस्टम अस्थायी रूप से अनुपलब्ध हैं।");
       (str "language_switched", utf8 "भाषा सफलतापूर्वक बदल दी गई, साहब।");
       (str "invalid_language", utf8 "मुझे खेद है साहब। वह भाषा समर्थित नहीं है।");
       (str "shutdown_message", utf8 "अलविदा साहब। जार्विस ऑफलाइन हो रहा है।");
       (str "system_status", utf8 "सिस्टम स्थिति");
       (str "cpu_usage", utf8 "CPU उपयोग");
       (str "memory_usage", utf8 "मेमोरी उपयोग");
       (str "disk_usage", utf8 "डिस्क उपयोग");
       (str "network_activity", utf8 "नेटवर्क गतिविधि");
       (str "temperature", utf8 "तापमान");
       (str "uptime", utf8 "अपटाइम");
       (str "processes", utf8 "सक्रिय प्रक्रियाएं");
       (str "listening", utf8 "सुन रहा हूं...");
       (str "processing", utf8 "आपके अनुरोध को संसाधित कर रहा हूं, साहब...");
       (str "command_executed", utf8 "कमांड सफलतापूर्वक निष्पादित, साहब।");
       (str "command_failed", utf8 "मुझे खेद है साहब। कमांड निष्पादित नहीं हो सका।");
       (str "file_created", utf8 "फाइल सफलतापूर्वक बनाई गई, साहब।");
       (str "file_deleted", utf8 "फाइल सफलतापूर्वक हटाई गई, साहब।");
       (str "application_launched", utf8 "एप्लिकेशन लॉन्च किया गया, साहब।");
       (str "system_locked", utf8 "सिस्टम लॉक किया गया, साहब।");
       (str "system_shutdown", utf8 "सिस्टम शटडाउन शुरू किया गया, साहब।");
       (str "voice_mode_on", utf8 "वॉयस मोड सक्रिय किया गया, साहब।");
       (str "voice_mode_off", utf8 "वॉयस मोड निष्क्रिय किया गया, साहब।");
       (str "learning_mode_on", utf8 "लर्निंग मोड सक्रिय किया गया, साहब।");
       (str "learning_mode_off", utf8 "लर्निंग मोड निष्क्रिय किया गया, साहब।") ].

Definition translations : list (pystr * list (pystr * pystr)) :=
  [ (str "english", english_translations); (str "hindi", hindi_translations) ].

(** [_load_language_patterns], in the order of the dictionary. *)
Definition hindi_patterns : list regex :=
  [ CharClass [(2304, 2431)%N];
    Words (map utf8 ["क्या"; "कैसे"; "कहाँ"; "कब"; "क्यों"; "जार्विस"; "सिस्टम";
                     "फाइल"; "खोलो"; "बंद"; "करो"; "दिखाओ"; "बताओ"]%string);
    Words (map utf8 ["आप"; "मैं"; "हम"; "यह"; "वह"; "कौन"; "किसका"; "किसको"]%string) ].

Definition english_patterns : list regex :=
  [ CharClass [(97, 122)%N; (65, 90)%N];
    Words (map str ["what"; "how"; "where"; "when"; "why"; "jarvis"; "system";
                    "file"; "open"; "close"; "show"; "tell"; "the"; "and";
                    "or"; "but"]%string);
    Words (map str ["you"; "i"; "we"; "this"; "that"; "who"; "whose"; "whom"]%string) ].

(** The only mutable attribute the pipeline touches. *)
Record LanguageManager := { current_language : pystr }.

Definition init : LanguageManager := {| current_language := str "english" |}.

Definition supported_languages : list pystr := [str "english"; str "hindi"].

Section WithUnicode.
Context {U : Runtime}.

(** The inner loop of [detect_language]: the sum of the match counts of the
    patterns of one language. *)
Definition score (patterns : list regex) (text_lower : pystr) : nat :=
  fold_left (fun acc p => acc + findall_count p text_lower) patterns 0.

Definition scores (text : pystr) : nat * nat :=
  let text_lower := lower text in
  (score hindi_patterns text_lower, score english_patterns text_lower).

(** [detect_language].  Its [except] branch is not reachable on a [str]. *)
Definition detect_language (self : LanguageManager) (text : pystr) : pystr :=
  match text with
  | [] => current_language self
  | _ =>
    let (hindi, english) := scores text in
    if english <? hindi then str "hindi"
    else if hindi <? english then str "english"
    else current_language self
  end.

(** [set_language] *)
Definition set_language (self : LanguageManager) (language : pystr) : LanguageManager :=
  if existsb (PyStr.eqb (lower language)) supported_languages
  then {| current_language := lower language |}
  else self.

End WithUnicode.

Definition find_translation (lang key : pystr) : option pystr :=
  match dict_get lang translations with
  | Some tbl => dict_get key tbl
  | None => None
  end.

(** [get_text(key)], the [language] argument left at its default: the entry
    of the current language, else the English entry, else the key. *)
Definition get_text (self : LanguageManager) (key : pystr) : pystr :=
  match find_translation (current_language self) key with
  | Some v => v
  | None =>
    match find_translation (str "english") key with
    | Some v => v
    | None => key
    end
  end.

End LanguageManager.

Example detect_hindi_question :
  LanguageManager.detect_language (U := ascii_runtime) LanguageManager.init
    (utf8 "क्या समय है") = str "hindi".
Proof. vm_compute. reflexivity. Qed.

Example detect_english_question :
  LanguageManager.detect_language (U := ascii_runtime) LanguageManager.init
    (str "What time is it") = str "english".
Proof. vm_compute. reflexivity. Qed.

Example get_text_english_fallback :
  LanguageManager.get_text {| LanguageManager.current_language := str "fr" |}
    (str "user_prompt") = str "You".
Proof. vm_compute. reflexivity. Qed.

(* ###################################################################### *)
(** * Exceptions and effects *)

(** Subclasses of [Exception]; these are what [except Exception] receives. *)
Inductive exn :=
| AttributeError (cls attr : pystr)
| KeyError (key : pystr)
| TypeError (msg : pystr)
| OtherException (cls msg : pystr).

Definition quoted (s : pystr) : pystr := str "'" ++ s ++ str "'".

(** [str(e)] *)
Definition exn_str (e : exn) : pystr :=
  match e with
  | AttributeError cls attr =>
      quoted cls ++ str " object has no attribute " ++ quoted attr
  | KeyError key => quoted key
  | TypeError msg => msg
  | OtherException _ msg => msg
  end.

(** ** Computations that read and write a state and may raise *)

Inductive result (A : Type) :=
| Ok (a : A)
| Raise (e : exn).
Arguments Ok {A} a.
Arguments Raise {A} e.

Definition M (S A : Type) : Type := S -> result A * S.

Definition ret {S A} (a : A) : M S A := fun s => (Ok a, s).

Definition raise {S A} (e : exn) : M S A := fun s => (Raise e, s).

Definition bind {S A B} (m : M S A) (k : A -> M S B) : M S B :=
  fun s =>
    match m s with
    | (Ok a, s') => k a s'
    | (Raise e, s') => (Raise e, s')
    end.

(** [try: m except Exception as e: handler e].  What [m] wrote before it
    raised stays written. *)
Definition try_except {S A} (m : M S A) (handler : exn -> M S A) : M S A :=
  fun s =>
    match m s with
    | (Ok a, s') => (Ok a, s')
    | (Raise e, s') => handler e s'
    end.

Definition get_state {S} : M S S := fun s => (Ok s, s).
Definition modify {S} (f : S -> S) : M S unit := fun s => (Ok tt, f s).
Definition when_ {S} (b : bool) (m : M S unit) : M S unit :=
  if b then m else ret tt.

Declare Scope py_scope.
Delimit Scope py_scope with py.
Notation "x <- m ;; k" := (bind m (fun x => k))
  (at level 61, m at next level, right associativity) : py_scope.
Notation "m ;; k" := (bind m (fun _ => k))
  (at level 61, right associativity) : py_scope.
Open Scope py_scope.

(** ** Operations of the object protocol used by the orchestrator *)

Section ObjectProtocol.
Context {S : Type}.

(** [v.get(key, default)] *)
Definition py_get (v : pyval) (key : pystr) (default : pyval) : M S pyval :=
  match v with
  | VDict d =>
      ret (match dict_get key d with Some x => x | None => default end)
  | _ => raise (AttributeError (type_name v) (str "get"))
  end.

(** [v[key]] *)
Definition py_getitem (v : pyval) (key : pystr) : M S pyval :=
  match v with
  | VDict d =>
      match dict_get key d with
      | Some x => ret x
      | None => raise (KeyError key)
      end
  | _ => raise (TypeError
                  (quoted (type_name v) ++ str " object is not subscriptable"))
  end.

(** [v[key] = x]; returns the updated object. *)
Definition py_setitem (v : pyval) (key : pystr) (x : pyval) : M S pyval :=
  match v with
  | VDict d => ret (VDict (dict_set key x d))
  | _ => raise (TypeError
                  (quoted (type_name v)
                   ++ str " object does not support item assignment"))
  end.

End ObjectProtocol.

(** [str(v)], as an f-string renders a value. *)
Definition py_str {U : Runtime} (v : pyval) : pystr :=
  match v with
  | VNone => str "None"
  | VBool true => str "True"
  | VBool false => str "False"
  | VInt z => of_Z z
  | VFloat q => float_str q
  | VStr s => s
  | VDatetime text => text
  | VList _ | VDict _ | VObj _ _ => container_str v
  end.

(** [l[-n:]] for a positive [n]: the last [n] elements, all of [l] when it
    is shorter. *)
Definition last_n {A : Type} (n : nat) (l : list A) : list A :=
  skipn (List.length l - n) l.

(* ###################################################################### *)
(** * core/jarvis_brain.py *)

Module Brain.

(** The [AIResponse] dataclass. *)
Record AIResponse := {
  text : pystr;
  confidence : Q;
  requires_system_action : bool;
  requires_hardware_action : bool;
  system_command : option pystr;
  hardware_command : option pystr;
  parameters : option pydict;
  context : pyval;
  success : bool
}.

Definition opt_str (o : option pystr) : pyval :=
  match o with Some s => VStr s | None => VNone end.

(** The attributes of an instance, by name. *)
Definition fields (r : AIResponse) : pydict :=
    [ (str "text", VStr (text r));
      (str "confidence", VFloat (confidence r));
      (str "requires_system_action", VBool (requires_system_action r));
      (str "requires_hardware_action", VBool (requires_hardware_action r));
      (str "system_command", opt_str (system_command r));
      (str "hardware_command", opt_str (hardware_command r));
      (str "parameters",
       match parameters r with Some d => VDict d | None => VNone end);
      (str "context", context r);
      (str "success", VBool (success r)) ].

(** The instance as the duck-typed caller sees it. *)
Definition to_object (r : AIResponse) : pyval :=
  VObj (str "AIResponse") (fields r).

(** The intent dictionary of [_analyze_intent]. *)
Record Intent := {
  intent_type : pystr;
  intent_confidence : Q;
  intent_entities : list pyval;
  intent_action : pyval;
  intent_parameters : pydict
}.

(** The dictionary returned by [_check_system_commands]. *)
Record SystemAction := {
  sa_required : bool;
  sa_type : pystr;
  sa_command : pystr;
  sa_parameters : pydict
}.

Record Message := { role : pystr; content : pystr }.

(** What one call to the text-generation service comes back with: a reply
    with its status code and what [result['choices'][0]['message']['content']]
    evaluates to (a string, or a raise while decoding the body), or a raise
    from [requests.post] itself. *)
Inductive http_reply :=
| Reply (status_code : Z) (body_content : result pystr)
| TransportFailure (e : exn).

(** The attributes of [JARVISBrain] that the command path reads or writes.
    [system_prompt] exists only once [initialize] has run; the brain owns a
    [LanguageManager] of its own.  The float-valued metrics
    ([response_times], [success_rate]) are left out. *)
Record JARVISBrain := {
  language_manager : LanguageManager.LanguageManager;
  system_prompt : option pystr;
  conversation_history : list Message;
  total_queries : Z;
  successful_queries : Z
}.

Definition set_history (h : list Message) (self : JARVISBrain) : JARVISBrain :=
  {| language_manager := language_manager self;
     system_prompt := system_prompt self;
     conversation_history := h;
     total_queries := total_queries self;
     successful_queries := successful_queries self |}.

Definition incr_total (self : JARVISBrain) : JARVISBrain :=
  {| language_manager := language_manager self;
     system_prompt := system_prompt self;
     conversation_history := conversation_history self;
     total_queries := total_queries self + 1;
     successful_queries := successful_queries self |}.

Definition incr_successful (self : JARVISBrain) : JARVISBrain :=
  {| language_manager := language_manager self;
     system_prompt := system_prompt self;
     conversation_history := conversation_history self;
     total_queries := total_queries self;
     successful_queries := successful_queries self + 1 |}.

(** [__init__] followed by a successful [initialize] with no saved
    conversation. *)
Definition init (prompt : pystr) : JARVISBrain :=
  {| language_manager := LanguageManager.init;
     system_prompt := Some prompt;
     conversation_history := [];
     total_queries := 0;
     successful_queries := 0 |}.

Section WithRuntime.
Context {U : Runtime}.

(** [any(word in s for word in words)] *)
Definition any_in (words : list pystr) (s : pystr) : bool :=
  existsb (fun word => contains word s) words.

Definition system_words := map str ["shutdown"; "restart"; "sleep"; "lock"]%string.
Definition file_words := map str ["open"; "create"; "delete"; "file"]%string.
Definition application_words := map str ["launch"; "start"; "close"; "app"]%string.
Definition information_words :=
  map str ["what"; "how"; "when"; "where"; "why"]%string.
Definition status_words := map str ["status"; "health"; "performance"]%string.

Definition mk_intent (ty : pystr) (c : Q) : Intent :=
  {| intent_type := ty; intent_confidence := c; intent_entities := [];
     intent_action := VNone; intent_parameters := [] |}.

(** [_analyze_intent] *)
Definition _analyze_intent (command : pystr) : Intent :=
  let command_lower := lower command in
  if any_in system_words command_lower then
    mk_intent (str "system_control") (9 # 10)
  else if any_in file_words command_lower then
    mk_intent (str "file_operation") (8 # 10)
  else if any_in application_words command_lower then
    mk_intent (str "application_control") (8 # 10)
  else if any_in information_words command_lower then
    mk_intent (str "information_request") (7 # 10)
  else if any_in status_words command_lower then
    mk_intent (str "system_status") (9 # 10)
  else
    mk_intent (str "general") (5 # 10).

(** [_check_system_commands] *)
Definition _check_system_commands (command : pystr) (intent : Intent)
  : option SystemAction :=
  if existsb (PyStr.eqb (intent_type intent))
       (map str ["system_control"; "file_operation"; "application_control";
                 "system_status"]%string)
  then Some {| sa_required := true; sa_type := intent_type intent;
               sa_command := command;
               sa_parameters := intent_parameters intent |}
  else None.

(** The context summary of [_prepare_messages]. *)
Definition context_info (context : pyval) (intent : Intent)
  : M JARVISBrain pystr :=
  timestamp <- py_get context (str "timestamp") (VStr (str "Unknown")) ;;
  language <- py_get context (str "language") (VStr (str "english")) ;;
  system_state <- py_get context (str "system_state") (VDict []) ;;
  cpu <- py_get system_state (str "cpu_percent") (VStr (str "Unknown")) ;;
  ret ([10%N] ++ str "Current Context:" ++ [10%N]
       ++ str "- Time: " ++ py_str timestamp ++ [10%N]
       ++ str "- Language: " ++ py_str language ++ [10%N]
       ++ str "- System Load: " ++ py_str cpu ++ str "%" ++ [10%N]
       ++ str "- Intent: " ++ intent_type intent
       ++ str " (confidence: " ++ float_2f (intent_confidence intent)
       ++ str ")" ++ [10%N]).

(** [_prepare_messages] *)
Definition _prepare_messages (command : pystr) (context : pyval)
    (intent : Intent) : M JARVISBrain (list Message) :=
  self <- get_state ;;
  match system_prompt self with
  | None => raise (AttributeError (str "JARVISBrain") (str "system_prompt"))
  | Some prompt =>
    let messages := [ {| role := str "system"; content := prompt |} ] in
    let recent_history := last_n 5 (conversation_history self) in
    let messages := messages ++ recent_history in
    messages <-
      (if truthy context then
         info <- context_info context intent ;;
         ret (messages ++ [ {| role := str "system"; content := info |} ])
       else ret messages) ;;
    ret (messages ++ [ {| role := str "user"; content := command |} ])
  end.

(** [_get_ai_response]: every failure is turned into a message text. *)
Definition _get_ai_response (self : JARVISBrain) (reply : http_reply) : pystr :=
  match reply with
  | Reply status_code body_content =>
    if (status_code =? 200)%Z then
      match body_content with
      | Ok c => strip c
      | Raise _ => LanguageManager.get_text (language_manager self) (str "ai_error")
      end
    else LanguageManager.get_text (language_manager self) (str "api_error")
  | TransportFailure _ =>
      LanguageManager.get_text (language_manager self) (str "ai_error")
  end.

(** [_process_ai_response] *)
Definition _process_ai_response (ai_text : pystr)
    (system_action : option SystemAction) (context : pyval) : AIResponse :=
  let response :=
    {| text := ai_text; confidence := 8 # 10;
       requires_system_action := false; requires_hardware_action := false;
       system_command := None; hardware_command := None;
       parameters := None; context := context; success := true |} in
  match system_action with
  | Some sa =>
    {| text := text response; confidence := confidence response;
       requires_system_action := true;
       requires_hardware_action := requires_hardware_action response;
       system_command := Some (sa_type sa);
       hardware_command := hardware_command response;
       parameters := Some (sa_parameters sa);
       context := context; success := success response |}
  | None => response
  end.

(** [_update_conversation_history] *)
Definition _update_conversation_history (command : pystr)
    (response : AIResponse) (self : JARVISBrain) : JARVISBrain :=
  let history :=
    conversation_history self
    ++ [ {| role := str "user"; content := command |};
         {| role := str "assistant"; content := text response |} ] in
  if 20 <? List.length history
  then set_history (last_n 20 history) self
  else set_history history self.

(** [process_command]; [service] is the text-generation service, which
    answers the message list it is sent. *)
Definition process_command (service : list Message -> http_reply)
    (command : pystr) (context : pyval) : M JARVISBrain AIResponse :=
  try_except
    (modify incr_total ;;
     let intent := _analyze_intent command in
     let system_action := _check_system_commands command intent in
     messages <- _prepare_messages command context intent ;;
     self <- get_state ;;
     let ai_response := _get_ai_response self (service messages) in
     let response := _process_ai_response ai_response system_action context in
     when_ (success response) (modify incr_successful) ;;
     modify (_update_conversation_history command response) ;;
     ret response)
    (fun _ =>
       self <- get_state ;;
       ret {| text := LanguageManager.get_text (language_manager self)
                        (str "error_processing");
              confidence := 0%Q;
              requires_system_action := false;
              requires_hardware_action := false;
              system_command := None; hardware_command := None;
              parameters := None; context := VNone;
              success := false |}).

End WithRuntime.
End Brain.

(* ###################################################################### *)
(** * core/learning_engine.py *)

Module LearningEngine.

(** What [datetime.now()] and [datetime.fromisoformat] give during one call:
    the ISO text of the instant, its hour and weekday, and whether a stored
    timestamp lies within the last hour ([None] when it does not parse). *)
Record Clock := {
  isoformat : pystr;
  hour : Z;
  weekday : Z;
  within_last_hour : pystr -> option bool
}.

(** One entry of [user_interactions]. *)
Record Interaction := {
  timestamp : pystr;
  command : pystr;
  response : pyval;
  feedback : pyval;
  context : pydict
}.

Section WithModels.
(** The frequency and pattern tables are kept abstract: [_update_models]
    swallows its own exceptions and touches nothing else. *)
Variable Models : Type.
Variable _update_models : Interaction -> Models -> Models.

Record LearningEngine := {
  learning_enabled : bool;
  user_interactions : list Interaction;
  user_preferences : pyval;
  models : Models
}.

(** [_get_current_context]; the class has no [current_language] attribute,
    so [getattr] yields its default. *)
Definition _get_current_context (now : Clock) (self : LearningEngine) : pydict :=
  [ (str "hour", VInt (hour now));
    (str "day_of_week", VInt (weekday now));
    (str "language", VStr (str "english"));
    (str "session_length",
     VInt (Z.of_nat (List.length (user_interactions self)))) ].

Definition max_interactions : nat := N.to_nat 10000.

(** [learn_from_interaction(command, response)], [feedback] at its
    default. *)
Definition learn_from_interaction (now : Clock) (command : pystr)
    (response : pyval) (self : LearningEngine) : LearningEngine :=
  if negb (learning_enabled self) then self
  else
    let interaction :=
      {| timestamp := isoformat now; command := command;
         response := response; feedback := VNone;
         context := _get_current_context now self |} in
    let interactions := user_interactions self ++ [interaction] in
    let models' := _update_models interaction (models self) in
    let interactions :=
      if max_interactions <? List.length interactions
      then last_n max_interactions interactions
      else interactions in
    {| learning_enabled := learning_enabled self;
       user_interactions := interactions;
       user_preferences := user_preferences self;
       models := models' |}.

(** [_get_current_session_length]: any timestamp that does not parse makes
    the whole count 0. *)
Definition _get_current_session_length (now : Clock) (self : LearningEngine)
  : Z :=
  let tests := map (fun i => within_last_hour now (timestamp i))
                   (user_interactions self) in
  if forallb (fun t => match t with Some _ => true | None => false end) tests
  then Z.of_nat (List.length
                   (filter (fun t => match t with Some b => b | None => false end)
                           tests))
  else 0%Z.

(** [_get_time_pattern] *)
Definition _get_time_pattern (now : Clock) : pystr :=
  let h := hour now in
  if (6 <=? h)%Z && (h <? 12)%Z then str "morning"
  else if (12 <=? h)%Z && (h <? 18)%Z then str "afternoon"
  else if (18 <=? h)%Z && (h <? 22)%Z then str "evening"
  else str "night".

(** [x[:5]] *)
Definition slice5 (v : pyval) : M LearningEngine pyval :=
  match v with
  | VList l => ret (VList (firstn 5 l))
  | VStr s => ret (VStr (firstn 5 s))
  | VDict _ => raise (TypeError (str "unhashable type: 'slice'"))
  | _ => raise (TypeError
                  (quoted (type_name v) ++ str " object is not subscriptable"))
  end.

(** [get_user_context]: the summary, or [{}] when building it raises. *)
Definition get_user_context (now : Clock) : M LearningEngine pyval :=
  try_except
    (self <- get_state ;;
     common <- py_get (user_preferences self) (str "common_commands") (VList []) ;;
     common5 <- slice5 common ;;
     preferred <- py_get (user_preferences self) (str "preferred_language")
                    (VStr (str "english")) ;;
     ret (VDict
            [ (str "total_interactions",
               VInt (Z.of_nat (List.length (user_interactions self))));
              (str "common_commands", common5);
              (str "preferred_language", preferred);
              (str "current_session_length",
               VInt (_get_current_session_length now self));
              (str "time_of_day_pattern", VStr (_get_time_pattern now)) ]))
    (fun _ => ret (VDict [])).

End WithModels.
End LearningEngine.

(* ###################################################################### *)
(** * core/system_controller.py and core/hardware_controller.py *)

Module SystemController.

(** The operating-system actions behind the handlers.  Each of these
    methods catches its own exceptions and returns a sentence, except
    [_get_general_status], which may raise. *)
Record OS := {
  _shutdown_system : pyval -> pystr;
  _restart_system : pyval -> pystr;
  _sleep_system : pystr;
  _lock_system : pystr;
  _launch_application : pyval -> pystr;
  _get_general_status : result pystr
}.

Record SystemController := {
  system_state : pydict;
  os : OS
}.

Section WithRuntime.
Context {U : Runtime}.

Definition missing {A} (method : string) : M SystemController A :=
  raise (AttributeError (str "SystemController") (str method)).

(** [v.lower()] on a value read from the parameters. *)
Definition py_lower (v : pyval) : M SystemController pystr :=
  match v with
  | VStr s => ret (lower s)
  | _ => raise (AttributeError (type_name v) (str "lower"))
  end.

Definition is_str (v : pyval) (s : string) : bool :=
  match v with VStr x => PyStr.eqb x (str s) | _ => false end.

(** [_handle_system_control]; [_hibernate_system] is not defined by the
    class. *)
Definition _handle_system_control (parameters : pyval)
  : M SystemController pystr :=
  self <- get_state ;;
  a <- py_get parameters (str "action") (VStr []) ;;
  action <- py_lower a ;;
  if PyStr.eqb action (str "shutdown") then
    delay <- py_get parameters (str "delay") (VInt 60) ;;
    ret (_shutdown_system (os self) delay)
  else if PyStr.eqb action (str "restart") then
    delay <- py_get parameters (str "delay") (VInt 60) ;;
    ret (_restart_system (os self) delay)
  else if PyStr.eqb action (str "sleep") then ret (_sleep_system (os self))
  else if PyStr.eqb action (str "lock") then ret (_lock_system (os self))
  else if PyStr.eqb action (str "hibernate") then missing "_hibernate_system"
  else ret (str "Unknown system control action: " ++ action).

(** [_handle_file_operation]; none of the file methods is defined by the
    class, and the method is looked up before its arguments are
    evaluated. *)
Definition _handle_file_operation (parameters : pyval)
  : M SystemController pystr :=
  o <- py_get parameters (str "operation") (VStr []) ;;
  operation <- py_lower o ;;
  _ <- py_get parameters (str "path") (VStr []) ;;
  if PyStr.eqb operation (str "create") then missing "_create_file"
  else if PyStr.eqb operation (str "delete") then missing "_delete_file"
  else if PyStr.eqb operation (str "copy") then missing "_copy_file"
  else if PyStr.eqb operation (str "move") then missing "_move_file"
  else if PyStr.eqb operation (str "search") then missing "_search_files"
  else ret (str "Unknown file operation: " ++ operation).

(** [_handle_application_control] *)
Definition _handle_application_control (parameters : pyval)
  : M SystemController pystr :=
  self <- get_state ;;
  a <- py_get parameters (str "action") (VStr []) ;;
  action <- py_lower a ;;
  app_name <- py_get parameters (str "app_name") (VStr []) ;;
  if PyStr.eqb action (str "launch") then
    ret (_launch_application (os self) app_name)
  else if PyStr.eqb action (str "close") then missing "_close_application"
  else if PyStr.eqb action (str "list") then missing "_list_applications"
  else ret (str "Unknown application action: " ++ action).

Definition general_status : M SystemController pystr :=
  self <- get_state ;;
  match _get_general_status (os self) with
  | Ok s => ret s
  | Raise e => raise e
  end.

(** [_handle_system_status] *)
Definition _handle_system_status (parameters : pyval)
  : M SystemController pystr :=
  t <- py_get parameters (str "type") (VStr (str "general")) ;;
  status_type <- py_lower t ;;
  if PyStr.eqb status_type (str "general") then general_status
  else if PyStr.eqb status_type (str "detailed") then
    missing "_get_detailed_status"
  else if PyStr.eqb status_type (str "performance") then
    missing "_get_performance_status"
  else general_status.

(** The [try] block of [execute_command]. *)
Definition execute_command_body (command parameters : pyval)
  : M SystemController pystr :=
  let parameters :=
    match parameters with VNone => VDict [] | _ => parameters end in
  if is_str command "system_control" then
    _handle_system_control parameters
  else if is_str command "file_operation" then
    _handle_file_operation parameters
  else if is_str command "application_control" then
    _handle_application_control parameters
  else if is_str command "system_status" then
    _handle_system_status parameters
  else ret (str "Unknown system command: " ++ py_str command).

(** [execute_command] *)
Definition execute_command (command parameters : pyval)
  : M SystemController pystr :=
  try_except (execute_command_body command parameters)
    (fun e => ret (str "Error executing command: " ++ exn_str e)).

(** [get_system_state]: a copy of the state dictionary. *)
Definition get_system_state : M SystemController pyval :=
  self <- get_state ;; ret (VDict (system_state self)).

(** [get_system_load] and [get_active_applications] are called by the
    context assembly but are not defined by the class: the attribute lookup
    raises. *)
Definition get_system_load : M SystemController pyval :=
  missing "get_system_load".

Definition get_active_applications : M SystemController pyval :=
  missing "get_active_applications".

End WithRuntime.
End SystemController.

Module HardwareController.

(** The four reports; each method catches its own exceptions. *)
Record HardwareController := {
  _get_hardware_status : pystr;
  _get_temperature_info : pystr;
  _get_performance_info : pystr;
  _optimize_performance : pystr
}.

Section WithRuntime.
Context {U : Runtime}.

(** [execute_command]; its [try] body cannot raise. *)
Definition execute_command (command parameters : pyval)
  : M HardwareController pystr :=
  self <- get_state ;;
  if SystemController.is_str command "get_status" then
    ret (_get_hardware_status self)
  else if SystemController.is_str command "get_temperatures" then
    ret (_get_temperature_info self)
  else if SystemController.is_str command "get_performance" then
    ret (_get_performance_info self)
  else if SystemController.is_str command "optimize_performance" then
    ret (_optimize_performance self)
  else ret (str "Unknown hardware command: " ++ py_str command).

End WithRuntime.
End HardwareController.

(* ###################################################################### *)
(** * jarvis_main.py *)

Module Orchestrator.

(** Calls that leave the orchestrator, recorded when they are made. *)
Inductive Call :=
| BrainCall (command : pystr) (context : pyval)
| SystemDispatch (command parameters : pyval)
| HardwareDispatch (command parameters : pyval)
| LearnCall (command : pystr) (response : pyval).

Definition is_dispatch_or_learn (c : Call) : bool :=
  match c with BrainCall _ _ => false | _ => true end.

Definition is_hardware_dispatch (c : Call) : bool :=
  match c with HardwareDispatch _ _ => true | _ => false end.

(** The collaborators of [AdvancedJARVIS], as the orchestrator uses them:
    methods that act on the collaborators' own state [Env], return any
    Python value and may raise. *)
Record Collaborators (Env : Type) := {
  now : M Env pyval;
  time_of_day : M Env pyval;
  day_of_week : M Env pyval;
  get_system_state : M Env pyval;
  get_system_load : M Env pyval;
  get_active_applications : M Env pyval;
  system_execute_command : pyval -> pyval -> M Env pyval;
  hardware_execute_command : pyval -> pyval -> M Env pyval;
  get_status : M Env pyval;
  get_user_context : M Env pyval;
  learn_from_interaction : pystr -> pyval -> M Env unit;
  brain_process_command : pystr -> pyval -> M Env pyval
}.

(** The attributes of [AdvancedJARVIS] that [process_command] reads or
    writes, and the record of calls made. *)
Record AdvancedJARVIS := {
  language_manager : LanguageManager.LanguageManager;
  current_language : pystr;
  commands_processed : Z;
  successful_operations : Z;
  learning_mode : bool;
  calls : list Call
}.

(** [__init__] *)
Definition init : AdvancedJARVIS :=
  {| language_manager := LanguageManager.init;
     current_language := str "english";
     commands_processed := 0;
     successful_operations := 0;
     learning_mode := true;
     calls := [] |}.

Section WithCollaborators.
Context {U : Runtime}.
Variable Env : Type.
Variable c : Collaborators Env.

Definition St : Type := (AdvancedJARVIS * Env)%type.

(** A collaborator's method runs on the collaborators' state. *)
Definition call {A} (m : M Env A) : M St A :=
  fun s =>
    match m (snd s) with
    | (r, e') => (r, (fst s, e'))
    end.

Definition self_ : M St AdvancedJARVIS := fun s => (Ok (fst s), s).

Definition update (f : AdvancedJARVIS -> AdvancedJARVIS) : M St unit :=
  fun s => (Ok tt, (f (fst s), snd s)).

Definition record_call (x : Call) : M St unit :=
  update (fun j =>
    {| language_manager := language_manager j;
       current_language := current_language j;
       commands_processed := commands_processed j;
       successful_operations := successful_operations j;
       learning_mode := learning_mode j;
       calls := calls j ++ [x] |}).

Definition set_detected (lang : pystr) (j : AdvancedJARVIS) : AdvancedJARVIS :=
  {| language_manager :=
       LanguageManager.set_language (language_manager j) lang;
     current_language := lang;
     commands_processed := commands_processed j;
     successful_operations := successful_operations j;
     learning_mode := learning_mode j;
     calls := calls j |}.

Definition incr_processed (j : AdvancedJARVIS) : AdvancedJARVIS :=
  {| language_manager := language_manager j;
     current_language := current_language j;
     commands_processed := commands_processed j + 1;
     successful_operations := successful_operations j;
     learning_mode := learning_mode j;
     calls := calls j |}.

Definition incr_successful (j : AdvancedJARVIS) : AdvancedJARVIS :=
  {| language_manager := language_manager j;
     current_language := current_language j;
     commands_processed := commands_processed j;
     successful_operations := successful_operations j + 1;
     learning_mode := learning_mode j;
     calls := calls j |}.

(** [_get_environment_context] *)
Definition _get_environment_context : M St pyval :=
  tod <- call (time_of_day c) ;;
  dow <- call (day_of_week c) ;;
  load <- call (get_system_load c) ;;
  net <- call (get_status c) ;;
  apps <- call (get_active_applications c) ;;
  ret (VDict [ (str "time_of_day", tod);
               (str "day_of_week", dow);
               (str "system_load", load);
               (str "network_status", net);
               (str "active_applications", apps) ]).

(** [_analyze_context] *)
Definition _analyze_context (command : pystr) : M St pyval :=
  timestamp <- call (now c) ;;
  self <- self_ ;;
  system_state <- call (get_system_state c) ;;
  user_history <- call (get_user_context c) ;;
  environment <- _get_environment_context ;;
  ret (VDict [ (str "timestamp", timestamp);
               (str "language", VStr (current_language self));
               (str "system_state", system_state);
               (str "user_history", user_history);
               (str "environment", environment) ]).

(** The two dispatch steps of [process_command]. *)
Definition dispatch_system (response : pyval) : M St pyval :=
  flag <- py_get response (str "requires_system_action") VNone ;;
  if truthy flag then
    command <- py_getitem response (str "system_command") ;;
    parameters <- py_get response (str "parameters") (VDict []) ;;
    record_call (SystemDispatch command parameters) ;;
    system_result <- call (system_execute_command c command parameters) ;;
    py_setitem response (str "system_result") system_result
  else ret response.

Definition dispatch_hardware (response : pyval) : M St pyval :=
  flag <- py_get response (str "requires_hardware_action") VNone ;;
  if truthy flag then
    command <- py_getitem response (str "hardware_command") ;;
    parameters <- py_get response (str "parameters") (VDict []) ;;
    record_call (HardwareDispatch command parameters) ;;
    hardware_result <- call (hardware_execute_command c command parameters) ;;
    py_setitem response (str "hardware_result") hardware_result
  else ret response.

(** The [try] block of [process_command]. *)
Definition process_command_body (command : pystr) : M St pyval :=
  update incr_processed ;;
  self <- self_ ;;
  let detected_lang :=
    LanguageManager.detect_language (language_manager self) command in
  when_ (negb (PyStr.eqb detected_lang (current_language self)))
        (update (set_detected detected_lang)) ;;
  context <- _analyze_context command ;;
  record_call (BrainCall command context) ;;
  response <- call (brain_process_command c command context) ;;
  response <- dispatch_system response ;;
  response <- dispatch_hardware response ;;
  self <- self_ ;;
  when_ (learning_mode self)
        (record_call (LearnCall command response) ;;
         call (learn_from_interaction c command response)) ;;
  update incr_successful ;;
  ret response.

(** The dictionary built by the [except] branch. *)
Definition error_response (lm : LanguageManager.LanguageManager) (e : exn) : pyval :=
  VDict [ (str "text",
           VStr (LanguageManager.get_text lm (str "error_processing")));
          (str "success", VBool false);
          (str "error", VStr (exn_str e)) ].

(** [process_command] *)
Definition process_command (command : pystr) : M St pyval :=
  try_except (process_command_body command)
    (fun e => self <- self_ ;; ret (error_response (language_manager self) e)).

End WithCollaborators.

Arguments self_ {Env}.
Arguments update {Env} f.
Arguments record_call {Env} x.
Arguments call {Env A} m.

End Orchestrator.

(* ###################################################################### *)
(** * The collaborators of the repository *)

Module Repo.
Import Orchestrator.

Section WithModels.
Context {U : Runtime}.
Variable Models : Type.
Variable _update_models : LearningEngine.Interaction -> Models -> Models.

(** Everything [AdvancedJARVIS] owns besides its own attributes, and what
    the outside world answers during one command: the text-generation
    service, the clock, and the snapshot that [NetworkManager.get_status]
    returns. *)
Record World := {
  brain : Brain.JARVISBrain;
  service : list Brain.Message -> Brain.http_reply;
  system_controller : SystemController.SystemController;
  hardware_controller : HardwareController.HardwareController;
  learning_engine : LearningEngine.LearningEngine Models;
  network_status : pyval;
  clock : LearningEngine.Clock;
  clock_text : pystr;
  clock_time_of_day : pystr;
  clock_day_of_week : pystr
}.

Definition set_brain (b : Brain.JARVISBrain) (w : World) : World :=
  {| brain := b; service := service w;
     system_controller := system_controller w;
     hardware_controller := hardware_controller w;
     learning_engine := learning_engine w;
     network_status := network_status w; clock := clock w;
     clock_text := clock_text w;
     clock_time_of_day := clock_time_of_day w;
     clock_day_of_week := clock_day_of_week w |}.

Definition set_system_controller (x : SystemController.SystemController)
    (w : World) : World :=
  {| brain := brain w; service := service w;
     system_controller := x;
     hardware_controller := hardware_controller w;
     learning_engine := learning_engine w;
     network_status := network_status w; clock := clock w;
     clock_text := clock_text w;
     clock_time_of_day := clock_time_of_day w;
     clock_day_of_week := clock_day_of_week w |}.

Definition set_hardware_controller (x : HardwareController.HardwareController)
    (w : World) : World :=
  {| brain := brain w; service := service w;
     system_controller := system_controller w;
     hardware_controller := x;
     learning_engine := learning_engine w;
     network_status := network_status w; clock := clock w;
     clock_text := clock_text w;
     clock_time_of_day := clock_time_of_day w;
     clock_day_of_week := clock_day_of_week w |}.

Definition set_learning_engine (x : LearningEngine.LearningEngine Models)
    (w : World) : World :=
  {| brain := brain w; service := service w;
     system_controller := system_controller w;
     hardware_controller := hardware_controller w;
     learning_engine := x;
     network_status := network_status w; clock := clock w;
     clock_text := clock_text w;
     clock_time_of_day := clock_time_of_day w;
     clock_day_of_week := clock_day_of_week w |}.

(** A method of one component, run inside the world. *)
Definition within {S A} (proj : World -> S) (inj : S -> World -> World)
    (m : M S A) : M World A :=
  fun w => match m (proj w) with (r, s') => (r, inj s' w) end.

Definition reading {A} (f : World -> A) : M World A := fun w => (Ok (f w), w).

(** The collaborators as the repository defines them. *)
Definition collaborators : Collaborators World :=
  {| now := reading (fun w => VDatetime (clock_text w));
     time_of_day := reading (fun w => VStr (clock_time_of_day w));
     day_of_week := reading (fun w => VStr (clock_day_of_week w));
     get_system_state :=
       within system_controller set_system_controller
         SystemController.get_system_state;
     get_system_load :=
       within system_controller set_system_controller
         SystemController.get_system_load;
     get_active_applications :=
       within system_controller set_system_controller
         SystemController.get_active_applications;
     system_execute_command := fun command parameters =>
       s <- within system_controller set_system_controller
              (SystemController.execute_command command parameters) ;;
       ret (VStr s);
     hardware_execute_command := fun command parameters =>
       s <- within hardware_controller set_hardware_controller
              (HardwareController.execute_command command parameters) ;;
       ret (VStr s);
     get_status := reading network_status;
     get_user_context :=
       w <- get_state ;;
       within learning_engine set_learning_engine
         (LearningEngine.get_user_context (clock w));
     learn_from_interaction := fun command response =>
       modify (fun w =>
         set_learning_engine
           (LearningEngine.learn_from_interaction _update_models (clock w)
              command response (learning_engine w)) w);
     brain_process_command := fun command context =>
       w <- get_state ;;
       r <- within brain set_brain
              (Brain.process_command (service w) command context) ;;
       ret (Brain.to_object r) |}.

(** The same collaborators with the two methods that [SystemController]
    lacks supplied, each returning a fixed value. *)
Definition collaborators_with (load applications : pyval)
  : Collaborators World :=
  {| now := now collaborators;
     time_of_day := time_of_day collaborators;
     day_of_week := day_of_week collaborators;
     get_system_state := get_system_state collaborators;
     get_system_load := ret load;
     get_active_applications := ret applications;
     system_execute_command := system_execute_command collaborators;
     hardware_execute_command := hardware_execute_command collaborators;
     get_status := get_status collaborators;
     get_user_context := get_user_context collaborators;
     learn_from_interaction := learn_from_interaction collaborators;
     brain_process_command := brain_process_command collaborators |}.

(** The same again, with a network manager whose [get_status] raises. *)
Definition collaborators_with_failing_network (load applications : pyval)
    (e : exn) : Collaborators World :=
  {| now := now collaborators;
     time_of_day := time_of_day collaborators;
     day_of_week := day_of_week collaborators;
     get_system_state := get_system_state collaborators;
     get_system_load := ret load;
     get_active_applications := ret applications;
     system_execute_command := system_execute_command collaborators;
     hardware_execute_command := hardware_execute_command collaborators;
     get_status := raise e;
     get_user_context := get_user_context collaborators;
     learn_from_interaction := learn_from_interaction collaborators;
     brain_process_command := brain_process_command collaborators |}.

End WithModels.

(** ** A concrete world, for running the model *)

Definition quiet_os : SystemController.OS :=
  {| SystemController._shutdown_system := fun _ =>
       str "System shutdown scheduled in 60 seconds, Sir.";
     SystemController._restart_system := fun _ =>
       str "System restart scheduled in 60 seconds, Sir.";
     SystemController._sleep_system := str "System entering sleep mode, Sir.";
     SystemController._lock_system := str "System locked, Sir.";
     SystemController._launch_application := fun _ => str "Launched , Sir.";
     SystemController._get_general_status := Ok (str "System Status Report:") |}.

Definition noon : LearningEngine.Clock :=
  {| LearningEngine.isoformat := str "2024-01-01T12:00:00";
     LearningEngine.hour := 12; LearningEngine.weekday := 0;
     LearningEngine.within_last_hour := fun _ => Some true |}.

(** The world after start-up, with a service that answers every request by
    [reply]. *)
Definition world0 (reply : Brain.http_reply) : World unit :=
  {| brain := Brain.init (str "You are JARVIS");
     service := fun _ => reply;
     system_controller :=
       {| SystemController.system_state := [ (str "cpu_percent", VFloat 0) ];
          SystemController.os := quiet_os |};
     hardware_controller :=
       {| HardwareController._get_hardware_status := str "Hardware Status Report:";
          HardwareController._get_temperature_info :=
            str "Temperature sensors not available";
          HardwareController._get_performance_info :=
            str "No performance data available";
          HardwareController._optimize_performance :=
            str "System performance is optimal" |};
     learning_engine :=
       {| LearningEngine.learning_enabled := true;
          LearningEngine.user_interactions := [];
          LearningEngine.user_preferences := VDict [];
          LearningEngine.models := tt |};
     network_status := VDict [ (str "initialized", VBool true) ];
     clock := noon;
     clock_text := str "2024-01-01 12:00:00";
     clock_time_of_day := str "12:00";
     clock_day_of_week := str "Monday" |}.

Definition no_models (_ : LearningEngine.Interaction) (m : unit) : unit := m.

End Repo.

(* ###################################################################### *)
(** * Properties of the intent classifier *)

Section IntentClassifier.
Import Brain.
Context {U : Runtime}.

(** The priority list in the words of the specification: ordered entries of
    category, keyword set and confidence; the first entry with a keyword in
    the text wins, and [general] with 0.5 is the default. *)
Definition intent_priority : list (pystr * list pystr * Q) :=
  [ (str "system_control", system_words, (9 # 10)%Q);
    (str "file_operation", file_words, (8 # 10)%Q);
    (str "application_control", application_words, (8 # 10)%Q);
    (str "information_request", information_words, (7 # 10)%Q);
    (str "system_status", status_words, (9 # 10)%Q) ].

Fixpoint first_match (table : list (pystr * list pystr * Q)) (s : pystr)
  : pystr * Q :=
  match table with
  | [] => (str "general", (5 # 10)%Q)
  | (category, words, conf) :: rest =>
      if any_in words s then (category, conf) else first_match rest s
  end.

Lemma analyze_intent_first_match (command : pystr) :
  (intent_type (_analyze_intent command),
   intent_confidence (_analyze_intent command))
  = first_match intent_priority (lower command).
Proof.
  unfold _analyze_intent, intent_priority, first_match.
  repeat match goal with
         | |- context [if any_in ?w ?s then _ else _] =>
             destruct (any_in w s); [reflexivity|]
         end.
  reflexivity.
Qed.

Lemma first_match_split table pre category words conf post s :
  table = pre ++ (category, words, conf) :: post ->
  (forall e, In e pre -> any_in (snd (fst e)) s = false) ->
  any_in words s = true ->
  first_match table s = (category, conf).
Proof.
  intros -> Hpre Hw. induction pre as [|[[c0 w0] q0] pre IH]; simpl.
  - now rewrite Hw.
  - pose proof (Hpre (c0, w0, q0) (or_introl eq_refl)) as H0.
    simpl in H0. rewrite H0.
    apply IH. intros e He. apply Hpre. now right.
Qed.

Lemma any_in_shutdown s :
  contains (str "shutdown") s = true -> any_in system_words s = true.
Proof.
  intros H. unfold any_in, system_words.
  cbn [map existsb]. rewrite H. reflexivity.
Qed.

End IntentClassifier.

(** C5.  A command whose lower-cased text contains [shutdown] is classified
    [system_control] with confidence 0.9, whatever other keywords it
    contains; in general the result of [_analyze_intent] is that of the first
    entry of the ordered list system_control, file_operation,
    application_control, information_request, system_status one of whose
    keywords occurs in the lower-cased command. *)
Theorem shutdown_is_system_control :
  forall (U : Runtime) (command : pystr),
    (contains (str "shutdown") (lower command) = true ->
     Brain.intent_type (Brain._analyze_intent command) = str "system_control"
     /\ Brain.intent_confidence (Brain._analyze_intent command) = (9 # 10)%Q)
    /\
    (forall pre category words conf post,
       intent_priority = pre ++ (category, words, conf) :: post ->
       (forall e, In e pre ->
          Brain.any_in (snd (fst e)) (lower command) = false) ->
       Brain.any_in words (lower command) = true ->
       Brain.intent_type (Brain._analyze_intent command) = category
       /\ Brain.intent_confidence (Brain._analyze_intent command) = conf).
Proof.
  intros U command. split.
  - intros H. unfold Brain._analyze_intent.
    rewrite (any_in_shutdown _ H). split; reflexivity.
  - intros pre category words conf post Htab Hpre Hw.
    pose proof (analyze_intent_first_match command) as E.
    rewrite (@first_match_split _ _ _ _ _ _ _ Htab Hpre Hw) in E.
    inversion E. split; reflexivity.
Qed.

Lemma shutdown_is_system_control_witness :
  contains (str "shutdown") (lower (Runtime := ascii_runtime)
                               (str "What happens if I SHUTDOWN the file server"))
  = true
  /\ Brain.intent_type
       (Brain._analyze_intent (U := ascii_runtime)
          (str "What happens if I SHUTDOWN the file server"))
     = str "system_control"
  /\ Brain.intent_confidence
       (Brain._analyze_intent (U := ascii_runtime)
          (str "What happens if I SHUTDOWN the file server"))
     = (9 # 10)%Q.
Proof.
  split; [reflexivity|].
  apply (proj1 (shutdown_is_system_control ascii_runtime
                  (str "What happens if I SHUTDOWN the file server"))).
  reflexivity.
Defined.

(* ###################################################################### *)
(** * Bounds on the two histories *)

Section Bounds.

Lemma last_n_length {A} n (l : list A) : List.length (last_n n l) <= n.
Proof. unfold last_n. rewrite length_skipn. lia. Qed.

Lemma last_n_min {A} n (l : list A) :
  List.length (last_n n l) = Nat.min n (List.length l).
Proof. unfold last_n. rewrite length_skipn. lia. Qed.

Lemma last_n_suffix {A} n (l : list A) :
  l = firstn (List.length l - n) l ++ last_n n l.
Proof. unfold last_n. symmetry. apply firstn_skipn. Qed.

Lemma trimmed_length {A} n (l : list A) :
  List.length (if n <? List.length l then last_n n l else l) <= n.
Proof.
  destruct (Nat.ltb_spec n (List.length l)).
  - apply last_n_length.
  - assumption.
Qed.

Lemma update_history_bound command response self :
  List.length
    (Brain.conversation_history
       (Brain._update_conversation_history command response self)) <= 20.
Proof.
  unfold Brain._update_conversation_history.
  match goal with
  | |- context [20 <? List.length ?h] =>
      pose proof (trimmed_length 20 h) as B; destruct (20 <? List.length h)
  end; exact B.
Qed.

Variable Models : Type.
Variable _update_models : LearningEngine.Interaction -> Models -> Models.

Lemma learn_bound now command response (self : LearningEngine.LearningEngine Models) :
  List.length (LearningEngine.user_interactions self)
    <= LearningEngine.max_interactions ->
  List.length
    (LearningEngine.user_interactions
       (LearningEngine.learn_from_interaction _update_models now command
          response self)) <= LearningEngine.max_interactions.
Proof.
  intros H. unfold LearningEngine.learn_from_interaction.
  destruct (LearningEngine.learning_enabled self); simpl; [|exact H].
  apply trimmed_length.
Qed.

Lemma learn_bound_enabled now command response
    (self : LearningEngine.LearningEngine Models) :
  LearningEngine.learning_enabled self = true ->
  List.length
    (LearningEngine.user_interactions
       (LearningEngine.learn_from_interaction _update_models now command
          response self)) <= LearningEngine.max_interactions.
Proof.
  intros H. unfold LearningEngine.learn_from_interaction.
  rewrite H. simpl. apply trimmed_length.
Qed.

(** Any number of record operations, one after the other. *)
Definition record_conversation (ops : list (pystr * Brain.AIResponse))
    (self : Brain.JARVISBrain) : Brain.JARVISBrain :=
  fold_left
    (fun b op => Brain._update_conversation_history (fst op) (snd op) b)
    ops self.

Definition record_interactions
    (ops : list (LearningEngine.Clock * pystr * pyval))
    (self : LearningEngine.LearningEngine Models)
  : LearningEngine.LearningEngine Models :=
  fold_left
    (fun le op =>
       LearningEngine.learn_from_interaction _update_models
         (fst (fst op)) (snd (fst op)) (snd op) le)
    ops self.

Lemma record_conversation_bound ops : forall self,
  List.length (Brain.conversation_history self) <= 20 ->
  List.length (Brain.conversation_history (record_conversation ops self)) <= 20.
Proof.
  induction ops as [|op ops IH]; intros self H; simpl.
  - exact H.
  - apply IH. apply update_history_bound.
Qed.

Lemma record_interactions_bound ops : forall self,
  List.length (LearningEngine.user_interactions self)
    <= LearningEngine.max_interactions ->
  List.length
    (LearningEngine.user_interactions (record_interactions ops self))
    <= LearningEngine.max_interactions.
Proof.
  induction ops as [|op ops IH]; intros self H; simpl.
  - exact H.
  - apply IH. apply learn_bound. exact H.
Qed.

End Bounds.

Lemma max_interactions_value :
  N.of_nat LearningEngine.max_interactions = 10000%N.
Proof. vm_compute. reflexivity. Qed.

(** C6.  Starting from the empty histories of a fresh process, after any
    number of record operations the conversation history has at most 20
    entries and the interaction log at most 10,000; moreover one update of
    the conversation history brings its length to at most 20 whatever it was
    before, and so does one recorded interaction for the log (it appends,
    then trims to the newest entries). *)
Theorem histories_bounded :
  forall (Models : Type)
         (_update_models : LearningEngine.Interaction -> Models -> Models),
    (forall prompt ops,
       List.length
         (Brain.conversation_history
            (record_conversation ops (Brain.init prompt))) <= 20)
    /\
    (forall enabled preferences models ops,
       (N.of_nat
          (List.length
             (LearningEngine.user_interactions
                (record_interactions _update_models ops
                   {| LearningEngine.learning_enabled := enabled;
                      LearningEngine.user_interactions := [];
                      LearningEngine.user_preferences := preferences;
                      LearningEngine.models := models |})))
        <= 10000)%N)
    /\
    (forall command response self,
       List.length
         (Brain.conversation_history
            (Brain._update_conversation_history command response self)) <= 20
       /\
       exists older,
         Brain.conversation_history self
         ++ [ {| Brain.role := str "user"; Brain.content := command |};
              {| Brain.role := str "assistant";
                 Brain.content := Brain.text response |} ]
         = older
           ++ Brain.conversation_history
                (Brain._update_conversation_history command response self))
    /\
    (forall now command response (self : LearningEngine.LearningEngine Models),
       LearningEngine.learning_enabled self = true ->
       (N.of_nat
          (List.length
             (LearningEngine.user_interactions
                (LearningEngine.learn_from_interaction _update_models now
                   command response self))) <= 10000)%N).
Proof.
  intros Models upd.
  assert (cap : forall n, n <= LearningEngine.max_interactions ->
                          (N.of_nat n <= 10000)%N).
  { intros n Hn. rewrite <- max_interactions_value.
    lia. }
  repeat split.
  - intros prompt ops. apply record_conversation_bound. simpl. lia.
  - intros enabled preferences models ops. apply cap.
    apply record_interactions_bound. simpl. apply Nat.le_0_l.
  - apply update_history_bound.
  - unfold Brain._update_conversation_history.
    match goal with
    | |- context [20 <? List.length ?h] =>
        destruct (20 <? List.length h);
        [exists (firstn (List.length h - 20) h); simpl; apply last_n_suffix
        |exists []; reflexivity]
    end.
  - intros now command response self H. apply cap.
    apply learn_bound_enabled. exact H.
Qed.

Lemma histories_bounded_witness :
  LearningEngine.learning_enabled
    (Repo.learning_engine (Repo.world0 (Brain.TransportFailure (KeyError []))))
  = true
  /\ (N.of_nat
        (List.length
           (LearningEngine.user_interactions
              (LearningEngine.learn_from_interaction Repo.no_models Repo.noon
                 (str "status") VNone
                 (Repo.learning_engine
                    (Repo.world0 (Brain.TransportFailure (KeyError [])))))))
      <= 10000)%N.
Proof.
  split; [reflexivity|].
  apply (proj2 (proj2 (proj2 (histories_bounded Repo.no_models)))).
  reflexivity.
Defined.

(* ###################################################################### *)
(** * The message list sent to the text-generation service *)

Section Messages.
Import Brain.
Context {U : Runtime}.

(** The list in the words of the specification: the preamble, the last five
    exchanges (ten messages), one context summary, the command. *)
Definition claimed_messages (self : JARVISBrain) (command : pystr)
    (msgs : list Message) : Prop :=
  exists prompt info,
    system_prompt self = Some prompt /\
    msgs = {| role := str "system"; content := prompt |}
           :: last_n (2 * 5) (conversation_history self)
           ++ [ {| role := str "system"; content := info |};
                {| role := str "user"; content := command |} ].

(** A context the summary can be built from: [None], or a dictionary whose
    [system_state] entry, when present, is a dictionary. *)
Definition summarisable (context : pyval) : Prop :=
  context = VNone \/
  exists d, context = VDict d /\
    forall v, dict_get (str "system_state") d = Some v -> exists d', v = VDict d'.

Lemma context_info_returns d intent self :
  (forall v, dict_get (str "system_state") d = Some v -> exists d', v = VDict d') ->
  exists info, context_info (VDict d) intent self = (Ok info, self).
Proof.
  intros Hd. unfold context_info, bind, py_get at 1 2 3, ret.
  destruct (dict_get (str "system_state") d) as [v|] eqn:E.
  - destruct (Hd v eq_refl) as [d' ->]. simpl. eexists. reflexivity.
  - simpl. eexists. reflexivity.
Qed.

End Messages.

(** C8 as stated fails: with twelve entries in the history and a non-empty
    context the list has eight messages, five of them from the history, and
    is not the list the claim describes. *)
Lemma prepared_messages_counterexample :
  let exchange n :=
    [ {| Brain.role := str "user"; Brain.content := of_N n |};
      {| Brain.role := str "assistant"; Brain.content := of_N n |} ] in
  let self :=
    Brain.set_history
      (flat_map exchange [1; 2; 3; 4; 5; 6]%N) (Brain.init (str "P")) in
  let context := VDict [ (str "language", VStr (str "english")) ] in
  let command := str "hello" in
  exists msgs,
    Brain._prepare_messages (U := ascii_runtime) command context
      (Brain._analyze_intent (U := ascii_runtime) command) self
    = (Ok msgs, self)
    /\ List.length msgs = 8
    /\ ~ claimed_messages self command msgs.
Proof.
  cbv zeta. eexists. split; [vm_compute; reflexivity|].
  split; [reflexivity|].
  intros (prompt & info & _ & E).
  apply (f_equal (@List.length _)) in E. vm_compute in E. discriminate E.
Qed.

Lemma prepare_messages_run :
  forall (U : Runtime) command context intent (self : Brain.JARVISBrain) prompt,
    Brain.system_prompt self = Some prompt ->
    summarisable context ->
    exists msgs recent summary older,
      Brain._prepare_messages command context intent self = (Ok msgs, self)
      /\ msgs = {| Brain.role := str "system"; Brain.content := prompt |}
                :: recent ++ summary
                ++ [ {| Brain.role := str "user"; Brain.content := command |} ]
      /\ Brain.conversation_history self = older ++ recent
      /\ List.length recent
         = Nat.min 5 (List.length (Brain.conversation_history self))
      /\ (truthy context = false -> summary = [])
      /\ (truthy context = true ->
          exists info,
            Brain.context_info context intent self = (Ok info, self)
            /\ summary = [ {| Brain.role := str "system";
                              Brain.content := info |} ]).
Proof.
  intros U command context intent self prompt Hp Hc.
  set (h := Brain.conversation_history self).
  assert (Hsplit : h = firstn (List.length h - 5) h ++ last_n 5 h)
    by apply last_n_suffix.
  unfold Brain._prepare_messages, bind, get_state. rewrite Hp.
  destruct Hc as [-> | (d & -> & Hd)]; [|destruct d as [|kv d]].
  1, 2:
    exists ({| Brain.role := str "system"; Brain.content := prompt |}
            :: last_n 5 h ++ []
            ++ [ {| Brain.role := str "user"; Brain.content := command |} ]),
      (last_n 5 h), [], (firstn (List.length h - 5) h);
    cbn [truthy]; unfold ret;
    repeat split;
      try reflexivity; try discriminate; try exact Hsplit; apply last_n_min.
  destruct (context_info_returns (kv :: d) intent self Hd) as [info Hi].
  exists ({| Brain.role := str "system"; Brain.content := prompt |}
          :: last_n 5 h
          ++ [ {| Brain.role := str "system"; Brain.content := info |} ]
          ++ [ {| Brain.role := str "user"; Brain.content := command |} ]),
    (last_n 5 h),
    [ {| Brain.role := str "system"; Brain.content := info |} ],
    (firstn (List.length h - 5) h).
  cbn [truthy]. rewrite Hi. unfold ret.
  repeat split; try discriminate; try exact Hsplit; try apply last_n_min.
  - cbn [app]. rewrite <- app_assoc. reflexivity.
  - intros _. exists info. split; reflexivity.
Qed.

(** C8, amended.  For an initialised brain and a context the summary can be
    built from, the list is, in order: the preamble message, the last five
    entries of the conversation history (all of them when there are fewer),
    one context-summary message exactly when the context is non-empty, and
    the user command message. *)
Theorem prepared_messages_shape :
  forall (U : Runtime) command context intent (self : Brain.JARVISBrain) prompt,
    Brain.system_prompt self = Some prompt ->
    summarisable context ->
    exists msgs recent summary older,
      Brain._prepare_messages command context intent self = (Ok msgs, self)
      /\ msgs = {| Brain.role := str "system"; Brain.content := prompt |}
                :: recent ++ summary
                ++ [ {| Brain.role := str "user"; Brain.content := command |} ]
      /\ Brain.conversation_history self = older ++ recent
      /\ List.length recent
         = Nat.min 5 (List.length (Brain.conversation_history self))
      /\ (truthy context = false -> summary = [])
      /\ (truthy context = true ->
          exists info,
            Brain.context_info context intent self = (Ok info, self)
            /\ summary = [ {| Brain.role := str "system";
                              Brain.content := info |} ]).
Proof. exact prepare_messages_run. Qed.

Lemma prepared_messages_shape_witness :
  Brain.system_prompt (Brain.init (str "P")) = Some (str "P")
  /\ summarisable (VDict [ (str "language", VStr (str "hindi")) ])
  /\ exists msgs,
       Brain._prepare_messages (U := ascii_runtime) (str "hello")
         (VDict [ (str "language", VStr (str "hindi")) ])
         (Brain._analyze_intent (U := ascii_runtime) (str "hello"))
         (Brain.init (str "P"))
       = (Ok msgs, Brain.init (str "P"))
       /\ List.length msgs = 3.
Proof.
  assert (Hs : summarisable (VDict [ (str "language", VStr (str "hindi")) ])).
  { right. eexists. split; [reflexivity|]. intros v H. discriminate H. }
  split; [reflexivity|]. split; [exact Hs|].
  destruct (prepared_messages_shape ascii_runtime (str "hello")
              (Brain._analyze_intent (U := ascii_runtime) (str "hello"))
              (Brain.init (str "P")) eq_refl Hs)
    as (msgs & recent & summary & older & Hrun & _).
  exists msgs. split; [exact Hrun|].
  vm_compute in Hrun. injection Hrun as <-. reflexivity.
Defined.

(* ###################################################################### *)
(** * The brain's [process_command] *)

Section BrainRuns.
Import Brain.
Context {U : Runtime}.

(** Whether the intent of a command asks for a system action. *)
Definition wants_system_action (command : pystr) : bool :=
  match _check_system_commands command (_analyze_intent command) with
  | Some _ => true
  | None => false
  end.

(** [process_command] always returns an [AIResponse]: either the one built
    by [_process_ai_response], or the one of its [except] branch. *)
Lemma brain_process_command_returns service command context self :
  exists r self',
    process_command service command context self = (Ok r, self')
    /\ requires_hardware_action r = false
    /\ hardware_command r = None.
Proof.
  unfold process_command, try_except, bind, modify.
  destruct (_prepare_messages command context (_analyze_intent command)
              (incr_total self)) as [[msgs|e] s1].
  - unfold get_state, when_, ret, modify.
    match goal with
    | |- context [success ?r] => set (resp := r)
    end.
    assert (Hh : requires_hardware_action resp = false
                 /\ hardware_command resp = None).
    { unfold resp, _process_ai_response.
      destruct (_check_system_commands command (_analyze_intent command));
        split; reflexivity. }
    destruct (success resp); eexists; eexists; (split; [reflexivity|exact Hh]).
  - unfold get_state, ret. eexists; eexists.
    split; [reflexivity|]. split; reflexivity.
Qed.

(** When the messages can be prepared, the response is the one built from
    the text that [_get_ai_response] returns, and its [success] is left at
    its default. *)
Lemma brain_process_command_normal service command context self msgs s1 :
  _prepare_messages command context (_analyze_intent command)
    (incr_total self) = (Ok msgs, s1) ->
  exists self',
    process_command service command context self
    = (Ok (_process_ai_response (_get_ai_response s1 (service msgs))
             (_check_system_commands command (_analyze_intent command))
             context), self').
Proof.
  intros E. unfold process_command, try_except, bind, modify. rewrite E.
  unfold get_state, when_, ret, modify.
  match goal with
  | |- context [success ?r] => destruct (success r)
  end; eexists; reflexivity.
Qed.

End BrainRuns.

(** C2 fails on the code.  For an initialised brain whose service answers
    with a status other than 200, or does not answer at all, the response
    carries the error sentence as its text but [success] stays [True],
    [confidence] stays 0.8, and [requires_system_action] is set whenever the
    intent of the command asks for a system action. *)
Theorem failed_service_call_reported_as_success :
  forall (U : Runtime) service command context (self : Brain.JARVISBrain) prompt,
    Brain.system_prompt self = Some prompt ->
    summarisable context ->
    (forall msgs,
       match service msgs with
       | Brain.Reply status_code _ => status_code <> 200%Z
       | Brain.TransportFailure _ => True
       end) ->
    exists r self',
      Brain.process_command service command context self = (Ok r, self')
      /\ Brain.success r = true
      /\ Brain.confidence r = (8 # 10)%Q
      /\ Brain.requires_system_action r = wants_system_action command
      /\ (Brain.text r
          = LanguageManager.get_text (Brain.language_manager self)
              (str "api_error")
          \/ Brain.text r
             = LanguageManager.get_text (Brain.language_manager self)
                 (str "ai_error")).
Proof.
  intros U service command context self prompt Hp Hc Hs.
  destruct (@prepare_messages_run U command context
              (Brain._analyze_intent command) (Brain.incr_total self) prompt
              Hp Hc)
    as (msgs & recent & summary & older & Hrun & _).
  destruct (brain_process_command_normal service command context self Hrun)
    as [self' E].
  exists (Brain._process_ai_response
            (Brain._get_ai_response (Brain.incr_total self) (service msgs))
            (Brain._check_system_commands command
               (Brain._analyze_intent command)) context), self'.
  split; [exact E|].
  unfold wants_system_action, Brain._process_ai_response.
  assert (Ht :
    Brain._get_ai_response (Brain.incr_total self) (service msgs)
    = LanguageManager.get_text (Brain.language_manager self) (str "api_error")
    \/ Brain._get_ai_response (Brain.incr_total self) (service msgs)
       = LanguageManager.get_text (Brain.language_manager self) (str "ai_error")).
  { specialize (Hs msgs). unfold Brain._get_ai_response.
    destruct (service msgs) as [code body|e].
    - destruct (Z.eqb_spec code 200) as [->|_]; [contradiction|].
      left. reflexivity.
    - right. reflexivity. }
  destruct (Brain._check_system_commands command
              (Brain._analyze_intent command));
    repeat split; try reflexivity; exact Ht.
Qed.

Lemma failed_service_call_reported_as_success_witness :
  fst (Brain.process_command (U := ascii_runtime)
         (fun _ => Brain.Reply 500 (Raise (KeyError (str "choices"))))
         (str "shutdown the computer") VNone (Brain.init (str "P")))
  = Ok {| Brain.text :=
            str "I'm experiencing connectivity issues with my AI systems, Sir.";
          Brain.confidence := (8 # 10)%Q;
          Brain.requires_system_action := true;
          Brain.requires_hardware_action := false;
          Brain.system_command := Some (str "system_control");
          Brain.hardware_command := None;
          Brain.parameters := Some [];
          Brain.context := VNone;
          Brain.success := true |}.
Proof.
  destruct (failed_service_call_reported_as_success ascii_runtime
              (fun _ => Brain.Reply 500 (Raise (KeyError (str "choices"))))
              (str "shutdown the computer") (context := VNone)
              (Brain.init (str "P")) eq_refl (or_introl eq_refl)
              (fun _ => ltac:(discriminate)))
    as (r & self' & E & _).
  vm_compute. reflexivity.
Defined.

(* ###################################################################### *)
(** * The orchestrator's [process_command] *)

Section OrchestratorRuns.
Import Orchestrator.
Context {U : Runtime}.
Variable Env : Type.
Variable c : Collaborators Env.

(** Destructs the outcome of the next collaborator call in the goal. *)
Ltac next_call :=
  match goal with
  | |- context [match ?m ?e with (_, _) => _ end] =>
      let r := fresh "r" in
      let e' := fresh "e" in
      let E := fresh "E" in
      destruct (m e) as [r e'] eqn:E; destruct r; cbn [fst snd]
  end.

(** The orchestrator's own attributes after the language has been
    detected. *)
Definition after_detection (command : pystr) (j : AdvancedJARVIS)
  : AdvancedJARVIS :=
  let j0 := incr_processed j in
  let detected_lang :=
    LanguageManager.detect_language (language_manager j0) command in
  if negb (PyStr.eqb detected_lang (current_language j0))
  then set_detected detected_lang j0
  else j0.

Lemma after_detection_calls command j :
  calls (after_detection command j) = calls j
  /\ successful_operations (after_detection command j)
     = successful_operations j
  /\ learning_mode (after_detection command j) = learning_mode j.
Proof.
  unfold after_detection.
  destruct (negb _); repeat split; reflexivity.
Qed.

(** Context assembly leaves the orchestrator's attributes alone. *)
Lemma analyze_context_self command j e r j' e' :
  _analyze_context c command (j, e) = (r, (j', e')) -> j' = j.
Proof.
  unfold _analyze_context, _get_environment_context, bind, call, self_, ret.
  cbn [fst snd].
  repeat next_call; intros H; inversion H; reflexivity.
Qed.

(** The part of the [try] block that follows language detection. *)
Definition after_language (command : pystr) : M (St Env) pyval :=
  context <- _analyze_context c command ;;
  record_call (BrainCall command context) ;;
  response <- call (brain_process_command c command context) ;;
  response <- dispatch_system c response ;;
  response <- dispatch_hardware c response ;;
  self <- self_ ;;
  when_ (learning_mode self)
        (record_call (LearnCall command response) ;;
         call (learn_from_interaction c command response)) ;;
  update incr_successful ;;
  ret response.

Lemma body_after_detection command j e :
  process_command_body c command (j, e)
  = after_language command (after_detection command j, e).
Proof.
  unfold process_command_body, after_language, after_detection.
  unfold bind at 1 2 3. unfold update at 1. unfold self_ at 1.
  cbn [fst snd]. unfold when_, update.
  destruct (negb _); reflexivity.
Qed.

(** The brain answers this command with an [AIResponse] instance, whatever
    the context and the state it is called in. *)
Definition returns_AIResponse (command : pystr) : Prop :=
  forall context e,
    exists r e',
      brain_process_command c command context e = (Ok (Brain.to_object r), e').

(** With such a brain the [try] block always raises: either context assembly
    raises before the brain is called, or the brain is called and
    [response.get] raises on the instance it returned.  Nothing is
    dispatched and nothing is learnt. *)
Lemma body_on_AIResponse command j e :
  returns_AIResponse command ->
  exists ex j' e' new,
    process_command_body c command (j, e) = (Raise ex, (j', e'))
    /\ calls j' = calls j ++ new
    /\ (new = []
        \/ exists context,
             new = [BrainCall command context]
             /\ ex = AttributeError (str "AIResponse") (str "get"))
    /\ successful_operations j' = successful_operations j
    /\ language_manager j' = language_manager (after_detection command j).
Proof.
  intros Hb. rewrite body_after_detection.
  destruct (after_detection_calls command j) as (Hc & Hs & _).
  set (j1 := after_detection command j) in *.
  unfold after_language. unfold bind at 1.
  destruct (_analyze_context c command (j1, e)) as [[context|ex] [j2 e2]] eqn:EA;
    apply analyze_context_self in EA as ->.
  - unfold bind at 1. unfold record_call, update. cbn [fst snd].
    unfold bind at 1. unfold call at 1. cbn [fst snd].
    destruct (Hb context e2) as (r & e3 & ->).
    exists (AttributeError (str "AIResponse") (str "get")).
    eexists. exists e3, [BrainCall command context].
    split; [reflexivity|]. cbn [calls successful_operations language_manager].
    rewrite Hc, Hs. repeat split. right. exists context. split; reflexivity.
  - exists ex, j1, e2, []. rewrite app_nil_r. repeat split; auto.
Qed.

End OrchestratorRuns.

Section RepoRuns.
Import Orchestrator.
Context {U : Runtime}.
Variable Models : Type.
Variable _update_models : LearningEngine.Interaction -> Models -> Models.

Lemma repo_brain_returns_AIResponse command context (w : Repo.World Models) :
  exists r w',
    brain_process_command (Repo.collaborators _update_models) command context w
    = (Ok (Brain.to_object r), w')
    /\ Brain.requires_hardware_action r = false
    /\ Brain.hardware_command r = None.
Proof.
  cbn [brain_process_command Repo.collaborators].
  unfold bind, get_state, Repo.within, ret.
  destruct (brain_process_command_returns (Repo.service w) command context
              (Repo.brain w)) as (r & b' & E & H).
  rewrite E. exists r. eexists. split; [reflexivity|exact H].
Qed.

Lemma repo_returns_AIResponse command :
  returns_AIResponse (Repo.collaborators _update_models) command.
Proof.
  intros context w.
  destruct (repo_brain_returns_AIResponse command context w) as (r & w' & E & _).
  exists r, w'. exact E.
Qed.

Lemma repo_with_returns_AIResponse load applications command :
  returns_AIResponse
    (Repo.collaborators_with _update_models load applications) command.
Proof. exact (repo_returns_AIResponse command). Qed.

End RepoRuns.

Lemma get_text_error_processing_nonempty (lm : LanguageManager.LanguageManager) :
  LanguageManager.get_text lm (str "error_processing") <> [].
Proof.
  unfold LanguageManager.get_text, LanguageManager.find_translation,
    LanguageManager.translations.
  cbn [dict_get].
  destruct (PyStr.eqb (LanguageManager.current_language lm) (str "english"));
    [vm_compute; discriminate|].
  destruct (PyStr.eqb (LanguageManager.current_language lm) (str "hindi"));
    vm_compute; discriminate.
Qed.

(** C1.  Whenever the brain answers the command with an [AIResponse]
    instance, the orchestrator's [process_command] leaves through its
    [except] branch and returns the mapping with the localized error text,
    [success] false and the text of the exception.  The only call it may
    have recorded is the one to the brain, and in that case the exception is
    the [AttributeError] of looking up [get] on the instance; no system
    dispatch, no hardware dispatch and no call to [learn_from_interaction]
    is made, and [successful_operations] is not incremented. *)
Theorem orchestrator_fails_on_AIResponse :
  forall (U : Runtime) (Env : Type) (c : Orchestrator.Collaborators Env)
         (command : pystr) (j : Orchestrator.AdvancedJARVIS) (e : Env),
    returns_AIResponse c command ->
    exists ex j' e' new,
      Orchestrator.process_command c command (j, e)
      = (Ok (VDict
               [ (str "text",
                  VStr (LanguageManager.get_text
                          (Orchestrator.language_manager j')
                          (str "error_processing")));
                 (str "success", VBool false);
                 (str "error", VStr (exn_str ex)) ]),
         (j', e'))
      /\ Orchestrator.calls j' = Orchestrator.calls j ++ new
      /\ (new = []
          \/ exists context,
               new = [Orchestrator.BrainCall command context]
               /\ ex = AttributeError (str "AIResponse") (str "get"))
      /\ filter Orchestrator.is_dispatch_or_learn new = []
      /\ Orchestrator.successful_operations j'
         = Orchestrator.successful_operations j.
Proof.
  intros U Env c command j e Hb.
  destruct (body_on_AIResponse j e Hb)
    as (ex & j' & e' & new & Hrun & Hcalls & Hnew & Hs & _).
  exists ex, j', e', new.
  unfold Orchestrator.process_command, try_except. rewrite Hrun.
  repeat split; auto.
  destruct Hnew as [-> | (context & -> & _)]; reflexivity.
Qed.

Lemma orchestrator_fails_on_AIResponse_witness :
  returns_AIResponse
    (Repo.collaborators_with (U := ascii_runtime) Repo.no_models
       (VFloat 0) (VList []))
    (str "shutdown the computer")
  /\ exists ex j' e' new,
       Orchestrator.process_command (U := ascii_runtime)
         (Repo.collaborators_with (U := ascii_runtime) Repo.no_models
            (VFloat 0) (VList []))
         (str "shutdown the computer")
         (Orchestrator.init,
          Repo.world0 (Brain.Reply 200 (Ok (str "Right away, Sir."))))
       = (Ok (VDict
                [ (str "text",
                   VStr (LanguageManager.get_text
                           (Orchestrator.language_manager j')
                           (str "error_processing")));
                  (str "success", VBool false);
                  (str "error", VStr (exn_str ex)) ]),
          (j', e'))
       /\ Orchestrator.calls j' = Orchestrator.calls Orchestrator.init ++ new
       /\ (new = []
           \/ exists context,
                new = [Orchestrator.BrainCall (str "shutdown the computer")
                         context]
                /\ ex = AttributeError (str "AIResponse") (str "get"))
       /\ filter Orchestrator.is_dispatch_or_learn new = []
       /\ Orchestrator.successful_operations j'
          = Orchestrator.successful_operations Orchestrator.init.
Proof.
  split.
  - apply repo_with_returns_AIResponse.
  - apply orchestrator_fails_on_AIResponse.
    apply repo_with_returns_AIResponse.
Defined.

(** C3.  [process_command] never raises: it always returns a value.  When
    any stage of its [try] block raises an exception, the value returned is
    the mapping whose [success] is false, whose [error] is the text of that
    exception and whose [text] is a non-empty message. *)
Theorem process_command_never_raises :
  forall (U : Runtime) (Env : Type) (c : Orchestrator.Collaborators Env)
         (command : pystr) (s : Orchestrator.St Env),
    (exists v s', Orchestrator.process_command c command s = (Ok v, s'))
    /\
    (forall ex s',
       Orchestrator.process_command_body c command s = (Raise ex, s') ->
       exists t,
         Orchestrator.process_command c command s
         = (Ok (VDict [ (str "text", VStr t);
                        (str "success", VBool false);
                        (str "error", VStr (exn_str ex)) ]), s')
         /\ t <> []).
Proof.
  intros U Env c command s.
  unfold Orchestrator.process_command, try_except.
  destruct (Orchestrator.process_command_body c command s) as [[v|ex] s'].
  - split; [eauto|]. intros ex s'' H. discriminate H.
  - split.
    + unfold bind, Orchestrator.self_, ret. eauto.
    + intros ex' s'' H. inversion H; subst.
      eexists. split; [reflexivity|].
      apply get_text_error_processing_nonempty.
Qed.

Lemma process_command_never_raises_witness :
  Orchestrator.process_command_body (U := ascii_runtime)
    (Repo.collaborators (U := ascii_runtime) Repo.no_models)
    (str "status")
    (Orchestrator.init,
     Repo.world0 (Brain.Reply 200 (Ok (str "All systems nominal, Sir."))))
  = (Raise (AttributeError (str "SystemController") (str "get_system_load")),
     (after_detection (U := ascii_runtime) (str "status")
        Orchestrator.init,
      Repo.world0 (Brain.Reply 200 (Ok (str "All systems nominal, Sir.")))))
  /\ exists t,
       Orchestrator.process_command (U := ascii_runtime)
         (Repo.collaborators (U := ascii_runtime) Repo.no_models)
         (str "status")
         (Orchestrator.init,
          Repo.world0 (Brain.Reply 200 (Ok (str "All systems nominal, Sir."))))
       = (Ok (VDict
                [ (str "text", VStr t);
                  (str "success", VBool false);
                  (str "error",
                   VStr (exn_str (AttributeError (str "SystemController")
                                                 (str "get_system_load")))) ]),
          (after_detection (U := ascii_runtime) (str "status")
             Orchestrator.init,
           Repo.world0 (Brain.Reply 200 (Ok (str "All systems nominal, Sir.")))))
       /\ t <> [].
Proof.
  assert (H :
    Orchestrator.process_command_body (U := ascii_runtime)
      (Repo.collaborators (U := ascii_runtime) Repo.no_models)
      (str "status")
      (Orchestrator.init,
       Repo.world0 (Brain.Reply 200 (Ok (str "All systems nominal, Sir."))))
    = (Raise (AttributeError (str "SystemController") (str "get_system_load")),
       (after_detection (U := ascii_runtime) (str "status")
          Orchestrator.init,
        Repo.world0 (Brain.Reply 200 (Ok (str "All systems nominal, Sir."))))))
    by (vm_compute; reflexivity).
  split; [exact H|].
  exact (proj2 (process_command_never_raises ascii_runtime
                  (Repo.collaborators (U := ascii_runtime) Repo.no_models)
                  (str "status")
                  (Orchestrator.init,
                   Repo.world0
                     (Brain.Reply 200 (Ok (str "All systems nominal, Sir.")))))
               _ _ H).
Defined.

(* ###################################################################### *)
(** * Dispatch *)

Section Dispatch.
Import Orchestrator.
Context {U : Runtime}.

Lemma fields_hardware_flag (r : Brain.AIResponse) :
  dict_get (str "requires_hardware_action") (Brain.fields r)
  = Some (VBool (Brain.requires_hardware_action r)).
Proof. reflexivity. Qed.

(** On a mapping whose hardware flag is false the hardware branch is not
    taken: nothing is recorded and the response is returned as it is. *)
Lemma dispatch_hardware_skipped Env (c : Collaborators Env) d st :
  dict_get (str "requires_hardware_action") d = Some (VBool false) ->
  dispatch_hardware c (VDict d) st = (Ok (VDict d), st).
Proof.
  intros H. unfold dispatch_hardware, bind, py_get, ret. rewrite H.
  reflexivity.
Qed.

(** What the system dispatch does on a mapping: the executor is called with
    the command and the parameters of the response and what it returns is
    stored under [system_result]; the other entries are kept. *)
Lemma dispatch_system_on_mapping Env (c : Collaborators Env) d flag command
    result j e e' :
  dict_get (str "requires_system_action") d = Some flag ->
  truthy flag = true ->
  dict_get (str "system_command") d = Some command ->
  system_execute_command c command
    (match dict_get (str "parameters") d with
     | Some x => x
     | None => VDict []
     end) e = (Ok result, e') ->
  exists j',
    dispatch_system c (VDict d) (j, e)
    = (Ok (VDict (dict_set (str "system_result") result d)), (j', e'))
    /\ calls j'
       = calls j
         ++ [SystemDispatch command
               (match dict_get (str "parameters") d with
                | Some x => x
                | None => VDict []
                end)].
Proof.
  intros Hf Ht Hc Hx.
  unfold dispatch_system, bind, py_get, py_getitem, py_setitem, ret.
  rewrite Hf, Ht, Hc. unfold record_call, update, call. cbn [fst snd].
  rewrite Hx. eexists. split; reflexivity.
Qed.

(** [SystemController.execute_command] keeps every exception of its
    handlers to itself: it always returns a sentence, and when a handler
    raises the sentence is a non-empty description of the error. *)
Lemma system_execute_command_returns command parameters
    (self : SystemController.SystemController) :
  (exists s self',
     SystemController.execute_command command parameters self = (Ok s, self'))
  /\
  (forall e self',
     SystemController.execute_command_body command parameters self
     = (Raise e, self') ->
     SystemController.execute_command command parameters self
     = (Ok (str "Error executing command: " ++ exn_str e), self')
     /\ str "Error executing command: " ++ exn_str e <> []).
Proof.
  unfold SystemController.execute_command, try_except.
  destruct (SystemController.execute_command_body command parameters self)
    as [[s|e] self'].
  - split; [eauto|]. intros e self'' H. discriminate H.
  - split; [unfold ret; eauto|].
    intros e' self'' H. inversion H; subst. split; [reflexivity|].
    discriminate.
Qed.

End Dispatch.

Example hibernate_is_reported :
  fst (SystemController.execute_command (U := ascii_runtime)
         (VStr (str "system_control"))
         (VDict [ (str "action", VStr (str "Hibernate")) ])
         (Repo.system_controller
            (Repo.world0 (Brain.TransportFailure (KeyError [])))))
  = Ok (str "Error executing command: 'SystemController' object has no attribute '_hibernate_system'").
Proof. vm_compute. reflexivity. Qed.

(** C10.  Every response the brain's [process_command] produces has
    [requires_hardware_action] false and [hardware_command] [None], and on
    the mapping of its attributes the hardware step of the orchestrator does
    nothing; run with the collaborators of the repository, the orchestrator
    never makes a hardware dispatch. *)
Theorem no_hardware_action :
  forall (U : Runtime) (Models : Type)
         (_update_models : LearningEngine.Interaction -> Models -> Models),
    (forall service command context self,
       exists r self',
         Brain.process_command service command context self = (Ok r, self')
         /\ Brain.requires_hardware_action r = false
         /\ Brain.hardware_command r = None
         /\ forall Env (c : Orchestrator.Collaborators Env) st,
              Orchestrator.dispatch_hardware c (VDict (Brain.fields r)) st
              = (Ok (VDict (Brain.fields r)), st))
    /\
    (forall command j (w : Repo.World Models),
       exists v j' w' new,
         Orchestrator.process_command (Repo.collaborators _update_models)
           command (j, w) = (Ok v, (j', w'))
         /\ Orchestrator.calls j' = Orchestrator.calls j ++ new
         /\ filter Orchestrator.is_hardware_dispatch new = []).
Proof.
  intros U Models upd. split.
  - intros service command context self.
    destruct (brain_process_command_returns service command context self)
      as (r & self' & E & Hf & Hc).
    exists r, self'. repeat split; auto.
    intros Env c st. apply dispatch_hardware_skipped.
    rewrite fields_hardware_flag, Hf. reflexivity.
  - intros command j w.
    destruct (body_on_AIResponse j w (repo_returns_AIResponse upd command))
      as (ex & j' & w' & new & Hrun & Hcalls & Hnew & _).
    unfold Orchestrator.process_command, try_except. rewrite Hrun.
    unfold bind, Orchestrator.self_, ret. cbn [fst].
    eexists. exists j', w', new. split; [reflexivity|]. split; [exact Hcalls|].
    destruct Hnew as [-> | (context & -> & _)]; reflexivity.
Qed.


(* ###################################################################### *)
(** * Context assembly *)

Section ContextAssembly.
Import Orchestrator.
Context {U : Runtime}.

(** The provider calls of [_analyze_context] and
    [_get_environment_context], in the order in which they are made. *)
Definition providers {Env} (c : Collaborators Env) : list (M Env pyval) :=
  [ now c; get_system_state c; get_user_context c; time_of_day c;
    day_of_week c; get_system_load c; get_status c;
    get_active_applications c ].

(** Calls one after the other; the first raise ends the sequence. *)
Fixpoint run_all {S} (ms : list (M S pyval)) : M S (list pyval) :=
  match ms with
  | [] => ret []
  | m :: rest => v <- m ;; vs <- run_all rest ;; ret (v :: vs)
  end.

Ltac next_provider :=
  match goal with
  | |- context [match ?m ?e with (_, _) => _ end] =>
      let r := fresh "r" in
      let e' := fresh "e" in
      destruct (m e) as [r e']; destruct r; cbn [fst snd]
  end.

Lemma analyze_context_run Env (c : Collaborators Env) command j e :
  _analyze_context c command (j, e)
  = match run_all (providers c) e with
    | (Ok [ts; ss; uh; tod; dow; load; net; apps], e') =>
        (Ok (VDict
               [ (str "timestamp", ts);
                 (str "language", VStr (current_language j));
                 (str "system_state", ss);
                 (str "user_history", uh);
                 (str "environment",
                  VDict [ (str "time_of_day", tod);
                          (str "day_of_week", dow);
                          (str "system_load", load);
                          (str "network_status", net);
                          (str "active_applications", apps) ]) ]),
         (j, e'))
    | (Ok _, e') => (Raise (TypeError []), (j, e'))
    | (Raise ex, e') => (Raise ex, (j, e'))
    end.
Proof.
  unfold _analyze_context, _get_environment_context, providers, run_all,
    bind, call, self_, ret.
  cbn [fst snd].
  repeat next_provider; reflexivity.
Qed.

(** The learning engine's [get_user_context] never raises, and answers [{}]
    when its preferences are not a mapping. *)
Lemma get_user_context_returns Models now
    (self : LearningEngine.LearningEngine Models) :
  exists v,
    LearningEngine.get_user_context now self = (Ok v, self)
    /\ ((forall d, LearningEngine.user_preferences self <> VDict d) ->
        v = VDict []).
Proof.
  unfold LearningEngine.get_user_context, try_except.
  unfold bind at 1. unfold get_state at 1.
  destruct (LearningEngine.user_preferences self) as [| | | | | |d| |] eqn:E;
    try (eexists; split; [reflexivity|]; intros; reflexivity).
  unfold bind, py_get, ret.
  destruct (match dict_get (str "common_commands") d with
            | Some x => x
            | None => VList []
            end);
    cbn [LearningEngine.slice5]; unfold ret, raise;
    (eexists; split; [reflexivity|]);
    intros H; exfalso; apply (H d); reflexivity.
Qed.

End ContextAssembly.

(** C9 as stated fails.  With the collaborators of the repository the
    context assembly raises for the missing [get_system_load]; with that
    method supplied and a network manager whose [get_status] raises, it
    raises that exception.  In neither case is a context record returned. *)
Lemma context_assembly_counterexample :
  let w := Repo.world0 (Brain.Reply 200 (Ok (str "Yes, Sir."))) in
  let offline := OtherException (str "ConnectionError") (str "network down") in
  Orchestrator._analyze_context
    (Repo.collaborators (U := ascii_runtime) Repo.no_models)
    (str "status") (Orchestrator.init, w)
  = (Raise (AttributeError (str "SystemController") (str "get_system_load")),
     (Orchestrator.init, w))
  /\
  Orchestrator._analyze_context
    (Repo.collaborators_with_failing_network (U := ascii_runtime)
       Repo.no_models (VFloat 0) (VList []) offline)
    (str "status") (Orchestrator.init, w)
  = (Raise offline, (Orchestrator.init, w)).
Proof. cbv zeta. split; vm_compute; reflexivity. Qed.

(** C9, amended.  Context assembly calls its providers in order and has no
    fallback of its own: when a provider call raises, the assembly raises
    that exception and returns no record; when every call returns, the
    record holds what the providers returned.  The interaction-history
    provider is the one that degrades by itself: the learning engine's
    [get_user_context] never raises and returns the empty mapping when its
    summary cannot be built. *)
Theorem context_assembly_failure_semantics :
  forall (U : Runtime) (Env : Type) (c : Orchestrator.Collaborators Env)
         (command : pystr) (j : Orchestrator.AdvancedJARVIS) (e : Env),
    (forall ex e',
       run_all (providers c) e = (Raise ex, e') ->
       Orchestrator._analyze_context c command (j, e) = (Raise ex, (j, e')))
    /\
    (forall ts ss uh tod dow load net apps e',
       run_all (providers c) e
       = (Ok [ts; ss; uh; tod; dow; load; net; apps], e') ->
       Orchestrator._analyze_context c command (j, e)
       = (Ok (VDict
                [ (str "timestamp", ts);
                  (str "language", VStr (Orchestrator.current_language j));
                  (str "system_state", ss);
                  (str "user_history", uh);
                  (str "environment",
                   VDict [ (str "time_of_day", tod);
                           (str "day_of_week", dow);
                           (str "system_load", load);
                           (str "network_status", net);
                           (str "active_applications", apps) ]) ]),
          (j, e')))
    /\
    (forall Models now (self : LearningEngine.LearningEngine Models),
       exists v,
         LearningEngine.get_user_context now self = (Ok v, self)
         /\ ((forall d, LearningEngine.user_preferences self <> VDict d) ->
             v = VDict [])).
Proof.
  intros U Env c command j e. repeat split.
  - intros ex e' H. rewrite analyze_context_run, H. reflexivity.
  - intros ts ss uh tod dow load net apps e' H.
    rewrite analyze_context_run, H. reflexivity.
  - intros Models now self.
    destruct (get_user_context_returns now self) as (v & E & H).
    exists v. split; assumption.
Qed.

Lemma context_assembly_failure_semantics_witness :
  let w := Repo.world0 (Brain.Reply 200 (Ok (str "Yes, Sir."))) in
  let offline := OtherException (str "ConnectionError") (str "network down") in
  let c := Repo.collaborators_with_failing_network (U := ascii_runtime)
             Repo.no_models (VFloat 0) (VList []) offline in
  run_all (providers c) w = (Raise offline, w)
  /\ Orchestrator._analyze_context c (str "status") (Orchestrator.init, w)
     = (Raise offline, (Orchestrator.init, w)).
Proof.
  cbv zeta. split; [vm_compute; reflexivity|].
  apply (proj1 (context_assembly_failure_semantics ascii_runtime
                  (Repo.collaborators_with_failing_network
                     (U := ascii_runtime) Repo.no_models (VFloat 0) (VList [])
                     (OtherException (str "ConnectionError")
                        (str "network down")))
                  (str "status") Orchestrator.init
                  (Repo.world0 (Brain.Reply 200 (Ok (str "Yes, Sir.")))))).
  vm_compute. reflexivity.
Defined.

(* ###################################################################### *)
(** * Language detection *)

Section Detection.
Import LanguageManager.
Context {U : Runtime}.

Ltac bool_cases :=
  repeat match goal with
         | |- context [(?a <=? ?b)%N] => destruct (N.leb_spec a b)
         | |- context [(?a =? ?b)%N] => destruct (N.eqb_spec a b)
         | |- context [(?a <? ?b)%N] => destruct (N.ltb_spec a b)
         end;
  cbn [andb orb negb existsb forallb fst snd]; try reflexivity; try lia.

Lemma latin_is_ascii c : is_latin_letter c = true -> is_ascii c = true.
Proof.
  unfold is_latin_letter, is_ascii_upper, is_ascii_lower, is_ascii.
  bool_cases; discriminate.
Qed.

Lemma ascii_lower_ascii c : is_ascii c = true -> is_ascii (ascii_lower c) = true.
Proof.
  unfold ascii_lower, is_ascii_upper, is_ascii.
  destruct (N.leb_spec 65 c); destruct (N.leb_spec c 90);
    cbn [andb]; intros Hl; revert Hl; bool_cases; discriminate.
Qed.

Lemma ascii_lower_lowercase c :
  is_latin_letter c = true -> is_ascii_lower (ascii_lower c) = true.
Proof.
  unfold is_latin_letter, ascii_lower, is_ascii_upper, is_ascii_lower.
  destruct (N.leb_spec 65 c); destruct (N.leb_spec c 90);
    cbn [andb orb]; intros Hl; revert Hl; bool_cases; discriminate.
Qed.

(** [lower] of an ASCII text: still ASCII, each letter in lower case. *)
Lemma lower_of_ascii text :
  forallb is_ascii text = true ->
  lower text = map ascii_lower text
  /\ forallb is_ascii (lower text) = true.
Proof.
  intros H. rewrite (lower_ascii _ H). split; [reflexivity|].
  rewrite forallb_forall in *. intros c Hc.
  apply in_map_iff in Hc as (c0 & <- & Hc0).
  apply ascii_lower_ascii. apply H. exact Hc0.
Qed.

(** Under [re.IGNORECASE] an ASCII character stands for ASCII pattern
    characters only. *)
Lemma variants_ascii c :
  is_ascii c = true -> forallb is_ascii (Regex.variants c) = true.
Proof.
  intros H. unfold Regex.variants. cbn [forallb]. rewrite H. cbn [andb].
  unfold is_ascii in H. apply N.ltb_lt in H.
  destruct (is_ascii_upper c) eqn:Eu.
  - unfold is_ascii_upper in Eu. apply andb_prop in Eu as [_ Eu].
    apply N.leb_le in Eu. cbn [forallb]. unfold is_ascii.
    rewrite (proj2 (N.ltb_lt (c + 32) 128)) by lia. reflexivity.
  - destruct (is_ascii_lower c).
    + cbn [forallb]. unfold is_ascii.
      rewrite (proj2 (N.ltb_lt (c - 32) 128)) by lia. reflexivity.
    + rewrite (proj2 (N.eqb_neq c 304)) by lia.
      rewrite (proj2 (N.eqb_neq c 305)) by lia.
      rewrite (proj2 (N.eqb_neq c 383)) by lia.
      rewrite (proj2 (N.eqb_neq c 8490)) by lia.
      reflexivity.
Qed.

Lemma existsb_none {A} (f : A -> bool) l :
  forallb (fun a => negb (f a)) l = true -> existsb f l = false.
Proof.
  induction l as [|a l IH]; [reflexivity|].
  cbn [forallb existsb]. intros H. apply andb_prop in H as [Ha Hl].
  apply negb_true_iff in Ha. rewrite Ha. apply IH. exact Hl.
Qed.

Lemma forallb_impl {A} (f g : A -> bool) l :
  (forall a, f a = true -> g a = true) ->
  forallb f l = true -> forallb g l = true.
Proof.
  intros Hfg H. rewrite forallb_forall in *. auto.
Qed.

Lemma class_devanagari_ascii c :
  is_ascii c = true -> Regex.class_match [(2304, 2431)%N] c = false.
Proof.
  intros H. unfold Regex.class_match. apply existsb_none.
  apply (forallb_impl is_ascii); [|apply variants_ascii; exact H].
  intros v. unfold is_ascii, Regex.in_range. cbn [existsb fst snd].
  bool_cases; discriminate.
Qed.

Lemma class_latin_lowercase c :
  is_ascii_lower c = true ->
  Regex.class_match [(97, 122)%N; (65, 90)%N] c = true.
Proof.
  intros H. unfold Regex.class_match, Regex.variants.
  cbn [existsb]. unfold Regex.in_range at 1. cbn [fst snd].
  unfold is_ascii_lower in H. rewrite H. reflexivity.
Qed.

Definition starts_non_ascii (w : pystr) : bool :=
  match w with
  | p :: _ => (128 <=? p)%N
  | [] => false
  end.

Lemma lit_non_ascii p c :
  (128 <=? p)%N = true -> is_ascii c = true ->
  Regex.lit_match p c = false.
Proof.
  intros Hp H. unfold Regex.lit_match. apply existsb_none.
  apply (forallb_impl is_ascii); [|apply variants_ascii; exact H].
  intros v. unfold is_ascii. revert Hp. bool_cases; discriminate.
Qed.

Lemma match_alts_non_ascii alts prev text :
  forallb starts_non_ascii alts = true ->
  forallb is_ascii text = true ->
  Regex.match_alts alts prev text = None.
Proof.
  intros Ha Ht. induction alts as [|w alts IH]; [reflexivity|].
  cbn [forallb] in Ha. apply andb_prop in Ha as [Hw Ha].
  cbn [Regex.match_alts].
  destruct w as [|p w]; [discriminate Hw|].
  cbn [starts_non_ascii] in Hw. cbn [Regex.match_word].
  destruct text as [|c rest]; [apply IH; assumption|].
  cbn [forallb] in Ht. apply andb_prop in Ht as [Hc Hr].
  rewrite (lit_non_ascii _ _ Hw Hc). apply IH. assumption.
Qed.

Lemma findall_words_non_ascii alts text :
  forallb starts_non_ascii alts = true ->
  forallb is_ascii text = true ->
  forall prev skip, Regex.findall_words alts prev skip text = 0.
Proof.
  intros Ha. induction text as [|c rest IH]; intros Ht prev skip;
    [reflexivity|].
  pose proof Ht as Ht'.
  cbn [forallb] in Ht. apply andb_prop in Ht as [Hc Hr].
  cbn [Regex.findall_words].
  destruct skip as [|k]; [|apply IH; assumption].
  unfold Regex.match_words_at.
  rewrite (match_alts_non_ascii _ prev _ Ha Ht').
  destruct (Regex.boundary prev (hd_error (c :: rest))); apply IH; assumption.
Qed.

Lemma filter_none {A} (f : A -> bool) l :
  forallb (fun a => negb (f a)) l = true -> filter f l = [].
Proof.
  induction l as [|a l IH]; [reflexivity|].
  cbn [forallb filter]. intros H. apply andb_prop in H as [Ha Hl].
  apply negb_true_iff in Ha. rewrite Ha. apply IH. exact Hl.
Qed.

Lemma filter_some {A} (f : A -> bool) l :
  existsb f l = true -> 0 < List.length (filter f l).
Proof.
  induction l as [|a l IH]; [discriminate|].
  cbn [existsb filter]. destruct (f a); cbn [orb List.length]; [lia|exact IH].
Qed.

(** No Hindi pattern matches in an ASCII text. *)
Lemma hindi_score_ascii text_lower :
  forallb is_ascii text_lower = true ->
  score hindi_patterns text_lower = 0.
Proof.
  intros H. unfold score, hindi_patterns.
  cbn [fold_left Regex.findall_count].
  rewrite filter_none.
  - rewrite !findall_words_non_ascii; auto.
  - apply (forallb_impl is_ascii); [|exact H].
    intros c Hc. rewrite class_devanagari_ascii; auto.
Qed.

(** Every Latin letter of the text adds to the English score. *)
Lemma english_score_letter text :
  existsb is_latin_letter text = true ->
  0 < score english_patterns (map ascii_lower text).
Proof.
  intros H. unfold score, english_patterns.
  cbn [fold_left Regex.findall_count].
  assert (0 < List.length
                (filter (Regex.class_match [(97, 122)%N; (65, 90)%N])
                        (map ascii_lower text))); [|lia].
  apply filter_some. apply existsb_exists.
  apply existsb_exists in H as (c & Hin & Hc).
  exists (ascii_lower c). split; [apply in_map; exact Hin|].
  apply class_latin_lowercase. apply ascii_lower_lowercase. exact Hc.
Qed.

Lemma scores_empty : scores [] = (0, 0).
Proof.
  unfold scores. rewrite (lower_ascii [] eq_refl). reflexivity.
Qed.

Lemma detect_language_ascii self text :
  forallb is_ascii text = true ->
  existsb is_latin_letter text = true ->
  detect_language self text = str "english".
Proof.
  intros Ha Hl. unfold detect_language.
  destruct text as [|c0 rest]; [discriminate Hl|].
  unfold scores.
  destruct (lower_of_ascii _ Ha) as [Hlow Hasc].
  rewrite (hindi_score_ascii _ Hasc). rewrite Hlow.
  pose proof (english_score_letter _ Hl) as He.
  destruct (Nat.ltb_spec
              (score english_patterns (map ascii_lower (c0 :: rest))) 0);
    [lia|].
  destruct (Nat.ltb_spec 0
              (score english_patterns (map ascii_lower (c0 :: rest))));
    [reflexivity|lia].
Qed.

End Detection.

(** C7.  [detect_language] returns the language whose total pattern score
    over the lower-cased text is strictly higher, and the current language
    when the two scores are equal, which is the case for the empty text; for
    a text that consists of letters of the Latin alphabet (at least one) it
    returns [english], and so it does for any ASCII text with at least one
    letter. *)
Theorem detect_language_by_score :
  forall (U : Runtime) (self : LanguageManager.LanguageManager) (text : pystr),
    let hindi := fst (LanguageManager.scores text) in
    let english := snd (LanguageManager.scores text) in
    (english < hindi ->
     LanguageManager.detect_language self text = str "hindi")
    /\ (hindi < english ->
        LanguageManager.detect_language self text = str "english")
    /\ (hindi = english ->
        LanguageManager.detect_language self text
        = LanguageManager.current_language self)
    /\ (text = [] ->
        hindi = english
        /\ LanguageManager.detect_language self text
           = LanguageManager.current_language self)
    /\ (text <> [] -> forallb is_latin_letter text = true ->
        LanguageManager.detect_language self text = str "english")
    /\ (forallb is_ascii text = true -> existsb is_latin_letter text = true ->
        LanguageManager.detect_language self text = str "english").
Proof.
  intros U self text hindi english.
  assert (Hcmp :
    text <> [] ->
    LanguageManager.detect_language self text
    = if english <? hindi then str "hindi"
      else if hindi <? english then str "english"
      else LanguageManager.current_language self).
  { subst hindi english. unfold LanguageManager.detect_language.
    destruct text as [|c0 rest]; [congruence|]. intros _.
    destruct (LanguageManager.scores (c0 :: rest)); reflexivity. }
  assert (Hempty : text = [] -> hindi = 0 /\ english = 0).
  { intros ->. subst hindi english. rewrite scores_empty. split; reflexivity. }
  split; [|split; [|split; [|split; [|split]]]].
  - intros H. destruct text as [|c0 rest].
    + destruct (Hempty eq_refl). lia.
    + rewrite Hcmp by discriminate.
      destruct (Nat.ltb_spec english hindi); [reflexivity|lia].
  - intros H. destruct text as [|c0 rest].
    + destruct (Hempty eq_refl). lia.
    + rewrite Hcmp by discriminate.
      destruct (Nat.ltb_spec english hindi); [lia|].
      destruct (Nat.ltb_spec hindi english); [reflexivity|lia].
  - intros H. destruct text as [|c0 rest]; [reflexivity|].
    rewrite Hcmp by discriminate.
    destruct (Nat.ltb_spec english hindi); [lia|].
    destruct (Nat.ltb_spec hindi english); [lia|reflexivity].
  - intros ->. destruct (Hempty eq_refl). split; [lia|reflexivity].
  - intros Hne Hlatin. apply detect_language_ascii.
    + apply (forallb_impl is_latin_letter); [apply latin_is_ascii|exact Hlatin].
    + destruct text as [|c0 rest]; [congruence|].
      cbn [forallb] in Hlatin. apply andb_prop in Hlatin as [Hc _].
      cbn [existsb]. rewrite Hc. reflexivity.
  - apply detect_language_ascii.
Qed.

Lemma detect_language_by_score_witness :
  str "restart" <> []
  /\ forallb is_latin_letter (str "restart") = true
  /\ LanguageManager.detect_language (U := ascii_runtime)
       {| LanguageManager.current_language := str "hindi" |} (str "restart")
     = str "english".
Proof.
  assert (Hne : str "restart" <> []) by discriminate.
  split; [exact Hne|]. split; [reflexivity|].
  exact (proj1 (proj2 (proj2 (proj2 (proj2
           (detect_language_by_score ascii_runtime
              {| LanguageManager.current_language := str "hindi" |}
              (str "restart")))))) Hne eq_refl).
Defined.

Example detect_english_sentence :
  LanguageManager.detect_language (U := ascii_runtime)
    {| LanguageManager.current_language := str "hindi" |}
    (str "open the file, please!") = str "english".
Proof. apply detect_language_ascii; reflexivity. Qed.

(* ###################################################################### *)
(** * Further properties of the brain *)

Section BrainProperties.
Import Brain.
Context {U : Runtime}.

Lemma context_info_state context intent self r s' :
  context_info context intent self = (r, s') -> s' = self.
Proof.
  unfold context_info, bind, py_get, ret, raise.
  destruct context; try (intros H; inversion H; reflexivity).
  match goal with
  | |- context [match dict_get (str "system_state") ?d with _ => _ end] =>
      destruct (match dict_get (str "system_state") d with
                | Some x => x
                | None => VDict []
                end)
  end; intros H; inversion H; reflexivity.
Qed.

(** Preparing the messages reads the brain and leaves it as it is. *)
Lemma prepare_messages_state command context intent self r s' :
  _prepare_messages command context intent self = (r, s') -> s' = self.
Proof.
  unfold _prepare_messages, bind, get_state.
  destruct (system_prompt self); [|intros H; inversion H; reflexivity].
  destruct (truthy context).
  - destruct (context_info context intent self) as [[info|e] s1] eqn:E;
      apply context_info_state in E; subst s1;
      unfold ret; intros H; inversion H; reflexivity.
  - unfold ret. intros H. inversion H. reflexivity.
Qed.

(** The response of the [except] branch. *)
Definition failure_response (self : JARVISBrain) : AIResponse :=
  {| text := LanguageManager.get_text (language_manager self)
               (str "error_processing");
     confidence := 0%Q;
     requires_system_action := false; requires_hardware_action := false;
     system_command := None; hardware_command := None;
     parameters := None; context := VNone; success := false |}.

(** The two ways a call ends: the messages were prepared and the response
    is built from the service's answer, or preparing them raised and the
    failure response is returned with the history untouched. *)
Lemma process_command_cases service command context self :
  (exists msgs,
     _prepare_messages command context (_analyze_intent command)
       (incr_total self) = (Ok msgs, incr_total self)
     /\ let r := _process_ai_response
                   (_get_ai_response (incr_total self) (service msgs))
                   (_check_system_commands command (_analyze_intent command))
                   context in
        process_command service command context self
        = (Ok r, _update_conversation_history command r
                   (incr_successful (incr_total self))))
  \/
  (exists e,
     _prepare_messages command context (_analyze_intent command)
       (incr_total self) = (Raise e, incr_total self)
     /\ process_command service command context self
        = (Ok (failure_response self), incr_total self)).
Proof.
  destruct (_prepare_messages command context (_analyze_intent command)
              (incr_total self)) as [[msgs|e] s1] eqn:E;
    pose proof (prepare_messages_state _ _ _ _ E); subst s1.
  - left. exists msgs. split; [reflexivity|]. cbv zeta.
    unfold process_command, try_except, bind, modify. rewrite E.
    unfold get_state, when_, ret, modify.
    replace (success
               (_process_ai_response
                  (_get_ai_response (incr_total self) (service msgs))
                  (_check_system_commands command (_analyze_intent command))
                  context)) with true
      by (unfold _process_ai_response;
          destruct (_check_system_commands command (_analyze_intent command));
          reflexivity).
    reflexivity.
  - right. exists e. split; [reflexivity|].
    unfold process_command, try_except, bind, modify. rewrite E.
    reflexivity.
Qed.

End BrainProperties.

Section BrainToExecutor.
Context {U : Runtime}.

Lemma lower_nil : lower [] = [].
Proof. exact (lower_ascii [] eq_refl). Qed.

Lemma lower_general : lower (str "general") = str "general".
Proof. rewrite lower_ascii; reflexivity. Qed.

(** What [SystemController.execute_command] answers to a command name with
    an empty parameter dictionary. *)
Definition answer_to_empty_parameters (cmd : pystr)
    (sc : SystemController.SystemController) : pystr :=
  if PyStr.eqb cmd (str "system_control") then
    str "Unknown system control action: "
  else if PyStr.eqb cmd (str "file_operation") then
    str "Unknown file operation: "
  else if PyStr.eqb cmd (str "application_control") then
    str "Unknown application action: "
  else
    match SystemController._get_general_status (SystemController.os sc) with
    | Ok s => s
    | Raise e => str "Error executing command: " ++ exn_str e
    end.

Lemma execute_empty_parameters cmd sc :
  In cmd (map str ["system_control"; "file_operation"; "application_control";
                   "system_status"]%string) ->
  SystemController.execute_command (VStr cmd) (VDict []) sc
  = (Ok (answer_to_empty_parameters cmd sc), sc).
Proof.
  intros [<- | [<- | [<- | [<- | []]]]];
    unfold SystemController.execute_command, try_except,
      SystemController.execute_command_body, answer_to_empty_parameters;
    cbn [SystemController.is_str];
    repeat match goal with
           | |- context [PyStr.eqb (str ?a) (str ?b)] =>
               let v := eval vm_compute in (PyStr.eqb (str a) (str b)) in
               change (PyStr.eqb (str a) (str b)) with v
           end;
    cbv iota.
  - unfold SystemController._handle_system_control, bind, get_state, py_get,
      ret, SystemController.py_lower. cbn [dict_get].
    rewrite lower_nil. reflexivity.
  - unfold SystemController._handle_file_operation, bind, py_get, ret,
      SystemController.py_lower. cbn [dict_get].
    rewrite lower_nil. reflexivity.
  - unfold SystemController._handle_application_control, bind, get_state,
      py_get, ret, SystemController.py_lower. cbn [dict_get].
    rewrite lower_nil. reflexivity.
  - unfold SystemController._handle_system_status, bind, py_get, ret,
      SystemController.py_lower. cbn [dict_get].
    rewrite lower_general.
    unfold ret, SystemController.general_status, bind, get_state, raise.
    change (PyStr.eqb (str "general") (str "general")) with true.
    cbv beta iota.
    destruct (SystemController._get_general_status (SystemController.os sc));
      reflexivity.
Qed.

Lemma action_request_shape command ai_text context :
  let r := Brain._process_ai_response ai_text
             (Brain._check_system_commands command
                (Brain._analyze_intent command)) context in
  Brain.requires_system_action r = true ->
  exists cmd,
    Brain.system_command r = Some cmd
    /\ Brain.parameters r = Some []
    /\ cmd = Brain.intent_type (Brain._analyze_intent command)
    /\ In cmd (map str ["system_control"; "file_operation";
                        "application_control"; "system_status"]%string).
Proof.
  cbv zeta. unfold Brain._process_ai_response, Brain._check_system_commands.
  destruct (existsb _ _) eqn:E; [|discriminate].
  intros _. cbn [Brain.system_command Brain.parameters Brain.sa_type
                 Brain.sa_parameters].
  eexists. split; [reflexivity|]. split.
  - unfold Brain._analyze_intent.
    repeat match goal with
           | |- context [if ?b then _ else _] => destruct b
           end; reflexivity.
  - split; [reflexivity|].
    apply existsb_exists in E as (x & Hin & Hx).
    apply PyStr.eqb_eq in Hx. subst x. exact Hin.
Qed.

End BrainToExecutor.

(** X1.  Whatever the command, a response of the brain that asks for a
    system action names one of the four commands of
    [SystemController.execute_command] and carries an empty parameter
    dictionary; executed with these, the controller performs no action: it
    answers that the action, operation or application action is unknown, or
    reports the general status, and its state is unchanged. *)
Theorem brain_action_requests_are_inert :
  forall (U : Runtime) service command context (self self' : Brain.JARVISBrain)
         (r : Brain.AIResponse) (sc : SystemController.SystemController),
    Brain.process_command service command context self = (Ok r, self') ->
    Brain.requires_system_action r = true ->
    exists cmd,
      Brain.system_command r = Some cmd
      /\ Brain.parameters r = Some []
      /\ In cmd (map str ["system_control"; "file_operation";
                          "application_control"; "system_status"]%string)
      /\ SystemController.execute_command (VStr cmd) (VDict []) sc
         = (Ok (answer_to_empty_parameters cmd sc), sc).
Proof.
  intros U service command context self self' r sc Hrun Hreq.
  destruct (process_command_cases service command context self)
    as [(msgs & _ & E) | (e & _ & E)]; cbv zeta in E;
    rewrite E in Hrun; inversion Hrun; subst r; clear Hrun.
  - destruct (action_request_shape command _ context Hreq)
      as (cmd & Hc & Hp & _ & Hin).
    exists cmd. repeat split; auto using execute_empty_parameters.
  - discriminate Hreq.
Qed.

Lemma brain_action_requests_are_inert_witness :
  exists r self',
    Brain.process_command (U := ascii_runtime)
      (fun _ => Brain.Reply 200 (Ok (str "Shutting down, Sir.")))
      (str "Shutdown the computer now") VNone (Brain.init (str "P"))
    = (Ok r, self')
    /\ Brain.requires_system_action r = true
    /\ SystemController.execute_command (U := ascii_runtime)
         (VStr (str "system_control")) (VDict [])
         (Repo.system_controller
            (Repo.world0 (Brain.TransportFailure (KeyError []))))
       = (Ok (str "Unknown system control action: "),
          Repo.system_controller
            (Repo.world0 (Brain.TransportFailure (KeyError [])))).
Proof.
  eexists. eexists.
  assert (Hrun :
    Brain.process_command (U := ascii_runtime)
      (fun _ => Brain.Reply 200 (Ok (str "Shutting down, Sir.")))
      (str "Shutdown the computer now") VNone (Brain.init (str "P"))
    = (Ok (Brain._process_ai_response (str "Shutting down, Sir.")
             (Brain._check_system_commands
                (str "Shutdown the computer now")
                (Brain._analyze_intent (U := ascii_runtime)
                   (str "Shutdown the computer now"))) VNone),
       snd (Brain.process_command (U := ascii_runtime)
              (fun _ => Brain.Reply 200 (Ok (str "Shutting down, Sir.")))
              (str "Shutdown the computer now") VNone (Brain.init (str "P")))))
    by (vm_compute; reflexivity).
  split; [exact Hrun|]. split; [reflexivity|].
  destruct (brain_action_requests_are_inert ascii_runtime _ _ _ _
              (Repo.system_controller
                 (Repo.world0 (Brain.TransportFailure (KeyError []))))
              Hrun eq_refl) as (cmd & Hc & _ & _ & Hx).
  injection Hc as <-. exact Hx.
Defined.

Section BrainCounters.
Import Brain.
Context {U : Runtime}.

Lemma update_history_counters command r self :
  total_queries (_update_conversation_history command r self)
  = total_queries self
  /\ successful_queries (_update_conversation_history command r self)
     = successful_queries self.
Proof.
  unfold _update_conversation_history.
  destruct (20 <? _); split; reflexivity.
Qed.

Lemma update_history_only_history command r self1 self2 :
  conversation_history self1 = conversation_history self2 ->
  conversation_history (_update_conversation_history command r self1)
  = conversation_history (_update_conversation_history command r self2).
Proof.
  unfold _update_conversation_history. intros ->.
  destruct (20 <? _); reflexivity.
Qed.

Lemma process_ai_response_success ai_text action context :
  success (_process_ai_response ai_text action context) = true.
Proof. unfold _process_ai_response. destruct action; reflexivity. Qed.

End BrainCounters.

(** X2.  Every call of the brain's [process_command] returns a response and
    counts one query; it counts one success exactly when the response has
    [success] true, so [successful_queries] never exceeds [total_queries].
    A response with [success] false is the failure response of the [except]
    branch and leaves the conversation history as it was; a response with
    [success] true has been recorded in the history. *)
Theorem brain_query_counters :
  forall (U : Runtime) service command context (self : Brain.JARVISBrain),
    exists r self',
      Brain.process_command service command context self = (Ok r, self')
      /\ Brain.total_queries self' = (Brain.total_queries self + 1)%Z
      /\ Brain.successful_queries self'
         = (Brain.successful_queries self
            + if Brain.success r then 1 else 0)%Z
      /\ ((Brain.successful_queries self <= Brain.total_queries self)%Z ->
          (Brain.successful_queries self' <= Brain.total_queries self')%Z)
      /\ (Brain.success r = false ->
          r = failure_response self
          /\ Brain.conversation_history self' = Brain.conversation_history self)
      /\ (Brain.success r = true ->
          Brain.conversation_history self'
          = Brain.conversation_history
              (Brain._update_conversation_history command r self)).
Proof.
  intros U service command context self.
  destruct (process_command_cases service command context self)
    as [(msgs & _ & E) | (e & _ & E)]; cbv zeta in E; rewrite E.
  - eexists. eexists. split; [reflexivity|].
    destruct (update_history_counters command
                (Brain._process_ai_response
                   (Brain._get_ai_response (Brain.incr_total self)
                      (service msgs))
                   (Brain._check_system_commands command
                      (Brain._analyze_intent command)) context)
                (Brain.incr_successful (Brain.incr_total self))) as [Ht Hs].
    rewrite Ht, Hs, process_ai_response_success. cbn.
    repeat split; try lia; try discriminate.
    intros _. apply update_history_only_history. reflexivity.
  - eexists. eexists. split; [reflexivity|]. cbn.
    repeat split; try lia; try discriminate.
Qed.

(** X3.  Before [initialize] has set the system prompt, and whenever the
    context passed in is a non-empty value that is not a mapping, the brain
    answers every command with the failure response ([success] false,
    confidence 0, no action requested), whatever the service would have
    said: the query is counted and nothing else changes. *)
Theorem brain_fails_without_prompt_or_mapping :
  forall (U : Runtime) service command context (self : Brain.JARVISBrain),
    Brain.system_prompt self = None
    \/ (truthy context = true /\ forall d, context <> VDict d) ->
    Brain.process_command service command context self
    = (Ok (failure_response self), Brain.incr_total self)
    /\ Brain.success (failure_response self) = false
    /\ Brain.confidence (failure_response self) = 0%Q
    /\ Brain.requires_system_action (failure_response self) = false.
Proof.
  intros U service command context self H.
  split; [|repeat split].
  destruct (process_command_cases service command context self)
    as [(msgs & Hp & _) | (e & _ & E)]; [exfalso|exact E].
  revert Hp. unfold Brain._prepare_messages, bind, get_state.
  cbn [Brain.system_prompt Brain.incr_total].
  destruct H as [-> | [Ht Hd]]; [discriminate|].
  destruct (Brain.system_prompt self); [|discriminate].
  rewrite Ht. unfold Brain.context_info, bind, py_get.
  destruct context; try discriminate.
  exfalso. eapply Hd. reflexivity.
Qed.

Lemma brain_fails_without_prompt_or_mapping_witness :
  Brain.process_command (U := ascii_runtime)
    (fun _ => Brain.Reply 200 (Ok (str "At once, Sir.")))
    (str "lock the screen") (VStr (str "evening"))
    (Brain.init (str "P"))
  = (Ok (failure_response (Brain.init (str "P"))),
     Brain.incr_total (Brain.init (str "P"))).
Proof.
  apply (brain_fails_without_prompt_or_mapping ascii_runtime).
  right. split; [reflexivity|]. intros d H. discriminate H.
Defined.

(* ###################################################################### *)
(** * The conversation history as a window of exchanges *)

Section Exchanges.
Import Brain.

(** The two entries that one recorded command adds. *)
Definition exchange (p : pystr * pystr) : list Message :=
  [ {| role := str "user"; content := fst p |};
    {| role := str "assistant"; content := snd p |} ].

Definition exchanges (ps : list (pystr * pystr)) : list Message :=
  flat_map exchange ps.

Lemma exchanges_length ps : List.length (exchanges ps) = 2 * List.length ps.
Proof.
  induction ps as [|p ps IH]; [reflexivity|].
  cbn [exchanges flat_map exchange app List.length] in *.
  unfold exchanges in IH. rewrite IH. lia.
Qed.

Lemma exchanges_app ps qs : exchanges (ps ++ qs) = exchanges ps ++ exchanges qs.
Proof. unfold exchanges. apply flat_map_app. Qed.

Lemma exchanges_skipn k : forall ps,
  skipn (2 * k) (exchanges ps) = exchanges (skipn k ps).
Proof.
  induction k as [|k IH]; intros ps; [reflexivity|].
  destruct ps as [|p ps]; [reflexivity|].
  replace (2 * S k) with (S (S (2 * k))) by lia.
  cbn [exchanges flat_map exchange app skipn].
  apply IH.
Qed.

Lemma last_n_all {A} n (l : list A) : List.length l <= n -> last_n n l = l.
Proof.
  intros H. unfold last_n.
  replace (List.length l - n) with 0 by lia. reflexivity.
Qed.

Lemma last_n_app_last {A} n (l : list A) x :
  1 <= n -> last_n n (last_n n l ++ [x]) = last_n n (l ++ [x]).
Proof.
  intros Hn. destruct (Nat.le_gt_cases (List.length l) n) as [H|H].
  - rewrite (@last_n_all _ n l H). reflexivity.
  - unfold last_n at 1 3. rewrite !length_app, last_n_min. cbn [List.length].
    replace (Nat.min n (List.length l) + 1 - n) with 1 by lia.
    replace (List.length l + 1 - n) with (List.length l - n + 1) by lia.
    rewrite (skipn_app (List.length l - n + 1) l [x]).
    replace (List.length l - n + 1 - List.length l) with 0 by lia.
    change (skipn 0 [x]) with [x].
    rewrite (skipn_app 1 (last_n n l) [x]).
    rewrite last_n_min.
    replace (1 - Nat.min n (List.length l)) with 0 by lia.
    change (skipn 0 [x]) with [x].
    f_equal. unfold last_n.
    rewrite skipn_skipn. f_equal. lia.
Qed.

Lemma exchanges_last_n k ps :
  last_n (2 * k) (exchanges ps) = exchanges (last_n k ps).
Proof.
  unfold last_n. rewrite exchanges_length.
  replace (2 * List.length ps - 2 * k) with (2 * (List.length ps - k)) by lia.
  apply exchanges_skipn.
Qed.

(** One update turns a window of exchanges into the window moved by one. *)
Lemma update_history_exchanges command r self qs :
  conversation_history self = exchanges (last_n 10 qs) ->
  conversation_history (_update_conversation_history command r self)
  = exchanges (last_n 10 (qs ++ [(command, text r)])).
Proof.
  intros H. unfold _update_conversation_history. rewrite H.
  change [ {| role := str "user"; content := command |};
           {| role := str "assistant"; content := text r |} ]
    with (exchanges [(command, text r)]).
  rewrite <- exchanges_app.
  rewrite <- (last_n_app_last (n := 10) qs (command, text r)) by lia.
  set (ps := last_n 10 qs ++ [(command, text r)]).
  destruct (Nat.ltb_spec 20 (List.length (exchanges ps))) as [Hl|Hl];
    cbn [conversation_history set_history].
  - change 20 with (2 * 10). apply exchanges_last_n.
  - rewrite exchanges_length in Hl. rewrite last_n_all by lia. reflexivity.
Qed.

Lemma record_conversation_exchanges ops : forall self qs,
  conversation_history self = exchanges (last_n 10 qs) ->
  conversation_history (record_conversation ops self)
  = exchanges
      (last_n 10 (qs ++ map (fun op => (fst op, text (snd op))) ops)).
Proof.
  induction ops as [|op ops IH]; intros self qs H; cbn [record_conversation
    fold_left map].
  - rewrite app_nil_r. exact H.
  - fold (record_conversation ops
            (_update_conversation_history (fst op) (snd op) self)).
    rewrite (IH _ (qs ++ [(fst op, text (snd op))])).
    + rewrite <- app_assoc. reflexivity.
    + apply update_history_exchanges. exact H.
Qed.

(** With three exchanges or more, the five entries that are sent to the
    service begin in the middle of an exchange. *)
Lemma window_starts_with_reply ps :
  3 <= List.length ps ->
  exists reply rest,
    last_n 5 (exchanges ps)
    = {| role := str "assistant"; content := reply |} :: rest
    /\ List.length rest = 4.
Proof.
  intros H. unfold last_n. rewrite exchanges_length.
  replace (2 * List.length ps - 5) with (1 + 2 * (List.length ps - 3)) by lia.
  rewrite <- skipn_skipn, exchanges_skipn.
  assert (Hl : List.length (skipn (List.length ps - 3) ps) = 3)
    by (rewrite length_skipn; lia).
  destruct (skipn (List.length ps - 3) ps) as [|p [|q [|r [|x l]]]];
    try discriminate Hl.
  exists (snd p). eexists. split; reflexivity.
Qed.

End Exchanges.

(** X4.  Starting from the empty history, after any sequence of recorded
    commands the conversation history is exactly the last ten exchanges, in
    order, each a user entry followed by its assistant entry; and as soon
    as three exchanges are held, the five most recent entries, which are
    what [_prepare_messages] sends, begin with an assistant entry whose
    user entry is not among them. *)
Theorem history_is_window_of_exchanges :
  forall prompt (ops : list (pystr * Brain.AIResponse)),
    let recorded := map (fun op => (fst op, Brain.text (snd op))) ops in
    let history :=
      Brain.conversation_history
        (record_conversation ops (Brain.init prompt)) in
    history = exchanges (last_n 10 recorded)
    /\ (3 <= List.length ops ->
        exists reply rest,
          last_n 5 history
          = {| Brain.role := str "assistant"; Brain.content := reply |} :: rest
          /\ List.length rest = 4).
Proof.
  intros prompt ops recorded history.
  assert (E : history = exchanges (last_n 10 recorded)).
  { subst history recorded.
    apply (record_conversation_exchanges ops (Brain.init prompt) []).
    reflexivity. }
  split; [exact E|].
  intros H. rewrite E. apply window_starts_with_reply.
  rewrite last_n_min. subst recorded. rewrite length_map. lia.
Qed.

Lemma history_is_window_of_exchanges_witness :
  let ops :=
    map (fun n => (of_N n, failure_response (Brain.init (of_N n))))
        [1; 2; 3]%N in
  3 <= List.length ops
  /\ exists reply rest,
       last_n 5
         (Brain.conversation_history
            (record_conversation ops (Brain.init (str "P"))))
       = {| Brain.role := str "assistant"; Brain.content := reply |} :: rest
       /\ List.length rest = 4.
Proof.
  cbv zeta. split; [cbn; lia|].
  apply (proj2 (history_is_window_of_exchanges (str "P")
                  (map (fun n => (of_N n, failure_response (Brain.init (of_N n))))
                       [1; 2; 3]%N))).
  cbn. lia.
Defined.

(* ###################################################################### *)
(** * [str.strip] and the text of a successful reply *)

Section Strip.

Lemma lstrip_split s :
  exists pre, s = pre ++ lstrip s /\ forallb isspace pre = true.
Proof.
  induction s as [|c s IH].
  - exists []. split; reflexivity.
  - cbn [lstrip]. destruct (isspace c) eqn:E.
    + destruct IH as (pre & Hs & Hp). exists (c :: pre).
      split; [cbn; f_equal; exact Hs|cbn; rewrite E; exact Hp].
    + exists []. split; reflexivity.
Qed.

Lemma lstrip_head s c r : lstrip s = c :: r -> isspace c = false.
Proof.
  induction s as [|a s IH]; [discriminate|].
  cbn [lstrip]. destruct (isspace a) eqn:E; [exact IH|].
  intros H. inversion H; subst. exact E.
Qed.

Lemma lstrip_fixed s :
  match s with [] => True | c :: _ => isspace c = false end -> lstrip s = s.
Proof.
  destruct s as [|c s]; [reflexivity|]. cbn [lstrip]. intros ->. reflexivity.
Qed.

(** Neither end of the text is a whitespace character. *)
Definition trimmed (s : pystr) : Prop :=
  match s with
  | [] => True
  | c :: _ => isspace c = false /\ isspace (last s c) = false
  end.

Lemma strip_trimmed s : trimmed (strip s).
Proof.
  unfold strip.
  destruct (lstrip_split (rev (lstrip s))) as (pre & Hs & Hp).
  set (u := lstrip (rev (lstrip s))) in *.
  assert (Ht : lstrip s = rev u ++ rev pre).
  { rewrite <- rev_app_distr, <- Hs, rev_involutive. reflexivity. }
  destruct (rev u) as [|c r] eqn:Er; [exact I|].
  split.
  - apply (lstrip_head s (c := c) (r := r ++ rev pre)).
    rewrite Ht. reflexivity.
  - assert (Hu : u = rev (c :: r))
      by (rewrite <- Er, rev_involutive; reflexivity).
    cbn [rev] in Hu.
    destruct u as [|a u'] eqn:Eu.
    + destruct (rev r); discriminate Hu.
    + assert (Ha : isspace a = false)
        by (apply (lstrip_head (rev (lstrip s)) (c := a) (r := u')); exact Eu).
      assert (Hl : last (c :: r) c = a).
      { rewrite <- Er. cbn [rev]. apply last_last. }
      rewrite Hl. exact Ha.
Qed.

Lemma trimmed_rev s : trimmed s -> trimmed (rev s).
Proof.
  destruct s as [|c s]; [intros; exact I|]. intros [Hc Hl].
  destruct (rev (c :: s)) as [|a r] eqn:E.
  - exact I.
  - assert (Hs : c :: s = rev (a :: r))
      by (rewrite <- E, rev_involutive; reflexivity).
    cbn [rev] in Hs. split.
    + rewrite Hs in Hl. rewrite last_last in Hl. exact Hl.
    + cbn [rev] in E.
      replace (last (a :: r) a) with c; [exact Hc|].
      rewrite <- E. rewrite last_last. reflexivity.
Qed.

Lemma strip_fixed s : trimmed s -> strip s = s.
Proof.
  intros H. unfold strip.
  assert (H1 : lstrip s = s).
  { apply lstrip_fixed. destruct s; [exact I|]. apply H. }
  rewrite H1.
  assert (H2 : lstrip (rev s) = rev s).
  { apply lstrip_fixed. pose proof (trimmed_rev s H) as Hr.
    destruct (rev s); [exact I|]. apply Hr. }
  rewrite H2. apply rev_involutive.
Qed.

End Strip.

(** X5.  When the service answers 200 with a content [c], an initialised
    brain given a usable context returns [c] stripped of the whitespace at
    both ends as the text of a successful response with confidence 0.8; the
    text does not begin or end with a whitespace character, stripping it
    again changes nothing, and the last two entries of the history are the
    command and this text. *)
Theorem successful_reply_is_stripped :
  forall (U : Runtime) service command context (self : Brain.JARVISBrain)
         prompt c,
    Brain.system_prompt self = Some prompt ->
    summarisable context ->
    (forall msgs, service msgs = Brain.Reply 200 (Ok c)) ->
    exists r self' older,
      Brain.process_command service command context self = (Ok r, self')
      /\ Brain.text r = strip c
      /\ Brain.success r = true
      /\ Brain.confidence r = (8 # 10)%Q
      /\ trimmed (Brain.text r)
      /\ strip (Brain.text r) = Brain.text r
      /\ Brain.conversation_history self'
         = older
           ++ [ {| Brain.role := str "user"; Brain.content := command |};
                {| Brain.role := str "assistant";
                   Brain.content := strip c |} ].
Proof.
  intros U service command context self prompt c Hp Hc Hs.
  destruct (process_command_cases service command context self)
    as [(msgs & _ & E) | (e & Hr & _)].
  - cbv zeta in E.
    rewrite E, Hs. cbn [Brain._get_ai_response Z.eqb Pos.eqb].
    set (r := Brain._process_ai_response (strip c) _ context).
    assert (Ht : Brain.text r = strip c)
      by (unfold r, Brain._process_ai_response;
          destruct (Brain._check_system_commands _ _); reflexivity).
    assert (Hq : Brain.confidence r = (8 # 10)%Q)
      by (unfold r, Brain._process_ai_response;
          destruct (Brain._check_system_commands _ _); reflexivity).
    exists r. eexists.
    assert (Hh : exists older,
      Brain.conversation_history
        (Brain._update_conversation_history command r
           (Brain.incr_successful (Brain.incr_total self)))
      = older
        ++ [ {| Brain.role := str "user"; Brain.content := command |};
             {| Brain.role := str "assistant"; Brain.content := strip c |} ]).
    { unfold Brain._update_conversation_history. rewrite Ht.
      match goal with
      | |- context [20 <? List.length ?h] =>
          destruct (Nat.ltb_spec 20 (List.length h)) as [Hl|Hl];
          cbn [Brain.conversation_history Brain.set_history]
      end.
      - cbn [Brain.incr_successful Brain.incr_total
               Brain.conversation_history] in *.
        set (h := Brain.conversation_history self) in *.
        exists (last_n 18 h). unfold last_n.
        rewrite length_app in *. cbn [List.length] in *.
        rewrite skipn_app.
        replace (List.length h + 2 - 20 - List.length h) with 0 by lia.
        replace (List.length h + 2 - 20) with (List.length h - 18) by lia.
        reflexivity.
      - eexists. reflexivity. }
    destruct Hh as [older Hh]. exists older.
    split; [reflexivity|]. rewrite Ht.
    repeat split; auto using strip_trimmed, strip_fixed.
    apply process_ai_response_success.
  - exfalso.
    destruct (@prepare_messages_run U command context
                (Brain._analyze_intent command) (Brain.incr_total self) prompt
                Hp Hc) as (msgs & recent & summary & older & Hrun & _).
    rewrite Hrun in Hr. discriminate Hr.
Qed.

Lemma successful_reply_is_stripped_witness :
  exists r self' older,
    Brain.process_command (U := ascii_runtime)
      (fun _ => Brain.Reply 200 (Ok (str "  It is noon, Sir. ")))
      (str "what time is it") VNone (Brain.init (str "P")) = (Ok r, self')
    /\ Brain.text r = str "It is noon, Sir."
    /\ Brain.conversation_history self'
       = older
         ++ [ {| Brain.role := str "user";
                 Brain.content := str "what time is it" |};
              {| Brain.role := str "assistant";
                 Brain.content := str "It is noon, Sir." |} ].
Proof.
  destruct (successful_reply_is_stripped ascii_runtime
              (fun _ => Brain.Reply 200 (Ok (str "  It is noon, Sir. ")))
              (str "what time is it") (context := VNone)
              (Brain.init (str "P")) eq_refl (or_introl eq_refl)
              (fun _ => eq_refl))
    as (r & self' & older & Hrun & Ht & _ & _ & _ & _ & Hh).
  exists r, self', older. split; [exact Hrun|]. split.
  - rewrite Ht. reflexivity.
  - rewrite Hh. reflexivity.
Defined.

(* ###################################################################### *)
(** * Further properties of the learning engine *)

Module LearningEngineMaintenance.
Import LearningEngine.

Section WithModels.
Variable Models : Type.

(** [_cleanup_old_data]; [newer_than_cutoff] is the comparison of a parsed
    timestamp with the instant thirty days before now, [None] when
    [datetime.fromisoformat] raises on the text.  A raise anywhere in the
    comprehension leaves the list as it was. *)
Definition _cleanup_old_data (newer_than_cutoff : pystr -> option bool)
    (self : LearningEngine Models) : LearningEngine Models :=
  let tests := map (fun i => newer_than_cutoff (timestamp i))
                   (user_interactions self) in
  if forallb (fun t => match t with Some _ => true | None => false end) tests
  then
    {| learning_enabled := learning_enabled self;
       user_interactions :=
         filter (fun i => match newer_than_cutoff (timestamp i) with
                          | Some b => b
                          | None => false
                          end) (user_interactions self);
       user_preferences := user_preferences self;
       models := models self |}
  else self.

End WithModels.
End LearningEngineMaintenance.

Section LearningProperties.
Import LearningEngine.
Variable Models : Type.
Variable _update_models : Interaction -> Models -> Models.

Lemma last_n_last {A} n (l : list A) x d :
  1 <= n -> last (last_n n (l ++ [x])) d = x.
Proof.
  intros Hn. unfold last_n. rewrite length_app. cbn [List.length].
  rewrite skipn_app.
  replace (List.length l + 1 - n - List.length l) with 0 by lia.
  change (skipn 0 [x]) with [x]. apply last_last.
Qed.

Lemma count_le {A} (f : A -> bool) l :
  List.length (filter f l) <= List.length l.
Proof.
  induction l as [|a l IH]; [reflexivity|].
  cbn [filter]. destruct (f a); cbn [List.length]; lia.
Qed.

End LearningProperties.

(** X6.  The interaction log is a first-in, first-out window: a recorded
    interaction becomes the last entry of the log, the entries dropped are
    the oldest ones, none is dropped while the log holds fewer than 10,000
    entries, and exactly the oldest one is dropped when it holds 10,000.
    The session length noted in the new entry is the size of the log before
    the call.  With learning disabled the call changes nothing. *)
Theorem interaction_log_is_fifo :
  forall (Models : Type)
         (_update_models : LearningEngine.Interaction -> Models -> Models)
         now command response (self : LearningEngine.LearningEngine Models),
    let self' :=
      LearningEngine.learn_from_interaction _update_models now command
        response self in
    let new :=
      {| LearningEngine.timestamp := LearningEngine.isoformat now;
         LearningEngine.command := command;
         LearningEngine.response := response;
         LearningEngine.feedback := VNone;
         LearningEngine.context :=
           LearningEngine._get_current_context now self |} in
    (LearningEngine.learning_enabled self = false -> self' = self)
    /\
    (LearningEngine.learning_enabled self = true ->
     exists evicted,
       LearningEngine.user_interactions self ++ [new]
       = evicted ++ LearningEngine.user_interactions self'
       /\ last (LearningEngine.user_interactions self') new = new
       /\ dict_get (str "session_length") (LearningEngine.context new)
          = Some (VInt (Z.of_nat
                          (List.length (LearningEngine.user_interactions self))))
       /\ (List.length (LearningEngine.user_interactions self)
             < LearningEngine.max_interactions -> evicted = [])
       /\ (List.length (LearningEngine.user_interactions self)
             = LearningEngine.max_interactions ->
           exists oldest, evicted = [oldest]
             /\ hd_error (LearningEngine.user_interactions self)
                = Some oldest)).
Proof.
  intros Models upd now command response self self' new.
  subst self'. unfold LearningEngine.learn_from_interaction.
  fold new. split.
  - intros ->. reflexivity.
  - intros ->. cbn [negb LearningEngine.user_interactions].
    set (old := LearningEngine.user_interactions self).
    assert (Hcap : 1 <= LearningEngine.max_interactions)
      by (unfold LearningEngine.max_interactions; lia).
    destruct (Nat.ltb_spec LearningEngine.max_interactions
                (List.length (old ++ [new]))) as [Hl|Hl].
    + exists (firstn (List.length (old ++ [new])
                      - LearningEngine.max_interactions) (old ++ [new])).
      split; [apply last_n_suffix|].
      split; [apply last_n_last; exact Hcap|].
      split; [reflexivity|].
      rewrite length_app in *. cbn [List.length] in *.
      split; [intros H; lia|].
      intros H.
      replace (List.length old + 1 - LearningEngine.max_interactions)
        with 1 by lia.
      destruct old as [|o old']; [cbn in H; lia|].
      exists o. split; reflexivity.
    + exists []. split; [reflexivity|].
      split; [apply last_last|]. split; [reflexivity|].
      rewrite length_app in Hl. cbn [List.length] in Hl.
      split; [reflexivity|]. intros H. lia.
Qed.

Lemma interaction_log_is_fifo_witness :
  let self := Repo.learning_engine
                (Repo.world0 (Brain.TransportFailure (KeyError []))) in
  LearningEngine.learning_enabled self = true
  /\ exists evicted,
       LearningEngine.user_interactions self
       ++ [ {| LearningEngine.timestamp := LearningEngine.isoformat Repo.noon;
               LearningEngine.command := str "status";
               LearningEngine.response := VNone;
               LearningEngine.feedback := VNone;
               LearningEngine.context :=
                 LearningEngine._get_current_context Repo.noon self |} ]
       = evicted
         ++ LearningEngine.user_interactions
              (LearningEngine.learn_from_interaction Repo.no_models Repo.noon
                 (str "status") VNone self).
Proof.
  cbv zeta. split; [reflexivity|].
  destruct (proj2 (interaction_log_is_fifo Repo.no_models Repo.noon
                     (str "status") VNone
                     (Repo.learning_engine
                        (Repo.world0 (Brain.TransportFailure (KeyError [])))))
                  eq_refl) as (evicted & H & _).
  exists evicted. exact H.
Defined.



Section Cleanup.
Import LearningEngine.
Variable Models : Type.
Variable newer : pystr -> option bool.

Definition parses (t : option bool) : bool :=
  match t with Some _ => true | None => false end.

Definition is_newer (i : Interaction) : bool :=
  match newer (timestamp i) with Some b => b | None => false end.

Lemma cleanup_unfold (self : LearningEngine Models) :
  LearningEngineMaintenance._cleanup_old_data newer self
  = if forallb parses (map (fun i => newer (timestamp i))
                           (user_interactions self))
    then {| learning_enabled := learning_enabled self;
            user_interactions := filter is_newer (user_interactions self);
            user_preferences := user_preferences self;
            models := models self |}
    else self.
Proof. reflexivity. Qed.

Lemma all_parse_iff (l : list Interaction) :
  forallb parses (map (fun i => newer (timestamp i)) l) = true
  <-> forall i, In i l -> newer (timestamp i) <> None.
Proof.
  rewrite forallb_forall. split.
  - intros H i Hin Hn. specialize (H (newer (timestamp i))).
    rewrite Hn in H. discriminate H.
    apply in_map_iff. exists i. split; [exact Hn|exact Hin].
  - intros H t Ht. apply in_map_iff in Ht as (i & <- & Hi).
    specialize (H i Hi). destruct (newer (timestamp i)); [reflexivity|congruence].
Qed.

Lemma filter_idempotent {A} (f : A -> bool) l :
  filter f (filter f l) = filter f l.
Proof.
  induction l as [|a l IH]; [reflexivity|].
  cbn [filter]. destruct (f a) eqn:Ea; [|exact IH].
  cbn [filter]. rewrite Ea. f_equal. exact IH.
Qed.

End Cleanup.

(** X8.  [_cleanup_old_data] is all or nothing: when every stored timestamp
    parses, exactly the interactions newer than the cut-off are kept, in
    their order; when one timestamp does not parse, nothing is removed,
    however old the other entries are.  The log never grows, and cleaning
    twice against the same cut-off is the same as cleaning once. *)
Theorem cleanup_is_all_or_nothing :
  forall (Models : Type) newer (self : LearningEngine.LearningEngine Models),
    let self' := LearningEngineMaintenance._cleanup_old_data newer self in
    ((exists i, In i (LearningEngine.user_interactions self)
                /\ newer (LearningEngine.timestamp i) = None) ->
     self' = self)
    /\ ((forall i, In i (LearningEngine.user_interactions self) ->
                   newer (LearningEngine.timestamp i) <> None) ->
        LearningEngine.user_interactions self'
        = filter (fun i => match newer (LearningEngine.timestamp i) with
                           | Some b => b
                           | None => false
                           end) (LearningEngine.user_interactions self)
        /\ forall i, In i (LearningEngine.user_interactions self') <->
                     In i (LearningEngine.user_interactions self)
                     /\ newer (LearningEngine.timestamp i) = Some true)
    /\ List.length (LearningEngine.user_interactions self')
       <= List.length (LearningEngine.user_interactions self)
    /\ LearningEngineMaintenance._cleanup_old_data newer self' = self'.
Proof.
  intros Models newer self self'. subst self'.
  rewrite !cleanup_unfold.
  destruct (forallb parses
              (map (fun i => newer (LearningEngine.timestamp i))
                   (LearningEngine.user_interactions self))) eqn:E.
  - pose proof (proj1 (all_parse_iff newer _) E) as Hparse.
    split; [|split; [|split]].
    + intros (i & Hin & Hn). exfalso. exact (Hparse i Hin Hn).
    + intros _. split; [reflexivity|].
      intros i. cbn [LearningEngine.user_interactions].
      rewrite filter_In. unfold is_newer.
      destruct (newer (LearningEngine.timestamp i)) as [[|]|];
        intuition congruence.
    + cbn [LearningEngine.user_interactions]. apply count_le.
    + cbn [LearningEngine.user_interactions LearningEngine.learning_enabled
           LearningEngine.user_preferences LearningEngine.models].
      rewrite filter_idempotent.
      replace (forallb parses
                 (map (fun i => newer (LearningEngine.timestamp i))
                      (filter (is_newer newer)
                         (LearningEngine.user_interactions self))))
        with true; [reflexivity|].
      symmetry. apply all_parse_iff. intros i Hi.
      apply filter_In in Hi as [Hi _]. exact (Hparse i Hi).
  - split; [|split; [|split]].
    + intros _. reflexivity.
    + intros Hparse. apply all_parse_iff in Hparse. congruence.
    + lia.
    + rewrite E. reflexivity.
Qed.

Lemma cleanup_is_all_or_nothing_witness :
  let entry t :=
    {| LearningEngine.timestamp := str t;
       LearningEngine.command := str "status";
       LearningEngine.response := VNone;
       LearningEngine.feedback := VNone;
       LearningEngine.context := [] |} in
  let newer t :=
    if PyStr.eqb t (str "") then None
    else Some (PyStr.eqb t (str "2024-06-01T10:00:00")) in
  let self :=
    {| LearningEngine.learning_enabled := true;
       LearningEngine.user_interactions :=
         [entry "2020-01-01T10:00:00"; entry ""; entry "2024-06-01T10:00:00"]%string;
       LearningEngine.user_preferences := VDict [];
       LearningEngine.models := tt |} in
  LearningEngineMaintenance._cleanup_old_data newer self = self.
Proof.
  cbv zeta.
  match goal with
  | |- LearningEngineMaintenance._cleanup_old_data ?newer ?self = _ =>
      apply (proj1 (cleanup_is_all_or_nothing newer self))
  end.
  eexists. split; [right; left; reflexivity|reflexivity].
Defined.

(* ###################################################################### *)
(** * Further properties of the system controller *)

Section ControllerProperties.
Context {U : Runtime}.

Lemma startswith_app p x : startswith p (p ++ x) = true.
Proof.
  induction p as [|a p IH]; [destruct x; reflexivity|].
  cbn [app startswith]. rewrite N.eqb_refl. exact IH.
Qed.

Definition reports_error (s : pystr) : Prop :=
  startswith (str "Error executing command: ") s = true.

Lemma file_operation_body parameters sc :
  (exists e,
     SystemController._handle_file_operation parameters sc = (Raise e, sc))
  \/ (exists operation,
        SystemController._handle_file_operation parameters sc
        = (Ok (str "Unknown file operation: " ++ operation), sc)).
Proof.
  unfold SystemController._handle_file_operation, SystemController.py_lower,
    SystemController.missing, bind, py_get, ret, raise.
  destruct parameters; try (left; eexists; reflexivity).
  destruct (match dict_get (str "operation") d with
            | Some x => x
            | None => VStr []
            end); try (left; eexists; reflexivity).
  repeat match goal with
         | |- context [if PyStr.eqb ?a ?b then _ else _] =>
             destruct (PyStr.eqb a b); [left; eexists; reflexivity|]
         end.
  right. eexists. reflexivity.
Qed.

End ControllerProperties.

(** X9.  No file operation is ever carried out: whatever the parameters,
    [execute_command('file_operation', ...)] answers either with an error
    sentence (the parameters are unusable, or the operation is one of
    create, delete, copy, move and search, whose methods the class does not
    define) or that the operation is unknown; it never raises and leaves
    the controller unchanged. *)
Theorem file_operations_never_succeed :
  forall (U : Runtime) (parameters : pyval)
         (sc : SystemController.SystemController),
    exists s,
      SystemController.execute_command (VStr (str "file_operation"))
        parameters sc = (Ok s, sc)
      /\ (reports_error s
          \/ startswith (str "Unknown file operation: ") s = true).
Proof.
  intros U parameters sc.
  unfold SystemController.execute_command, try_except,
    SystemController.execute_command_body.
  cbn [SystemController.is_str].
  change (PyStr.eqb (str "file_operation") (str "system_control")) with false.
  change (PyStr.eqb (str "file_operation") (str "file_operation")) with true.
  cbv iota.
  destruct (file_operation_body
              (match parameters with VNone => VDict [] | _ => parameters end)
              sc) as [(e & ->) | (operation & ->)].
  - eexists. split; [reflexivity|]. left. apply startswith_app.
  - eexists. split; [reflexivity|]. right. apply startswith_app.
Qed.

(** X10.  A status request names its kind case-insensitively.  The kinds
    [detailed] and [performance] are answered with an error sentence,
    because their methods are not defined; every other kind, known or not,
    is answered exactly like a request with no parameters, that is with the
    general status. *)
Theorem status_kinds :
  forall (U : Runtime) (d : pydict) (kind : pystr)
         (sc : SystemController.SystemController),
    dict_get (str "type") d = Some (VStr kind) ->
    (lower kind = str "detailed" ->
     SystemController.execute_command (VStr (str "system_status")) (VDict d) sc
     = (Ok (str "Error executing command: 'SystemController' object has no attribute '_get_detailed_status'"),
        sc))
    /\ (lower kind = str "performance" ->
        SystemController.execute_command (VStr (str "system_status"))
          (VDict d) sc
        = (Ok (str "Error executing command: 'SystemController' object has no attribute '_get_performance_status'"),
           sc))
    /\ (lower kind <> str "detailed" -> lower kind <> str "performance" ->
        SystemController.execute_command (VStr (str "system_status"))
          (VDict d) sc
        = SystemController.execute_command (VStr (str "system_status"))
            VNone sc).
Proof.
  intros U d kind sc Hk.
  assert (Hrun :
    SystemController.execute_command (VStr (str "system_status")) (VDict d) sc
    = try_except
        (if PyStr.eqb (lower kind) (str "general")
         then SystemController.general_status
         else if PyStr.eqb (lower kind) (str "detailed")
         then SystemController.missing "_get_detailed_status"
         else if PyStr.eqb (lower kind) (str "performance")
         then SystemController.missing "_get_performance_status"
         else SystemController.general_status)
        (fun e => ret (str "Error executing command: " ++ exn_str e)) sc).
  { unfold SystemController.execute_command,
      SystemController.execute_command_body,
      SystemController._handle_system_status, SystemController.py_lower,
      try_except, bind, py_get, ret.
    cbn [SystemController.is_str]. rewrite Hk. reflexivity. }
  assert (Hnone :
    SystemController.execute_command (VStr (str "system_status")) VNone sc
    = try_except SystemController.general_status
        (fun e => ret (str "Error executing command: " ++ exn_str e)) sc).
  { change (SystemController.execute_command (VStr (str "system_status"))
              VNone sc)
      with (SystemController.execute_command (VStr (str "system_status"))
              (VDict []) sc).
    rewrite (execute_empty_parameters (cmd := str "system_status") sc)
      by (cbn; auto).
    unfold answer_to_empty_parameters, try_except,
      SystemController.general_status, bind, get_state, ret, raise.
    destruct (SystemController._get_general_status (SystemController.os sc));
      reflexivity. }
  split; [|split].
  - intros H. rewrite Hrun, H. reflexivity.
  - intros H. rewrite Hrun, H. reflexivity.
  - intros H1 H2. rewrite Hrun, Hnone.
    destruct (PyStr.eqb (lower kind) (str "general")); [reflexivity|].
    destruct (PyStr.eqb (lower kind) (str "detailed")) eqn:E1;
      [apply PyStr.eqb_eq in E1; contradiction|].
    destruct (PyStr.eqb (lower kind) (str "performance")) eqn:E2;
      [apply PyStr.eqb_eq in E2; contradiction|].
    reflexivity.
Qed.

Lemma status_kinds_witness :
  SystemController.execute_command (U := ascii_runtime)
    (VStr (str "system_status"))
    (VDict [ (str "type", VStr (str "Detailed")) ])
    (Repo.system_controller
       (Repo.world0 (Brain.TransportFailure (KeyError []))))
  = (Ok (str "Error executing command: 'SystemController' object has no attribute '_get_detailed_status'"),
     Repo.system_controller
       (Repo.world0 (Brain.TransportFailure (KeyError [])))).
Proof.
  apply (proj1 (status_kinds ascii_runtime
                  [ (str "type", VStr (str "Detailed")) ]
                  (kind := str "Detailed")
                  (Repo.system_controller
                     (Repo.world0 (Brain.TransportFailure (KeyError []))))
                  eq_refl)).
  reflexivity.
Defined.

(* ###################################################################### *)
(** * Detection of Hindi text *)

Section HindiDetection.
Import LanguageManager.
Context {U : Runtime}.

(** A character that the English patterns can match under
    [re.IGNORECASE]: a Latin letter, or one of the four letters folded onto
    [i], [s] and [k]. *)
Definition latin_like (c : N) : bool :=
  (is_latin_letter c || (c =? 304) || (c =? 305) || (c =? 383)
   || (c =? 8490))%N.

Definition devanagari (c : N) : bool := ((2304 <=? c) && (c <=? 2431))%N.

Lemma variants_not_latin c : latin_like c = false -> Regex.variants c = [c].
Proof.
  unfold latin_like, is_latin_letter, Regex.variants. intros H.
  repeat (apply orb_false_elim in H as [H ?]).
  rewrite H. 
  repeat match goal with
         | E : ?b = false |- context [?b] => rewrite E
         end.
  reflexivity.
Qed.

Lemma class_latin_not_latin c :
  latin_like c = false ->
  Regex.class_match [(97, 122)%N; (65, 90)%N] c = false.
Proof.
  intros H. unfold Regex.class_match. rewrite (variants_not_latin _ H).
  unfold latin_like, is_latin_letter, is_ascii_upper, is_ascii_lower in H.
  repeat (apply orb_false_elim in H as [H ?]).
  cbn [existsb]. unfold Regex.in_range. cbn [fst snd].
  rewrite H. 
  match goal with E : (_ && _)%bool = false |- _ => rewrite E end.
  reflexivity.
Qed.

Lemma class_devanagari_match c :
  devanagari c = true -> Regex.class_match [(2304, 2431)%N] c = true.
Proof.
  intros H. unfold Regex.class_match, Regex.variants. cbn [existsb].
  unfold Regex.in_range at 1. cbn [fst snd].
  unfold devanagari in H. rewrite H. reflexivity.
Qed.

Definition starts_with_letter (w : pystr) : bool :=
  match w with
  | p :: _ => is_latin_letter p
  | [] => false
  end.

Lemma lit_letter_not_latin p c :
  is_latin_letter p = true -> latin_like c = false ->
  Regex.lit_match p c = false.
Proof.
  intros Hp H. unfold Regex.lit_match. rewrite (variants_not_latin _ H).
  cbn [existsb]. destruct (N.eqb_spec p c) as [->|_]; [|reflexivity].
  unfold latin_like in H. rewrite Hp in H. discriminate H.
Qed.

Lemma match_alts_letters alts prev text :
  forallb starts_with_letter alts = true ->
  forallb (fun c => negb (latin_like c)) text = true ->
  Regex.match_alts alts prev text = None.
Proof.
  intros Ha Ht. induction alts as [|w alts IH]; [reflexivity|].
  cbn [forallb] in Ha. apply andb_prop in Ha as [Hw Ha].
  cbn [Regex.match_alts].
  destruct w as [|p w]; [discriminate Hw|].
  cbn [starts_with_letter] in Hw. cbn [Regex.match_word].
  destruct text as [|c rest]; [apply IH; assumption|].
  cbn [forallb] in Ht. apply andb_prop in Ht as [Hc Hr].
  apply negb_true_iff in Hc.
  rewrite (lit_letter_not_latin _ _ Hw Hc). apply IH. assumption.
Qed.

Lemma findall_words_letters alts text :
  forallb starts_with_letter alts = true ->
  forallb (fun c => negb (latin_like c)) text = true ->
  forall prev skip, Regex.findall_words alts prev skip text = 0.
Proof.
  intros Ha. induction text as [|c rest IH]; intros Ht prev skip;
    [reflexivity|].
  pose proof Ht as Ht'.
  cbn [forallb] in Ht. apply andb_prop in Ht as [Hc Hr].
  cbn [Regex.findall_words].
  destruct skip as [|k]; [|apply IH; assumption].
  unfold Regex.match_words_at.
  rewrite (match_alts_letters _ prev _ Ha Ht').
  destruct (Regex.boundary prev (hd_error (c :: rest))); apply IH; assumption.
Qed.

Lemma english_score_not_latin text_lower :
  forallb (fun c => negb (latin_like c)) text_lower = true ->
  score english_patterns text_lower = 0.
Proof.
  intros H. unfold score, english_patterns.
  cbn [fold_left Regex.findall_count].
  rewrite filter_none.
  - rewrite !findall_words_letters; auto.
  - rewrite forallb_forall in *. intros c Hc.
    rewrite class_latin_not_latin; [reflexivity|].
    apply negb_true_iff. apply H. exact Hc.
Qed.

Lemma hindi_score_devanagari text_lower :
  existsb devanagari text_lower = true ->
  0 < score hindi_patterns text_lower.
Proof.
  intros H. unfold score, hindi_patterns.
  cbn [fold_left Regex.findall_count].
  assert (0 < List.length
                (filter (Regex.class_match [(2304, 2431)%N]) text_lower));
    [|lia].
  apply filter_some. apply existsb_exists.
  apply existsb_exists in H as (c & Hin & Hc).
  exists c. split; [exact Hin|]. apply class_devanagari_match. exact Hc.
Qed.

Lemma detect_language_hindi self text :
  forallb (fun c => negb (latin_like c)) (lower text) = true ->
  existsb devanagari (lower text) = true ->
  detect_language self text = str "hindi".
Proof.
  intros Hn Hd. unfold detect_language.
  destruct text as [|c0 rest].
  - rewrite (lower_ascii [] eq_refl) in Hd. discriminate Hd.
  - unfold scores. rewrite (english_score_not_latin _ Hn).
    pose proof (hindi_score_devanagari _ Hd) as Hh.
    destruct (Nat.ltb_spec 0 (score hindi_patterns (lower (c0 :: rest))));
      [reflexivity|lia].
Qed.

End HindiDetection.

(** X11.  A text whose lower-cased form contains at least one Devanagari
    character and no Latin letter (nor one of the four letters that
    [re.IGNORECASE] folds onto Latin letters) is detected as [hindi],
    whatever the current language; digits, spaces and punctuation do not
    count for either language. *)
Theorem devanagari_text_is_hindi :
  forall (U : Runtime) (self : LanguageManager.LanguageManager) (text : pystr),
    forallb (fun c => negb (latin_like c)) (lower text) = true ->
    existsb devanagari (lower text) = true ->
    LanguageManager.detect_language self text = str "hindi"
    /\ snd (LanguageManager.scores text) = 0
    /\ 0 < fst (LanguageManager.scores text).
Proof.
  intros U self text Hn Hd. split; [|split].
  - apply detect_language_hindi; assumption.
  - apply english_score_not_latin. exact Hn.
  - apply hindi_score_devanagari. exact Hd.
Qed.

Lemma devanagari_text_is_hindi_witness :
  LanguageManager.detect_language (U := ascii_runtime) LanguageManager.init
    (utf8 "क्या समय है? 12:30") = str "hindi".
Proof.
  apply (devanagari_text_is_hindi ascii_runtime); reflexivity.
Defined.

(* ###################################################################### *)
(** * The orchestrator with arbitrary collaborators *)

Section OrchestratorSteps.
Import Orchestrator.
Context {U : Runtime}.
Variable Env : Type.
Variable c : Collaborators Env.

(** The orchestrator's attributes after more calls have been recorded. *)
Definition add_calls (new : list Call) (j : AdvancedJARVIS) : AdvancedJARVIS :=
  {| language_manager := language_manager j;
     current_language := current_language j;
     commands_processed := commands_processed j;
     successful_operations := successful_operations j;
     learning_mode := learning_mode j;
     calls := calls j ++ new |}.

Lemma add_calls_nil j : add_calls [] j = j.
Proof. destruct j. unfold add_calls. cbn. rewrite app_nil_r. reflexivity. Qed.

Lemma add_calls_app a b j : add_calls b (add_calls a j) = add_calls (a ++ b) j.
Proof. unfold add_calls. cbn. rewrite app_assoc. reflexivity. Qed.

Definition is_system_dispatch (x : Call) : bool :=
  match x with SystemDispatch _ _ => true | _ => false end.

Definition is_learn (x : Call) : bool :=
  match x with LearnCall _ _ => true | _ => false end.

Definition at_most_one (p : Call -> bool) (l : list Call) : Prop :=
  l = [] \/ exists x, l = [x] /\ p x = true.

(** The order in which one run of [process_command] calls out: the brain,
    then at most one system dispatch, then at most one hardware dispatch,
    then at most one call to [learn_from_interaction]; nothing at all when
    context assembly raised. *)
Definition ordered_trace (command : pystr) (new : list Call) : Prop :=
  new = []
  \/ exists context sys hw learn,
       new = BrainCall command context :: sys ++ hw ++ learn
       /\ at_most_one is_system_dispatch sys
       /\ at_most_one is_hardware_dispatch hw
       /\ at_most_one is_learn learn.

Lemma dispatch_system_state response j e r j' e' :
  dispatch_system c response (j, e) = (r, (j', e')) ->
  exists new, j' = add_calls new j /\ at_most_one is_system_dispatch new.
Proof.
  unfold dispatch_system, bind, py_get, py_getitem, py_setitem, record_call,
    update, call, ret, raise.
  intros H.
  assert (Hnone : forall r0, (r0, (j, e)) = (r, (j', e')) ->
                  exists new, j' = add_calls new j
                              /\ at_most_one is_system_dispatch new).
  { intros r0 E. inversion E. exists []. rewrite add_calls_nil.
    split; [reflexivity|left; reflexivity]. }
  destruct response; try (exact (Hnone _ H)).
  destruct (truthy _); [|exact (Hnone _ H)].
  destruct (dict_get (str "system_command") d) as [command|];
    [|exact (Hnone _ H)].
  cbn [fst snd] in H.
  match type of H with
  | context [system_execute_command c ?a ?b e] =>
      destruct (system_execute_command c a b e) as [[x|ex] e1];
      cbn [fst snd] in H; inversion H;
      exists [SystemDispatch a b];
      (split; [reflexivity|right; eexists; split; reflexivity])
  end.
Qed.

Lemma dispatch_hardware_state response j e r j' e' :
  dispatch_hardware c response (j, e) = (r, (j', e')) ->
  exists new, j' = add_calls new j /\ at_most_one is_hardware_dispatch new.
Proof.
  unfold dispatch_hardware, bind, py_get, py_getitem, py_setitem, record_call,
    update, call, ret, raise.
  intros H.
  assert (Hnone : forall r0, (r0, (j, e)) = (r, (j', e')) ->
                  exists new, j' = add_calls new j
                              /\ at_most_one is_hardware_dispatch new).
  { intros r0 E. inversion E. exists []. rewrite add_calls_nil.
    split; [reflexivity|left; reflexivity]. }
  destruct response; try (exact (Hnone _ H)).
  destruct (truthy _); [|exact (Hnone _ H)].
  destruct (dict_get (str "hardware_command") d) as [command|];
    [|exact (Hnone _ H)].
  cbn [fst snd] in H.
  match type of H with
  | context [hardware_execute_command c ?a ?b e] =>
      destruct (hardware_execute_command c a b e) as [[x|ex] e1];
      cbn [fst snd] in H; inversion H;
      exists [HardwareDispatch a b];
      (split; [reflexivity|right; eexists; split; reflexivity])
  end.
Qed.

(** The learning step of [process_command]. *)
Definition learn_step (command : pystr) (response : pyval) : M (St Env) unit :=
  self <- self_ ;;
  when_ (learning_mode self)
        (record_call (LearnCall command response) ;;
         call (learn_from_interaction c command response)).

Lemma learn_step_state command response j e r j' e' :
  learn_step command response (j, e) = (r, (j', e')) ->
  j' = add_calls (if learning_mode j
                  then [LearnCall command response] else []) j.
Proof.
  unfold learn_step, bind, self_, when_, record_call, update, call, ret.
  cbn [fst snd]. destruct (learning_mode j) eqn:L; cbn [fst snd].
  - destruct (learn_from_interaction c command response e) as [[x|ex] e1];
      intros H; inversion H; unfold add_calls; rewrite L; reflexivity.
  - intros H. inversion H. rewrite add_calls_nil. reflexivity.
Qed.

(** Where one run of the [try] block can leave the orchestrator. *)
Lemma after_language_cases command j e r j' e' :
  after_language c command (j, e) = (r, (j', e')) ->
  exists new,
    ordered_trace command new
    /\ match r with
       | Ok v =>
           j' = incr_successful (add_calls new j)
           /\ exists before,
                new = before
                      ++ (if learning_mode j then [LearnCall command v] else [])
                /\ filter is_learn before = []
       | Raise _ => j' = add_calls new j
       end.
Proof.
  unfold after_language. unfold bind at 1.
  destruct (_analyze_context c command (j, e)) as [[context|ex] [j1 e1]] eqn:EA;
    apply analyze_context_self in EA as ->.
  2:{ intros H. inversion H. exists []. rewrite add_calls_nil.
      split; [left; reflexivity|reflexivity]. }
  unfold bind at 1. unfold record_call at 1, update at 1. cbn [fst snd].
  change ({| language_manager := language_manager j;
             current_language := current_language j;
             commands_processed := commands_processed j;
             successful_operations := successful_operations j;
             learning_mode := learning_mode j;
             calls := calls j ++ [BrainCall command context] |})
    with (add_calls [BrainCall command context] j).
  set (j1 := add_calls [BrainCall command context] j).
  unfold bind at 1. unfold call at 1. cbn [fst snd].
  destruct (brain_process_command c command context e1) as [[response|ex] e2].
  2:{ intros H. inversion H. exists [BrainCall command context].
      split; [|reflexivity]. right. exists context, [], [], [].
      split; [reflexivity|]. split; [|split]; left; reflexivity. }
  unfold bind at 1.
  destruct (dispatch_system c response (j1, e2)) as [[r1|ex] [j2 e3]] eqn:ES;
    apply dispatch_system_state in ES as (sys & -> & Hsys).
  2:{ intros H. inversion H. subst j1. rewrite add_calls_app.
      eexists. split; [|reflexivity]. right. exists context, sys, [], [].
      rewrite !app_nil_r.
      split; [reflexivity|]. split; [exact Hsys|]. split; left; reflexivity. }
  unfold bind at 1.
  destruct (dispatch_hardware c r1 (add_calls sys j1, e3))
    as [[r2|ex] [j3 e4]] eqn:EH;
    apply dispatch_hardware_state in EH as (hw & -> & Hhw).
  2:{ intros H. inversion H. subst j1. rewrite !add_calls_app.
      eexists. split; [|reflexivity]. right. exists context, sys, hw, [].
      rewrite !app_nil_r.
      split; [reflexivity|]. split; [exact Hsys|]. split; [exact Hhw|].
      left; reflexivity. }
  change (self <- self_ ;;
          when_ (learning_mode self)
                (record_call (LearnCall command r2) ;;
                 call (learn_from_interaction c command r2)) ;;
          update incr_successful ;; ret r2)
    with (self <- self_ ;;
          (fun self =>
             when_ (learning_mode self)
                   (record_call (LearnCall command r2) ;;
                    call (learn_from_interaction c command r2)) ;;
             update incr_successful ;; ret r2) self).
  assert (Hl : learning_mode (add_calls hw (add_calls sys j1)) = learning_mode j)
    by reflexivity.
  assert (Hlearn : at_most_one is_learn
                     (if learning_mode j then [LearnCall command r2] else [])).
  { destruct (learning_mode j); [right; eexists; split; reflexivity
                                |left; reflexivity]. }
  assert (Hbefore : filter is_learn ([BrainCall command context] ++ sys ++ hw)
                    = []).
  { cbn [app filter is_learn]. rewrite filter_app.
    destruct Hsys as [->|(x & -> & Hx)], Hhw as [->|(y & -> & Hy)];
      try destruct x; try destruct y; try discriminate; reflexivity. }
  unfold bind at 1. unfold self_ at 1. cbn [fst snd]. rewrite Hl.
  unfold bind at 1.
  destruct (when_ (learning_mode j)
              (record_call (LearnCall command r2) ;;
               call (learn_from_interaction c command r2))
              (add_calls hw (add_calls sys j1), e4))
    as [[x|ex] [j4 e5]] eqn:EL.
  - assert (j4 = add_calls (if learning_mode j
                            then [LearnCall command r2] else [])
                   (add_calls hw (add_calls sys j1))) as ->.
    { apply (@learn_step_state command r2 (add_calls hw (add_calls sys j1)) e4 (Ok x) _ e5).
      unfold learn_step, bind at 1, self_. cbn [fst snd]. rewrite Hl.
      exact EL. }
    unfold bind, update, ret. cbn [fst snd]. intros H. inversion H. subst.
    subst j1. rewrite !add_calls_app.
    eexists. split; [|split; [reflexivity|]].
    + right. exists context, sys, hw. eexists.
      split; [reflexivity|].
      split; [exact Hsys|]. split; [exact Hhw|exact Hlearn].
    + exists ([BrainCall command context] ++ sys ++ hw).
      split; [rewrite <- !app_assoc; reflexivity|exact Hbefore].
  - assert (j4 = add_calls (if learning_mode j
                            then [LearnCall command r2] else [])
                   (add_calls hw (add_calls sys j1))) as ->.
    { apply (@learn_step_state command r2 (add_calls hw (add_calls sys j1)) e4 (Raise ex) _ e5).
      unfold learn_step, bind at 1, self_. cbn [fst snd]. rewrite Hl.
      exact EL. }
    intros H. inversion H. subst. subst j1. rewrite !add_calls_app.
    eexists. split; [|reflexivity].
    right. exists context, sys, hw. eexists.
    split; [reflexivity|].
    split; [exact Hsys|]. split; [exact Hhw|exact Hlearn].
Qed.

End OrchestratorSteps.

Section OrchestratorBookkeeping.
Import Orchestrator.
Context {U : Runtime}.
Variable Env : Type.
Variable c : Collaborators Env.

Lemma detect_language_range (lm : LanguageManager.LanguageManager) text :
  LanguageManager.detect_language lm text = str "hindi"
  \/ LanguageManager.detect_language lm text = str "english"
  \/ LanguageManager.detect_language lm text
     = LanguageManager.current_language lm.
Proof.
  unfold LanguageManager.detect_language. destruct text; [auto|].
  destruct (LanguageManager.scores _) as [h en].
  destruct (en <? h); [auto|]. destruct (h <? en); auto.
Qed.

(** After the detection step the orchestrator's language is the detected
    one, whether or not the assignment was executed. *)
Lemma after_detection_language command j :
  current_language (after_detection command j)
  = LanguageManager.detect_language (language_manager j) command
  /\ commands_processed (after_detection command j) = (commands_processed j + 1)%Z
  /\ language_manager (after_detection command j)
     = (if PyStr.eqb (LanguageManager.detect_language (language_manager j)
                        command)
                     (current_language j)
        then language_manager j
        else LanguageManager.set_language (language_manager j)
               (LanguageManager.detect_language (language_manager j) command)).
Proof.
  unfold after_detection. cbn [incr_processed language_manager current_language].
  destruct (PyStr.eqb _ _) eqn:E; cbn [negb].
  - apply PyStr.eqb_eq in E. cbn. auto.
  - cbn. auto.
Qed.

(** One run of [process_command], with any collaborators. *)
Lemma process_command_run command j e :
  exists v j' e' new,
    process_command c command (j, e) = (Ok v, (j', e'))
    /\ ordered_trace command new
    /\ ((process_command_body c command (j, e) = (Ok v, (j', e'))
         /\ j' = incr_successful (add_calls new (after_detection command j))
         /\ exists before,
              new = before ++ (if learning_mode j
                               then [LearnCall command v] else [])
              /\ filter is_learn before = [])
        \/ exists ex,
             process_command_body c command (j, e) = (Raise ex, (j', e'))
             /\ j' = add_calls new (after_detection command j)
             /\ v = error_response (language_manager j') ex).
Proof.
  unfold process_command, try_except. rewrite body_after_detection.
  destruct (after_detection_calls command j) as (_ & _ & Hl).
  destruct (after_language c command (after_detection command j, e))
    as [[v|ex] [j' e']] eqn:E;
    destruct (after_language_cases c _ _ _ E) as (new & Ht & H).
  - destruct H as (-> & before & Hb & Hf). rewrite Hl in Hb.
    exists v. eexists. exists e', new.
    split; [reflexivity|]. split; [exact Ht|]. left.
    split; [reflexivity|]. split; [reflexivity|].
    exists before. split; assumption.
  - subst j'. unfold bind, self_, ret. cbn [fst snd].
    eexists. eexists. exists e', new.
    split; [reflexivity|]. split; [exact Ht|]. right.
    exists ex. split; [reflexivity|]. split; reflexivity.
Qed.

End OrchestratorBookkeeping.

(** X12.  Bookkeeping of one run of the orchestrator's [process_command],
    with any collaborators: it returns a value; [commands_processed] grows
    by one whether or not the run failed; the orchestrator's language becomes
    the detected language; the calls made are, in this order, the brain, at
    most one system dispatch, at most one hardware dispatch and at most one
    [learn_from_interaction].  Either the [try] block returned, then
    [successful_operations] grows by one and, in learning mode, the last
    call made is [learn_from_interaction] on the very value returned; or it
    raised, then the value is the failure mapping and
    [successful_operations] is unchanged. *)
Theorem process_command_bookkeeping :
  forall (U : Runtime) (Env : Type) (c : Orchestrator.Collaborators Env)
         (command : pystr) (j : Orchestrator.AdvancedJARVIS) (e : Env),
  exists v j' e' new,
    Orchestrator.process_command c command (j, e) = (Ok v, (j', e'))
    /\ Orchestrator.calls j' = Orchestrator.calls j ++ new
    /\ ordered_trace command new
    /\ Orchestrator.commands_processed j'
       = (Orchestrator.commands_processed j + 1)%Z
    /\ Orchestrator.learning_mode j' = Orchestrator.learning_mode j
    /\ Orchestrator.current_language j'
       = LanguageManager.detect_language
           (Orchestrator.language_manager j) command
    /\ ((Orchestrator.process_command_body c command (j, e)
         = (Ok v, (j', e'))
         /\ Orchestrator.successful_operations j'
            = (Orchestrator.successful_operations j + 1)%Z
         /\ exists before,
              new = before
                    ++ (if Orchestrator.learning_mode j
                        then [Orchestrator.LearnCall command v] else [])
              /\ filter is_learn before = [])
        \/ exists ex,
             Orchestrator.process_command_body c command (j, e)
             = (Raise ex, (j', e'))
             /\ v = Orchestrator.error_response
                      (Orchestrator.language_manager j') ex
             /\ Orchestrator.successful_operations j'
                = Orchestrator.successful_operations j).
Proof.
  intros U Env c command j e.
  destruct (process_command_run c command j e)
    as (v & j' & e' & new & Hrun & Ht & H).
  destruct (after_detection_calls command j) as (Hc & Hs & Hl).
  destruct (after_detection_language command j) as (Hd & Hp & _).
  exists v, j', e', new.
  split; [exact Hrun|].
  destruct H as [(Hb & -> & Hlearn) | (ex & Hb & -> & Hv)].
  - cbn [Orchestrator.calls Orchestrator.incr_successful add_calls
           Orchestrator.commands_processed Orchestrator.learning_mode
           Orchestrator.current_language Orchestrator.successful_operations].
    rewrite Hc, Hp, Hl, Hd, Hs.
    split; [reflexivity|]. split; [exact Ht|]. split; [reflexivity|].
    split; [reflexivity|]. split; [reflexivity|].
    left. split; [exact Hb|]. split; [reflexivity|exact Hlearn].
  - cbn [Orchestrator.calls add_calls
           Orchestrator.commands_processed Orchestrator.learning_mode
           Orchestrator.current_language Orchestrator.successful_operations].
    rewrite Hc, Hp, Hl, Hd, Hs.
    split; [reflexivity|]. split; [exact Ht|]. split; [reflexivity|].
    split; [reflexivity|]. split; [reflexivity|].
    right. exists ex. split; [exact Hb|]. split; [exact Hv|reflexivity].
Qed.

(* ###################################################################### *)
(** * jarvis_main.py: language switch, console output and console loop *)

Module Console.
Import Orchestrator.

(** What the user gets: a printed line or a spoken object. *)
Inductive Output :=
| Print (line : pystr)
| Speak (text : pyval).

(** The escape sequence [\033[<code>m]. *)
Definition esc (code : string) : pystr :=
  [27%N] ++ str "[" ++ str code ++ str "m".

Definition colored (code : string) (s : pystr) : pystr :=
  esc code ++ s ++ esc "0".

Definition set_current_language (lang : pystr) (j : AdvancedJARVIS)
  : AdvancedJARVIS :=
  {| language_manager := language_manager j;
     current_language := lang;
     commands_processed := commands_processed j;
     successful_operations := successful_operations j;
     learning_mode := learning_mode j;
     calls := calls j |}.

Definition set_language_manager (lm : LanguageManager.LanguageManager)
    (j : AdvancedJARVIS) : AdvancedJARVIS :=
  {| language_manager := lm;
     current_language := current_language j;
     commands_processed := commands_processed j;
     successful_operations := successful_operations j;
     learning_mode := learning_mode j;
     calls := calls j |}.

Definition accepted_names : list pystr :=
  map str ["english"; "hindi"; "en"; "hi"]%string.

Section WithRuntime.
Context {U : Runtime}.

(** [switch_language]; [voice_mode] is the attribute of that name, which
    the method only reads. *)
Definition switch_language (voice_mode : bool) (language : pystr)
    (j : AdvancedJARVIS) : list Output * AdvancedJARVIS :=
  if existsb (PyStr.eqb (lower language)) accepted_names then
    let j1 := set_current_language (lower language) j in
    let j2 :=
      set_language_manager
        (LanguageManager.set_language (language_manager j1)
           (current_language j1)) j1 in
    let msg :=
      LanguageManager.get_text (language_manager j2)
        (str "language_switched") in
    (Print (colored "96" msg)
       :: (if voice_mode then [Speak (VStr msg)] else []), j2)
  else
    let error_msg :=
      LanguageManager.get_text (language_manager j) (str "invalid_language") in
    ([Print (colored "91" error_msg)], j).

Definition print (line : pystr) : M (list Output) unit :=
  modify (fun out => out ++ [Print line]).

Definition speak (text : pyval) : M (list Output) unit :=
  modify (fun out => out ++ [Speak text]).

(** [_output_response]; [voice] is
    [self.voice_mode and self.voice_engine.is_available()]. *)
Definition _output_response (voice : bool) (response : pyval)
  : M (list Output) unit :=
  success <- py_get response (str "success") (VBool true) ;;
  if truthy success then
    text <- py_getitem response (str "text") ;;
    print (colored "94" (str "JARVIS: " ++ py_str text)) ;;
    (if voice then
       text <- py_getitem response (str "text") ;;
       speak text
     else ret tt) ;;
    system_result <- py_get response (str "system_result") VNone ;;
    (if truthy system_result then
       system_result <- py_getitem response (str "system_result") ;;
       print (colored "93" (str "System: " ++ py_str system_result))
     else ret tt) ;;
    hardware_result <- py_get response (str "hardware_result") VNone ;;
    (if truthy hardware_result then
       hardware_result <- py_getitem response (str "hardware_result") ;;
       print (colored "95" (str "Hardware: " ++ py_str hardware_result))
     else ret tt)
  else
    text <- py_getitem response (str "text") ;;
    print (colored "91" (str "ERROR: " ++ py_str text)) ;;
    error <- py_get response (str "error") VNone ;;
    if truthy error then
      error <- py_getitem response (str "error") ;;
      print (colored "91" (str "Details: " ++ py_str error))
    else ret tt.

Variable Env : Type.
Variable c : Collaborators Env.

(** The console acts on the orchestrator and its collaborators, and on what
    has been put out so far. *)
Definition Session : Type := (St Env * list Output)%type.

Definition on_jarvis {A} (m : M (St Env) A) : M Session A :=
  fun s =>
    match m (fst s) with
    | (r, st') => (r, (st', snd s))
    end.

Definition on_output {A} (m : M (list Output) A) : M Session A :=
  fun s =>
    match m (snd s) with
    | (r, out') => (r, (fst s, out'))
    end.

(** One round of [_console_interaction_loop] on the text that was read:
    typed text is stripped, an empty input is skipped, and an exception of
    the round is logged and dropped. *)
Definition console_round (voice : bool) (heard_or_typed : pystr)
  : M Session unit :=
  try_except
    (let user_input :=
       if voice then heard_or_typed else strip heard_or_typed in
     match user_input with
     | [] => ret tt
     | _ =>
         response <- on_jarvis (process_command c user_input) ;;
         on_output (_output_response voice response)
     end)
    (fun _ => ret tt).

(** The rounds of the loop on the successive inputs. *)
Fixpoint console_rounds (voice : bool) (inputs : list pystr) (s : Session)
  : Session :=
  match inputs with
  | [] => s
  | i :: rest => console_rounds voice rest (snd (console_round voice i s))
  end.

End WithRuntime.
End Console.

Section ConsoleProperties.
Import Orchestrator Console.
Context {U : Runtime}.

(** A computation on the output that only adds to it. *)
Definition appends {A} (m : M (list Output) A) : Prop :=
  forall out r out', m out = (r, out') -> exists new, out' = out ++ new.

Lemma appends_ret {A} (a : A) : appends (ret a).
Proof.
  intros out r out' H. inversion H. exists []. rewrite app_nil_r. reflexivity.
Qed.

Lemma appends_raise {A} ex : appends (@raise _ A ex).
Proof.
  intros out r out' H. inversion H. exists []. rewrite app_nil_r. reflexivity.
Qed.

Lemma appends_bind {A B} (m : M (list Output) A) (k : A -> M (list Output) B) :
  appends m -> (forall a, appends (k a)) -> appends (bind m k).
Proof.
  intros Hm Hk out r out'. unfold bind.
  destruct (m out) as [[a|ex] out1] eqn:E; destruct (Hm _ _ _ E) as (n1 & ->).
  - intros H. destruct (Hk _ _ _ _ H) as (n2 & ->).
    exists (n1 ++ n2). rewrite app_assoc. reflexivity.
  - intros H. inversion H. exists n1. reflexivity.
Qed.

Lemma appends_py_get v key default : appends (py_get v key default).
Proof. destruct v; try apply appends_raise. apply appends_ret. Qed.

Lemma appends_py_getitem v key : appends (py_getitem v key).
Proof.
  destruct v; try apply appends_raise. cbn [py_getitem].
  destruct (dict_get key d); [apply appends_ret|apply appends_raise].
Qed.

Lemma appends_print line : appends (print line).
Proof. intros out r out' H. inversion H. exists [Print line]. reflexivity. Qed.

Lemma appends_speak text : appends (speak text).
Proof. intros out r out' H. inversion H. exists [Speak text]. reflexivity. Qed.

Lemma output_response_appends voice response :
  appends (_output_response voice response).
Proof.
  unfold _output_response.
  repeat first
    [ apply appends_bind; [|intros ?]
    | apply appends_py_get
    | apply appends_py_getitem
    | apply appends_print
    | apply appends_speak
    | apply appends_ret
    | match goal with |- appends (if ?b then _ else _) => destruct b end ].
Qed.



Variable Env : Type.
Variable c : Collaborators Env.

Definition user_input (voice : bool) (heard_or_typed : pystr) : pystr :=
  if voice then heard_or_typed else strip heard_or_typed.

Definition given (voice : bool) (heard_or_typed : pystr) : bool :=
  match user_input voice heard_or_typed with [] => false | _ => true end.

(** One round of the loop: nothing happens on an empty input; otherwise the
    command is processed and its result put out, and the round ends
    normally even when putting out raised. *)
Lemma console_round_cases voice i j e out :
  if given voice i then
    exists v j' e' r out',
      process_command c (user_input voice i) (j, e) = (Ok v, (j', e'))
      /\ _output_response voice v out = (r, out')
      /\ console_round c voice i ((j, e), out) = (Ok tt, ((j', e'), out'))
  else console_round c voice i ((j, e), out) = (Ok tt, ((j, e), out)).
Proof.
  unfold given, console_round, try_except.
  fold (user_input voice i).
  destruct (user_input voice i) as [|ch rest] eqn:E; [reflexivity|].
  destruct (process_command_run c (ch :: rest) j e)
    as (v & j' & e' & new & Hrun & _).
  unfold bind, on_jarvis, on_output. cbn [fst snd]. rewrite Hrun.
  cbn [fst snd].
  destruct (_output_response voice v out) as [[[]|ex] out'] eqn:EO;
    exists v, j', e'; eexists; exists out';
    (split; [reflexivity|split; [exact EO|reflexivity]]).
Qed.

Lemma process_command_counters command j e v j' e' :
  process_command c command (j, e) = (Ok v, (j', e')) ->
  commands_processed j' = (commands_processed j + 1)%Z
  /\ (successful_operations j <= successful_operations j'
      <= successful_operations j + 1)%Z
  /\ learning_mode j' = learning_mode j
  /\ exists new, calls j' = calls j ++ new.
Proof.
  intros H.
  destruct (process_command_run c command j e)
    as (v0 & j0 & e0 & new & Hrun & _ & Hc).
  rewrite Hrun in H. inversion H. subst v0 j0 e0. clear H.
  destruct (after_detection_calls command j) as (Hcalls & Hs & Hl).
  destruct (after_detection_language command j) as (_ & Hp & _).
  destruct Hc as [(_ & -> & _) | (ex & _ & -> & _)];
    cbn [calls incr_successful add_calls commands_processed learning_mode
           successful_operations];
    rewrite Hcalls, Hp, Hl, Hs;
    (split; [reflexivity|split; [lia|split; [reflexivity|]]]);
    exists new; reflexivity.
Qed.

Definition count_given (voice : bool) (inputs : list pystr) : nat :=
  List.length (filter (given voice) inputs).

Lemma console_rounds_counters voice inputs : forall j e out,
  match console_rounds c voice inputs ((j, e), out) with
  | ((j', e'), out') =>
      commands_processed j'
      = (commands_processed j + Z.of_nat (count_given voice inputs))%Z
      /\ (successful_operations j <= successful_operations j'
          <= successful_operations j
             + Z.of_nat (count_given voice inputs))%Z
      /\ learning_mode j' = learning_mode j
      /\ (exists new, calls j' = calls j ++ new)
      /\ exists put, out' = out ++ put
  end.
Proof.
  unfold count_given.
  induction inputs as [|i rest IH]; intros j e out.
  - cbn. rewrite Z.add_0_r.
    split; [reflexivity|]. split; [lia|]. split; [reflexivity|].
    split; exists []; rewrite app_nil_r; reflexivity.
  - cbn [console_rounds filter].
    pose proof (console_round_cases voice i j e out) as H.
    destruct (given voice i).
    + destruct H as (v & j1 & e1 & r & out1 & Hp & Ho & ->). cbn [snd].
      destruct (process_command_counters _ _ _ Hp) as (H1 & H2 & H3 & n1 & H4).
      destruct (output_response_appends _ _ _ Ho) as (p1 & ->).
      specialize (IH j1 e1 (out ++ p1)).
      destruct (console_rounds c voice rest (j1, e1, out ++ p1))
        as [[j' e'] out'].
      destruct IH as (I1 & I2 & I3 & (n2 & I4) & (p2 & I5)).
      cbn [List.length]. rewrite Nat2Z.inj_succ.
      split; [lia|]. split; [lia|]. split; [congruence|].
      split.
      * exists (n1 ++ n2). rewrite I4, H4, app_assoc. reflexivity.
      * exists (p1 ++ p2). rewrite I5, app_assoc. reflexivity.
    + rewrite H. cbn [snd]. apply IH.
Qed.

End ConsoleProperties.

(** X13.  The console loop keeps the orchestrator's counters in step with
    the inputs, with any collaborators: after any number of rounds
    [commands_processed] has grown by the number of non-empty inputs (typed
    text counts after stripping), [successful_operations] has grown by at
    most that number, so a state with
    [0 <= successful_operations <= commands_processed] stays so; what was
    put out and the calls made are only added to. *)
Theorem console_counters :
  forall (U : Runtime) (Env : Type) (c : Orchestrator.Collaborators Env)
         (voice : bool) (inputs : list pystr)
         (j : Orchestrator.AdvancedJARVIS) (e : Env)
         (out : list Console.Output),
    exists j' e' out' new put,
      Console.console_rounds c voice inputs ((j, e), out) = ((j', e'), out')
      /\ Orchestrator.commands_processed j'
         = (Orchestrator.commands_processed j
            + Z.of_nat (count_given voice inputs))%Z
      /\ (Orchestrator.successful_operations j
          <= Orchestrator.successful_operations j'
          <= Orchestrator.successful_operations j
             + Z.of_nat (count_given voice inputs))%Z
      /\ ((0 <= Orchestrator.successful_operations j
           <= Orchestrator.commands_processed j)%Z ->
          (0 <= Orchestrator.successful_operations j'
           <= Orchestrator.commands_processed j')%Z)
      /\ Orchestrator.calls j' = Orchestrator.calls j ++ new
      /\ out' = out ++ put.
Proof.
  intros U Env c voice inputs j e out.
  pose proof (console_rounds_counters c voice inputs j e out) as H.
  destruct (Console.console_rounds c voice inputs (j, e, out))
    as [[j' e'] out'].
  destruct H as (H1 & H2 & _ & (new & H4) & (put & H5)).
  exists j', e', out', new, put.
  split; [reflexivity|]. split; [exact H1|]. split; [exact H2|].
  split; [lia|]. split; assumption.
Qed.

Lemma console_counters_witness :
  exists j' e' out',
    Console.console_rounds (U := ascii_runtime)
      (Repo.collaborators_with (U := ascii_runtime) Repo.no_models
         (VFloat 0) (VList []))
      false [str "  what time is it "; str "   "; str "status"]
      ((Orchestrator.init,
        Repo.world0 (Brain.Reply 200 (Ok (str "Right away, Sir.")))), [])
    = ((j', e'), out')
    /\ Orchestrator.commands_processed j' = 2%Z
    /\ (0 <= Orchestrator.successful_operations j'
        <= Orchestrator.commands_processed j')%Z.
Proof.
  destruct (console_counters ascii_runtime
              (Repo.collaborators_with (U := ascii_runtime) Repo.no_models
                 (VFloat 0) (VList []))
              false [str "  what time is it "; str "   "; str "status"]
              Orchestrator.init
              (Repo.world0 (Brain.Reply 200 (Ok (str "Right away, Sir."))))
              [])
    as (j' & e' & out' & new & put & H & H1 & _ & H3 & _).
  exists j', e', out'. split; [exact H|]. split; [exact H1|].
  apply H3. cbn. lia.
Defined.

Section ConsoleFailures.
Import Orchestrator Console.
Context {U : Runtime}.
Variable Env : Type.
Variable c : Collaborators Env.






End ConsoleFailures.



(* ###################################################################### *)
(** * The two records of the current language *)

Section Languages.
Import Orchestrator Console.
Context {U : Runtime}.

Definition supported (lang : pystr) : Prop :=
  lang = str "english" \/ lang = str "hindi".

(** The orchestrator's [current_language] and the language manager's: they
    agree, or the orchestrator holds one of the short names that
    [switch_language] accepts and the manager does not know. *)
Definition consistent (j : AdvancedJARVIS) : Prop :=
  supported (LanguageManager.current_language (language_manager j))
  /\ (current_language j
      = LanguageManager.current_language (language_manager j)
      \/ current_language j = str "en" \/ current_language j = str "hi").

Definition agree (j : AdvancedJARVIS) : Prop :=
  supported (current_language j)
  /\ current_language j
     = LanguageManager.current_language (language_manager j).

Lemma agree_consistent j : agree j -> consistent j.
Proof. intros (Hs & He). split; [rewrite <- He; exact Hs|left; exact He]. Qed.

Lemma lower_supported lang : supported lang -> lower lang = lang.
Proof. intros [->| ->]; rewrite lower_ascii; reflexivity. Qed.

Lemma set_language_supported lm lang :
  supported lang ->
  LanguageManager.set_language lm lang
  = {| LanguageManager.current_language := lang |}.
Proof.
  intros H. unfold LanguageManager.set_language.
  rewrite (lower_supported H). destruct H as [->| ->]; reflexivity.
Qed.

Lemma set_language_short lm lang :
  lang = str "en" \/ lang = str "hi" ->
  LanguageManager.set_language lm lang = lm.
Proof.
  intros H. unfold LanguageManager.set_language.
  assert (lower lang = lang) as ->
      by (destruct H as [->| ->]; rewrite lower_ascii; reflexivity).
  destruct H as [->| ->]; reflexivity.
Qed.

(** [set_language] keeps the manager's language among the supported ones. *)
Lemma set_language_keeps_supported lm lang :
  supported (LanguageManager.current_language lm) ->
  supported (LanguageManager.current_language
               (LanguageManager.set_language lm lang)).
Proof.
  intros H. unfold LanguageManager.set_language, LanguageManager.supported_languages.
  cbn [existsb].
  destruct (PyStr.eqb (lower lang) (str "english")) eqn:E1.
  - apply PyStr.eqb_eq in E1. left. exact E1.
  - destruct (PyStr.eqb (lower lang) (str "hindi")) eqn:E2.
    + apply PyStr.eqb_eq in E2. right. exact E2.
    + exact H.
Qed.

Lemma after_detection_agree command j :
  consistent j -> agree (after_detection command j).
Proof.
  intros (Hs & Hc).
  destruct (after_detection_language command j) as (Hd & _ & Hm).
  set (d := LanguageManager.detect_language (language_manager j) command) in *.
  assert (Hds : supported d).
  { destruct (detect_language_range (language_manager j) command)
      as [H|[H|H]]; fold d in H; rewrite H;
      [right; reflexivity|left; reflexivity|exact Hs]. }
  unfold agree. rewrite Hd, Hm. split; [exact Hds|].
  destruct (PyStr.eqb d (current_language j)) eqn:E.
  - apply PyStr.eqb_eq in E. destruct Hc as [Hc|Hc].
    + congruence.
    + rewrite <- E in Hc.
      destruct Hds as [Hd1|Hd1], Hc as [Hc|Hc]; rewrite Hd1 in Hc;
        discriminate Hc.
  - rewrite (set_language_supported _ Hds). reflexivity.
Qed.

Lemma switch_language_consistent voice language j :
  consistent j -> consistent (snd (switch_language voice language j)).
Proof.
  intros (Hs & Hc). unfold switch_language, accepted_names.
  cbn [map existsb].
  destruct (PyStr.eqb (lower language) (str "english")) eqn:E1;
    [apply PyStr.eqb_eq in E1|
     destruct (PyStr.eqb (lower language) (str "hindi")) eqn:E2;
       [apply PyStr.eqb_eq in E2|
        destruct (PyStr.eqb (lower language) (str "en")) eqn:E3;
          [apply PyStr.eqb_eq in E3|
           destruct (PyStr.eqb (lower language) (str "hi")) eqn:E4;
             [apply PyStr.eqb_eq in E4|]]]];
    cbn [orb snd set_language_manager set_current_language
           language_manager current_language].
  - rewrite E1. rewrite set_language_supported by (left; reflexivity).
    split; [left; reflexivity|left; reflexivity].
  - rewrite E2. rewrite set_language_supported by (right; reflexivity).
    split; [right; reflexivity|left; reflexivity].
  - rewrite E3. rewrite set_language_short by (left; reflexivity).
    split; [exact Hs|right; left; reflexivity].
  - rewrite E4. rewrite set_language_short by (right; reflexivity).
    split; [exact Hs|right; right; reflexivity].
  - split; assumption.
Qed.

(** A session of the orchestrator: commands and language switches. *)
Inductive Op :=
| Command (command : pystr)
| Switch (voice_mode : bool) (language : pystr).

Variable Env : Type.
Variable c : Collaborators Env.

Definition run_op (op : Op) (s : St Env) : St Env :=
  match op with
  | Command command => snd (process_command c command s)
  | Switch voice_mode language =>
      (snd (switch_language voice_mode language (fst s)), snd s)
  end.

Definition run_ops (ops : list Op) (s : St Env) : St Env :=
  fold_left (fun s op => run_op op s) ops s.

Lemma process_command_agree command j e :
  consistent j -> agree (fst (snd (process_command c command (j, e)))).
Proof.
  intros H.
  destruct (process_command_run c command j e)
    as (v & j' & e' & new & -> & _ & Hc).
  cbn [fst snd]. pose proof (after_detection_agree command H) as Ha.
  destruct Hc as [(_ & -> & _) | (ex & _ & -> & _)]; exact Ha.
Qed.

Lemma run_op_consistent op j e :
  consistent j -> consistent (fst (run_op op (j, e))).
Proof.
  intros H. destruct op as [command|voice language]; cbn [run_op fst snd].
  - apply agree_consistent. apply process_command_agree. exact H.
  - apply switch_language_consistent. exact H.
Qed.

Lemma run_ops_consistent ops : forall j e,
  consistent j -> consistent (fst (run_ops ops (j, e))).
Proof.
  unfold run_ops. induction ops as [|op rest IH]; intros j e H; [exact H|].
  cbn [fold_left].
  pose proof (run_op_consistent op e H) as H1.
  destruct (run_op op (j, e)) as [j1 e1]. apply IH. exact H1.
Qed.

End Languages.

(** X15.  [switch_language] tests the lower-cased name.  On [english] or
    [hindi] both the orchestrator's language and the language manager's
    become that name and the confirmation is given in the new language.  On
    the short names [en] and [hi], which it also accepts, only the
    orchestrator's attribute changes: the language manager keeps its
    language, so the confirmation and every later text come in the old
    language although the switch is reported as done.  On any other name
    nothing changes and the invalid-language text is printed.  Counters and
    recorded calls are never touched. *)
Theorem switch_language_cases :
  forall (U : Runtime) (voice_mode : bool) (language : pystr)
         (j : Orchestrator.AdvancedJARVIS),
    let out := fst (Console.switch_language voice_mode language j) in
    let j' := snd (Console.switch_language voice_mode language j) in
    (supported (lower language) ->
     Orchestrator.current_language j' = lower language
     /\ LanguageManager.current_language (Orchestrator.language_manager j')
        = lower language
     /\ hd_error out
        = Some (Console.Print
                  (Console.colored "96"
                     (LanguageManager.get_text
                        {| LanguageManager.current_language := lower language |}
                        (str "language_switched")))))
    /\ (lower language = str "en" \/ lower language = str "hi" ->
        Orchestrator.current_language j' = lower language
        /\ Orchestrator.language_manager j' = Orchestrator.language_manager j
        /\ hd_error out
           = Some (Console.Print
                     (Console.colored "96"
                        (LanguageManager.get_text
                           (Orchestrator.language_manager j)
                           (str "language_switched")))))
    /\ (existsb (PyStr.eqb (lower language)) Console.accepted_names = false ->
        j' = j
        /\ out = [Console.Print
                    (Console.colored "91"
                       (LanguageManager.get_text
                          (Orchestrator.language_manager j)
                          (str "invalid_language")))])
    /\ Orchestrator.commands_processed j' = Orchestrator.commands_processed j
    /\ Orchestrator.successful_operations j'
       = Orchestrator.successful_operations j
    /\ Orchestrator.learning_mode j' = Orchestrator.learning_mode j
    /\ Orchestrator.calls j' = Orchestrator.calls j.
Proof.
  intros U voice_mode language j. cbv zeta.
  split; [|split; [|split]].
  - intros H. unfold Console.switch_language.
    assert (existsb (PyStr.eqb (lower language)) Console.accepted_names = true)
      as -> by (destruct H as [->| ->]; reflexivity).
    cbn [fst snd Console.set_language_manager Console.set_current_language
           Orchestrator.language_manager Orchestrator.current_language].
    rewrite (set_language_supported _ H).
    split; [reflexivity|]. split; reflexivity.
  - intros H. unfold Console.switch_language.
    assert (existsb (PyStr.eqb (lower language)) Console.accepted_names = true)
      as -> by (destruct H as [->| ->]; reflexivity).
    cbn [fst snd Console.set_language_manager Console.set_current_language
           Orchestrator.language_manager Orchestrator.current_language].
    rewrite (set_language_short _ H).
    split; [reflexivity|]. split; reflexivity.
  - intros H. unfold Console.switch_language. rewrite H.
    split; reflexivity.
  - unfold Console.switch_language.
    destruct (existsb _ _); repeat split; reflexivity.
Qed.

Lemma switch_language_cases_witness :
  (lower (Runtime := ascii_runtime) (str "HI") = str "en"
   \/ lower (Runtime := ascii_runtime) (str "HI") = str "hi")
  /\ Orchestrator.current_language
       (snd (Console.switch_language (U := ascii_runtime) true (str "HI")
               Orchestrator.init))
     = str "hi"
  /\ Orchestrator.language_manager
       (snd (Console.switch_language (U := ascii_runtime) true (str "HI")
               Orchestrator.init))
     = LanguageManager.init
  /\ hd_error
       (fst (Console.switch_language (U := ascii_runtime) true (str "HI")
               Orchestrator.init))
     = Some (Console.Print
               (Console.colored "96"
                  (str "Language switched successfully, Sir."))).
Proof.
  split; [right; reflexivity|].
  apply (proj1 (proj2 (switch_language_cases ascii_runtime true (str "HI")
                         Orchestrator.init))).
  right. reflexivity.
Defined.

(** X16.  From the initial state, after any session of commands and
    language switches, with any collaborators, the language manager holds
    [english] or [hindi], and the orchestrator's own record of the language
    is the same, unless it is one of the short names [en] and [hi] left
    there by a switch.  Each processed command brings the two back into
    agreement: after it the orchestrator's language is [english] or [hindi]
    and equal to the language manager's. *)
Theorem languages_stay_consistent :
  forall (U : Runtime) (Env : Type) (c : Orchestrator.Collaborators Env)
         (ops : list Op) (e : Env) (command : pystr),
    consistent (fst (run_ops c ops (Orchestrator.init, e)))
    /\ agree (fst (run_ops c (ops ++ [Command command])
                     (Orchestrator.init, e))).
Proof.
  intros U Env c ops e command.
  assert (H0 : consistent Orchestrator.init).
  { split; [left; reflexivity|left; reflexivity]. }
  pose proof (run_ops_consistent c ops e H0) as H.
  split; [exact H|].
  unfold run_ops in *. rewrite fold_left_app. cbn [fold_left run_op].
  destruct (fold_left _ ops _) as [j1 e1]. cbn [fst] in H.
  apply process_command_agree. exact H.
Qed.

(* ###################################################################### *)
(** * utils/language_manager.py: word-by-word translation *)

Module Translation.

(** [s.split()]: the maximal runs of characters that are not whitespace. *)
Fixpoint split_from (word : pystr) (s : pystr) : list pystr :=
  match s with
  | [] => match word with [] => [] | _ => [word] end
  | ch :: rest =>
      if isspace ch then
        match word with
        | [] => split_from [] rest
        | _ => word :: split_from [] rest
        end
      else split_from (word ++ [ch]) rest
  end.

Definition split (s : pystr) : list pystr := split_from [] s.

(** [sep.join(words)] *)
Fixpoint join (sep : pystr) (words : list pystr) : pystr :=
  match words with
  | [] => []
  | [w] => w
  | w :: rest => w ++ sep ++ join sep rest
  end.

Definition english_to_hindi : list (pystr * pystr) :=
  [ (str "hello", utf8 "नमस्कार");
    (str "goodbye", utf8 "अलविदा");
    (str "yes", utf8 "हाँ");
    (str "no", utf8 "नहीं");
    (str "please", utf8 "कृपया");
    (str "thank you", utf8 "धन्यवाद");
    (str "system", utf8 "सिस्टम");
    (str "file", utf8 "फाइल");
    (str "open", utf8 "खोलो");
    (str "close", utf8 "बंद करो");
    (str "show", utf8 "दिखाओ");
    (str "tell", utf8 "बताओ");
    (str "what", utf8 "क्या");
    (str "how", utf8 "कैसे");
    (str "where", utf8 "कहाँ");
    (str "when", utf8 "कब");
    (str "why", utf8 "क्यों") ].

Definition hindi_to_english : list (pystr * pystr) :=
  [ (utf8 "नमस्कार", str "hello");
    (utf8 "अलविदा", str "goodbye");
    (utf8 "हाँ", str "yes");
    (utf8 "नहीं", str "no");
    (utf8 "कृपया", str "please");
    (utf8 "धन्यवाद", str "thank you");
    (utf8 "सिस्टम", str "system");
    (utf8 "फाइल", str "file");
    (utf8 "खोलो", str "open");
    (utf8 "बंद", str "close");
    (utf8 "दिखाओ", str "show");
    (utf8 "बताओ", str "tell");
    (utf8 "क्या", str "what");
    (utf8 "कैसे", str "how");
    (utf8 "कहाँ", str "where");
    (utf8 "कब", str "when");
    (utf8 "क्यों", str "why") ].

(** [_get_translation_dictionary] *)
Definition _get_translation_dictionary (from_lang to_lang : pystr)
  : list (pystr * pystr) :=
  if PyStr.eqb from_lang (str "english") && PyStr.eqb to_lang (str "hindi")
  then english_to_hindi
  else if PyStr.eqb from_lang (str "hindi") && PyStr.eqb to_lang (str "english")
  then hindi_to_english
  else [].

Section WithRuntime.
Context {U : Runtime}.

(** The loop of [translate_text] over the words. *)
Definition translate_words (translation_dict : list (pystr * pystr))
    (words : list pystr) : list pystr :=
  map (fun word =>
         match dict_get (lower word) translation_dict with
         | Some translated => translated
         | None => word
         end) words.

(** [translate_text].  Its [except] branch is not reachable on strings. *)
Definition translate_text (text from_lang to_lang : pystr) : pystr :=
  if PyStr.eqb from_lang to_lang then text
  else
    let translation_dict := _get_translation_dictionary from_lang to_lang in
    join (str " ") (translate_words translation_dict (split text)).

End WithRuntime.
End Translation.

Example translate_open_file :
  Translation.translate_text (U := ascii_runtime)
    (str "  Open   the FILE ") (str "english") (str "hindi")
  = utf8 "खोलो the फाइल".
Proof. reflexivity. Qed.

Section TranslationProperties.
Import Translation.
Context {U : Runtime}.

Definition no_space (w : pystr) : bool := forallb (fun ch => negb (isspace ch)) w.

(** A word as [split] yields them: not empty and free of whitespace. *)
Definition is_split_word (w : pystr) : Prop := w <> [] /\ no_space w = true.

Lemma no_space_app a b : no_space (a ++ b) = no_space a && no_space b.
Proof. apply forallb_app. Qed.

Lemma split_from_words s : forall word,
  no_space word = true -> Forall is_split_word (split_from word s).
Proof.
  induction s as [|ch rest IH]; intros word Hw; cbn [split_from].
  - destruct word; constructor; [|constructor].
    split; [discriminate|exact Hw].
  - destruct (isspace ch) eqn:E.
    + destruct word as [|c0 w0]; [apply IH; reflexivity|].
      constructor; [split; [discriminate|exact Hw]|apply IH; reflexivity].
    + apply IH. rewrite no_space_app, Hw. cbn. rewrite E. reflexivity.
Qed.

Lemma split_words s : Forall is_split_word (split s).
Proof. apply split_from_words. reflexivity. Qed.

Lemma split_from_word w : forall word s,
  no_space w = true -> split_from word (w ++ s) = split_from (word ++ w) s.
Proof.
  induction w as [|ch w IH]; intros word s H.
  - rewrite app_nil_r. reflexivity.
  - cbn [no_space forallb] in H. apply andb_prop in H as [Hc Hw].
    apply negb_true_iff in Hc. cbn [app split_from]. rewrite Hc.
    rewrite IH by exact Hw. rewrite <- app_assoc. reflexivity.
Qed.

Lemma split_join words :
  Forall is_split_word words -> split (join (str " ") words) = words.
Proof.
  unfold split. induction 1 as [|w rest (Hne & Hns) Hrest IH]; [reflexivity|].
  cbn [join]. destruct rest as [|w' rest'].
  - rewrite <- (app_nil_r w) at 1. rewrite split_from_word by exact Hns.
    cbn [app split_from]. destruct w; [contradiction Hne; reflexivity|reflexivity].
  - rewrite split_from_word by exact Hns. cbn [app].
    change (str " " ++ join (str " ") (w' :: rest'))
      with (32%N :: join (str " ") (w' :: rest')).
    cbn [split_from]. change (isspace 32) with true. cbv iota.
    rewrite IH. destruct w; [contradiction Hne; reflexivity|reflexivity].
Qed.

Lemma translate_words_empty words : translate_words [] words = words.
Proof. unfold translate_words. cbn [dict_get]. apply map_id. Qed.

Lemma dictionary_cases from_lang to_lang :
  (from_lang = str "english" /\ to_lang = str "hindi"
   /\ _get_translation_dictionary from_lang to_lang = english_to_hindi)
  \/ (from_lang = str "hindi" /\ to_lang = str "english"
      /\ _get_translation_dictionary from_lang to_lang = hindi_to_english)
  \/ _get_translation_dictionary from_lang to_lang = [].
Proof.
  unfold _get_translation_dictionary.
  destruct (PyStr.eqb from_lang (str "english")) eqn:E1,
           (PyStr.eqb to_lang (str "hindi")) eqn:E2; cbn [andb];
    try (left; apply PyStr.eqb_eq in E1, E2; auto);
    destruct (PyStr.eqb from_lang (str "hindi")) eqn:E3,
             (PyStr.eqb to_lang (str "english")) eqn:E4; cbn [andb];
    try (right; right; reflexivity);
    right; left; apply PyStr.eqb_eq in E3, E4; auto.
Qed.

(** On ASCII text lower-casing a word leaves it a word. *)
Lemma ascii_lower_space ch :
  isspace (ascii_lower ch) = isspace ch.
Proof.
  unfold ascii_lower, is_ascii_upper.
  destruct ((65 <=? ch)%N && (ch <=? 90)%N) eqn:E; [|reflexivity].
  apply andb_prop in E as [E1 E2].
  apply N.leb_le in E1, E2.
  unfold isspace.
  repeat match goal with
         | |- context [(?a <=? ?b)%N] =>
             destruct (N.leb_spec a b); try lia
         | |- context [(?a =? ?b)%N] =>
             destruct (N.eqb_spec a b); try lia
         end; reflexivity.
Qed.

Lemma lower_word_no_space w :
  forallb is_ascii w = true -> no_space w = true ->
  no_space (lower w) = true.
Proof.
  intros Ha Hn. rewrite (lower_ascii _ Ha). unfold no_space in *.
  rewrite forallb_forall in *. intros x Hx.
  apply in_map_iff in Hx as (ch & <- & Hch).
  rewrite ascii_lower_space. apply Hn. exact Hch.
Qed.

Lemma split_from_ascii s : forall word,
  forallb is_ascii word = true -> forallb is_ascii s = true ->
  Forall (fun w => forallb is_ascii w = true) (split_from word s).
Proof.
  induction s as [|ch rest IH]; intros word Hw Hs; cbn [split_from].
  - destruct word; constructor; [exact Hw|constructor].
  - cbn [forallb] in Hs. apply andb_prop in Hs as [Hc Hr].
    destruct (isspace ch).
    + destruct word as [|c0 w0]; [apply IH; auto|].
      constructor; [exact Hw|apply IH; auto].
    + apply IH; [|exact Hr]. rewrite forallb_app, Hw. cbn. rewrite Hc.
      reflexivity.
Qed.

(** The dictionary without the entries whose key no word can equal. *)
Definition reachable (d : list (pystr * pystr)) : list (pystr * pystr) :=
  filter (fun kv => no_space (fst kv)) d.

Lemma dict_get_reachable (d : list (pystr * pystr)) k :
  no_space k = true -> dict_get k (reachable d) = dict_get k d.
Proof.
  intros Hk. induction d as [|[k' v] d IH]; [reflexivity|].
  cbn [reachable filter fst dict_get].
  destruct (no_space k') eqn:E.
  - cbn [dict_get]. fold (reachable d). rewrite IH. reflexivity.
  - fold (reachable d). rewrite IH.
    destruct (PyStr.eqb k k') eqn:E2; [|reflexivity].
    apply PyStr.eqb_eq in E2. congruence.
Qed.

End TranslationProperties.

(** X17.  [translate_text] returns the text untouched when the two
    languages are equal.  For any other pair than English to Hindi and Hindi
    to English it does not return the text but its words joined by single
    spaces: leading, trailing and repeated whitespace is lost while the
    words are kept, and translating the result again changes nothing. *)
Theorem translate_unknown_pair_normalises :
  forall (U : Runtime) (text from_lang to_lang : pystr),
    (from_lang = to_lang ->
     Translation.translate_text text from_lang to_lang = text)
    /\ (from_lang <> to_lang ->
        ~ (from_lang = str "english" /\ to_lang = str "hindi") ->
        ~ (from_lang = str "hindi" /\ to_lang = str "english") ->
        Translation.translate_text text from_lang to_lang
        = Translation.join (str " ") (Translation.split text)
        /\ Translation.split
             (Translation.translate_text text from_lang to_lang)
           = Translation.split text
        /\ Translation.translate_text
             (Translation.translate_text text from_lang to_lang)
             from_lang to_lang
           = Translation.translate_text text from_lang to_lang).
Proof.
  intros U text from_lang to_lang. split.
  - intros ->. unfold Translation.translate_text.
    rewrite PyStr.eqb_refl. reflexivity.
  - intros Hne H1 H2.
    assert (Hd : Translation._get_translation_dictionary from_lang to_lang = []).
    { destruct (dictionary_cases from_lang to_lang)
        as [(A & B & _)|[(A & B & _)|H]];
        [contradiction H1; auto|contradiction H2; auto|exact H]. }
    assert (Ht : forall t,
               Translation.translate_text t from_lang to_lang
               = Translation.join (str " ") (Translation.split t)).
    { intros t. unfold Translation.translate_text.
      destruct (PyStr.eqb from_lang to_lang) eqn:E;
        [apply PyStr.eqb_eq in E; contradiction|].
      cbv zeta. rewrite Hd, translate_words_empty. reflexivity. }
    rewrite !Ht.
    rewrite (split_join (split_words text)).
    split; [reflexivity|]. split; reflexivity.
Qed.

Lemma translate_unknown_pair_normalises_witness :
  str "english" <> str "french"
  /\ Translation.translate_text (U := ascii_runtime)
       (str "  open   the file ") (str "english") (str "french")
     = str "open the file".
Proof.
  split; [discriminate|].
  apply (proj2 (translate_unknown_pair_normalises ascii_runtime
                  (str "  open   the file ") (str "english") (str "french")));
    [discriminate|intros [_ H]; discriminate H
    |intros [H _]; discriminate H].
Defined.

(** X18.  A dictionary entry whose key contains a space is never used:
    on ASCII text [translate_text] gives the same result with the
    dictionary as with the dictionary stripped of such entries, because the
    words looked up come from [split] and lower-casing keeps them free of
    whitespace.  The English to Hindi dictionary has one such entry,
    [thank you]; the Hindi to English dictionary has none. *)
Theorem multiword_entries_are_dead :
  forall (U : Runtime) (text from_lang to_lang : pystr),
    forallb is_ascii text = true ->
    from_lang <> to_lang ->
    Translation.translate_text text from_lang to_lang
    = Translation.join (str " ")
        (Translation.translate_words
           (reachable
              (Translation._get_translation_dictionary from_lang to_lang))
           (Translation.split text))
    /\ reachable Translation.english_to_hindi
       = filter (fun kv => negb (PyStr.eqb (fst kv) (str "thank you")))
           Translation.english_to_hindi
    /\ dict_get (str "thank you") Translation.english_to_hindi
       = Some (utf8 "धन्यवाद")
    /\ reachable Translation.hindi_to_english = Translation.hindi_to_english.
Proof.
  intros U text from_lang to_lang Ha Hne.
  split; [|split; [reflexivity|split; reflexivity]].
  unfold Translation.translate_text.
  destruct (PyStr.eqb from_lang to_lang) eqn:E;
    [apply PyStr.eqb_eq in E; contradiction|].
  cbv zeta. f_equal. unfold Translation.translate_words.
  apply map_ext_in. intros w Hw.
  rewrite dict_get_reachable; [reflexivity|].
  pose proof (split_words text) as Hwords.
  pose proof (split_from_ascii text [] eq_refl Ha) as Hascii.
  rewrite Forall_forall in Hwords, Hascii.
  apply lower_word_no_space; [apply Hascii; exact Hw|].
  apply (Hwords w Hw).
Qed.

Lemma multiword_entries_are_dead_witness :
  forallb is_ascii (str "Thank you") = true
  /\ str "english" <> str "hindi"
  /\ Translation.translate_text (U := ascii_runtime)
       (str "Thank you") (str "english") (str "hindi")
     = str "Thank you".
Proof.
  split; [reflexivity|]. split; [discriminate|].
  rewrite (proj1 (@multiword_entries_are_dead ascii_runtime
                    (str "Thank you") (str "english") (str "hindi")
                    eq_refl ltac:(discriminate))).
  reflexivity.
Defined.

(* ###################################################################### *)
(** * utils/config_manager.py

    The configuration is a dictionary of dictionaries that the methods
    mutate in place, and [dict.copy()] is shallow, so two dictionaries can
    hold the same inner dictionary.  Dictionaries are therefore objects of a
    store, and a value found in a dictionary is either a value that is not a
    dictionary or a reference to one. *)

Module ConfigManager.

(** A value that is not a dictionary. *)
Inductive leaf :=
| LNone
| LBool (b : bool)
| LInt (z : Z)
| LFloat (q : Q)
| LStr (s : pystr)
| LList (l : list pyval).

Inductive cval :=
| Leaf (x : leaf)
| Dict (a : nat).

Definition obj := list (pystr * cval).

(** The dictionaries that exist, by address. *)
Definition heap := list obj.

Definition deref (h : heap) (a : nat) : obj := nth a h [].

Fixpoint replace (h : heap) (a : nat) (o : obj) : heap :=
  match h, a with
  | [], _ => []
  | _ :: t, O => o :: t
  | x :: t, S a' => x :: replace t a' o
  end.

(** [d[k] = v] on the dictionary at address [a]. *)
Definition setitem (h : heap) (a : nat) (k : pystr) (v : cval) : heap :=
  replace h a (dict_set k v (deref h a)).

Record ConfigManager := {
  objects : heap;
  config : nat;
  default_config : nat
}.

(** [key.split('.')] *)
Fixpoint split_on (sep : N) (word s : pystr) : list pystr :=
  match s with
  | [] => [word]
  | ch :: rest =>
      if (ch =? sep)%N then word :: split_on sep [] rest
      else split_on sep (word ++ [ch]) rest
  end.

Definition split_dots (key : pystr) : list pystr := split_on 46 [] key.

(** The loop of [get]: [None] stands for [return default]. *)
Fixpoint walk (h : heap) (value : cval) (keys : list pystr) : option cval :=
  match keys with
  | [] => Some value
  | k :: rest =>
      match value with
      | Dict a =>
          match dict_get k (deref h a) with
          | Some v => walk h v rest
          | None => None
          end
      | Leaf _ => None
      end
  end.

(** [get] *)
Definition get (key : pystr) (default : cval) (self : ConfigManager) : cval :=
  match walk (objects self) (Dict (config self)) (split_dots key) with
  | Some v => v
  | None => default
  end.

(** The body of [set]: the loop over [keys[:-1]], which creates the missing
    dictionaries, and the final assignment.  On a value that is not a
    dictionary the membership test, the subscript or the assignment raises
    [TypeError]; [set] catches it, and what was written before stays. *)
Fixpoint set_walk (h : heap) (config : cval) (keys : list pystr) (value : cval)
  : heap :=
  match keys with
  | [] => h
  | k :: rest =>
      match config with
      | Leaf _ => h
      | Dict a =>
          match rest with
          | [] => setitem h a k value
          | _ =>
              match dict_get k (deref h a) with
              | Some v => set_walk h v rest value
              | None =>
                  let b := List.length h in
                  set_walk (setitem (h ++ [[]]) a k (Dict b)) (Dict b)
                    rest value
              end
          end
      end
  end.

(** [set] *)
Definition set (key : pystr) (value : cval) (self : ConfigManager)
  : ConfigManager :=
  {| objects := set_walk (objects self) (Dict (config self))
                  (split_dots key) value;
     config := config self;
     default_config := default_config self |}.

(** [self.config = self.default_config.copy()] *)
Definition use_defaults (self : ConfigManager) : ConfigManager :=
  {| objects := objects self ++ [deref (objects self) (default_config self)];
     config := List.length (objects self);
     default_config := default_config self |}.

(** [reset_to_default] *)
Definition reset_to_default (section : option pystr) (self : ConfigManager)
  : ConfigManager :=
  match section with
  | Some (ch :: s) =>
      let section := ch :: s in
      match dict_get section (deref (objects self) (default_config self)) with
      | Some (Dict a) =>
          let b := List.length (objects self) in
          {| objects :=
               setitem (objects self ++ [deref (objects self) a])
                 (config self) section (Dict b);
             config := config self;
             default_config := default_config self |}
      | Some (Leaf (LList l)) =>
          {| objects :=
               setitem (objects self) (config self) section (Leaf (LList l));
             config := config self;
             default_config := default_config self |}
      | Some (Leaf _) => self
      | None => self
      end
  | _ => use_defaults self
  end.

(** [update]: the settings of [updates] one after the other. *)
Definition update (updates : list (pystr * cval)) (self : ConfigManager)
  : ConfigManager :=
  fold_left (fun self kv => set (fst kv) (snd kv) self) updates self.

(** The default configuration of [__init__], the top dictionary at address
    0, its sections at 1 to 8 and the empty [user_preferences] at 9.  The
    API key written in the source is a parameter here. *)
Definition default_objects (api_key : pystr) : heap :=
  [ [ (str "ai", Dict 1); (str "voice", Dict 2); (str "system", Dict 3);
      (str "interface", Dict 4); (str "learning", Dict 5);
      (str "security", Dict 6); (str "network", Dict 7);
      (str "hardware", Dict 8) ];
    [ (str "api_key", Leaf (LStr api_key));
      (str "model",
       Leaf (LStr (str "google/gemini-2.5-flash-lite-preview-06-17")));
      (str "temperature", Leaf (LFloat (7 # 10)));
      (str "max_tokens", Leaf (LInt 1000));
      (str "timeout", Leaf (LInt 30)) ];
    [ (str "enabled", Leaf (LBool true));
      (str "rate", Leaf (LInt 180));
      (str "volume", Leaf (LFloat (9 # 10)));
      (str "language", Leaf (LStr (str "en-US")));
      (str "wake_words",
       Leaf (LList [VStr (str "jarvis"); VStr (utf8 "जार्विस")])) ];
    [ (str "monitoring_enabled", Leaf (LBool true));
      (str "auto_optimization", Leaf (LBool true));
      (str "security_monitoring", Leaf (LBool true));
      (str "update_interval", Leaf (LInt 5)) ];
    [ (str "theme", Leaf (LStr (str "dark")));
      (str "language", Leaf (LStr (str "english")));
      (str "gui_enabled", Leaf (LBool true));
      (str "console_colors", Leaf (LBool true)) ];
    [ (str "enabled", Leaf (LBool true));
      (str "save_conversations", Leaf (LBool true));
      (str "adapt_responses", Leaf (LBool true));
      (str "user_preferences", Dict 9) ];
    [ (str "require_authentication", Leaf (LBool false));
      (str "log_commands", Leaf (LBool true));
      (str "restrict_system_commands", Leaf (LBool false));
      (str "encryption_enabled", Leaf (LBool true)) ];
    [ (str "proxy_enabled", Leaf (LBool false));
      (str "proxy_host", Leaf (LStr []));
      (str "proxy_port", Leaf (LInt 8080));
      (str "timeout", Leaf (LInt 10)) ];
    [ (str "gpu_acceleration", Leaf (LBool true));
      (str "cpu_optimization", Leaf (LBool true));
      (str "memory_management", Leaf (LBool true));
      (str "temperature_monitoring", Leaf (LBool true)) ];
    [] ].

(** [__init__] when there is no configuration file: [self.config = {}],
    then [_load_config] takes the defaults. *)
Definition init (api_key : pystr) : ConfigManager :=
  use_defaults {| objects := default_objects api_key ++ [[]];
                  config := 10;
                  default_config := 0 |}.

End ConfigManager.

Example config_get_default_model :
  ConfigManager.get (str "ai.model") (ConfigManager.Leaf ConfigManager.LNone)
    (ConfigManager.init (str "key"))
  = ConfigManager.Leaf
      (ConfigManager.LStr (str "google/gemini-2.5-flash-lite-preview-06-17")).
Proof. reflexivity. Qed.

Example config_get_missing :
  ConfigManager.get (str "security.max_auth_attempts")
    (ConfigManager.Leaf (ConfigManager.LInt 3))
    (ConfigManager.init (str "key"))
  = ConfigManager.Leaf (ConfigManager.LInt 3).
Proof. reflexivity. Qed.

Section ConfigProperties.
Import ConfigManager.

Lemma dict_get_set_same {V} k (v : V) d : dict_get k (dict_set k v d) = Some v.
Proof.
  induction d as [|[k' v'] d IH]; cbn [dict_set dict_get].
  - rewrite PyStr.eqb_refl. reflexivity.
  - destruct (PyStr.eqb k k') eqn:E; cbn [dict_get].
    + rewrite PyStr.eqb_refl. reflexivity.
    + rewrite E. exact IH.
Qed.

Lemma dict_get_set_other {V} k k' (v : V) d :
  k' <> k -> dict_get k' (dict_set k v d) = dict_get k' d.
Proof.
  intros Hne.
  assert (Hk : PyStr.eqb k' k = false).
  { destruct (PyStr.eqb k' k) eqn:E; [|reflexivity].
    apply PyStr.eqb_eq in E. contradiction. }
  induction d as [|[k0 v0] d IH]; cbn [dict_set dict_get].
  - rewrite Hk. reflexivity.
  - destruct (PyStr.eqb k k0) eqn:E; cbn [dict_get].
    + apply PyStr.eqb_eq in E. subst k0. rewrite Hk. reflexivity.
    + rewrite IH. reflexivity.
Qed.

Lemma dict_get_In {V} k (v : V) d : dict_get k d = Some v -> In (k, v) d.
Proof.
  induction d as [|[k' v'] d IH]; cbn [dict_get]; [discriminate|].
  destruct (PyStr.eqb k k') eqn:E.
  - apply PyStr.eqb_eq in E. intros H. inversion H. subst. left. reflexivity.
  - intros H. right. apply IH. exact H.
Qed.

Lemma In_dict_set {V} k (v : V) d x :
  In x (dict_set k v d) -> x = (k, v) \/ In x d.
Proof.
  induction d as [|[k' v'] d IH]; cbn [dict_set].
  - intros [H|[]]. left. symmetry. exact H.
  - destruct (PyStr.eqb k k').
    + intros [H|H]; [left; symmetry; exact H|right; right; exact H].
    + intros [H|H]; [right; left; exact H|].
      destruct (IH H) as [H1|H1]; [left; exact H1|right; right; exact H1].
Qed.

Lemma length_replace h : forall a o, List.length (replace h a o) = List.length h.
Proof.
  induction h as [|x t IH]; intros [|a] o; cbn; try reflexivity.
  rewrite IH. reflexivity.
Qed.

Lemma deref_replace_same h : forall a o,
  a < List.length h -> deref (replace h a o) a = o.
Proof.
  unfold deref.
  induction h as [|x t IH]; intros [|a] o H; cbn in *; try lia; try reflexivity.
  apply IH. lia.
Qed.

Lemma deref_replace_other h : forall a o x,
  x <> a -> deref (replace h a o) x = deref h x.
Proof.
  unfold deref.
  induction h as [|y t IH]; intros [|a] o [|x] H; cbn; try reflexivity;
    try (contradiction H; reflexivity).
  apply IH. intros ->. apply H. reflexivity.
Qed.

Lemma In_replace h : forall a o x, In x (replace h a o) -> x = o \/ In x h.
Proof.
  induction h as [|y t IH]; intros [|a] o x; cbn; try tauto.
  - intros [H|H]; [left; symmetry; exact H|right; right; exact H].
  - intros [H|H]; [right; left; exact H|].
    destruct (IH _ _ _ H) as [H1|H1]; [left; exact H1|right; right; exact H1].
Qed.

Lemma deref_app_old (h : heap) o x :
  x < List.length h -> deref (h ++ [o]) x = deref h x.
Proof. intros H. unfold deref. apply app_nth1. exact H. Qed.

Lemma deref_app_new (h : heap) o : deref (h ++ [o]) (List.length h) = o.
Proof. unfold deref. rewrite app_nth2, Nat.sub_diag by lia. reflexivity. Qed.

Lemma deref_In (h : heap) a : deref h a = [] \/ In (deref h a) h.
Proof.
  unfold deref. destruct (Nat.lt_ge_cases a (List.length h)) as [H|H].
  - right. apply nth_In. exact H.
  - left. apply nth_overflow. exact H.
Qed.

Lemma length_setitem h a k v : List.length (setitem h a k v) = List.length h.
Proof. apply length_replace. Qed.

(** Every reference held in a dictionary is the address of a dictionary. *)
Definition wf (h : heap) : Prop :=
  forall o k b, In o h -> In (k, Dict b) o -> b < List.length h.

Definition wfb (h : heap) : bool :=
  forallb (fun o =>
             forallb (fun kv =>
                        match snd kv with
                        | Dict b => b <? List.length h
                        | Leaf _ => true
                        end) o) h.

Lemma wfb_wf h : wfb h = true -> wf h.
Proof.
  unfold wfb, wf. intros H o k b Ho Hk.
  rewrite forallb_forall in H. specialize (H o Ho).
  rewrite forallb_forall in H. specialize (H (k, Dict b) Hk).
  cbn in H. apply Nat.ltb_lt. exact H.
Qed.

Lemma wf_deref h a k b :
  wf h -> dict_get k (deref h a) = Some (Dict b) -> b < List.length h.
Proof.
  intros Hwf H. destruct (deref_In h a) as [E|Hin].
  - rewrite E in H. discriminate H.
  - apply (Hwf _ k b Hin). apply dict_get_In. exact H.
Qed.

Lemma wf_alloc h o :
  wf h -> (forall k b, In (k, Dict b) o -> b < List.length h) ->
  wf (h ++ [o]).
Proof.
  intros Hwf Ho o' k b Hin Hk. rewrite length_app. cbn.
  apply in_app_or in Hin as [Hin|[<-|[]]].
  - specialize (Hwf _ _ _ Hin Hk). lia.
  - specialize (Ho _ _ Hk). lia.
Qed.

Lemma wf_setitem h a k v :
  wf h -> (forall b, v = Dict b -> b < List.length h) ->
  wf (setitem h a k v).
Proof.
  intros Hwf Hv o k' b Hin Hk. rewrite length_setitem.
  apply In_replace in Hin as [->|Hin].
  - apply In_dict_set in Hk as [Hk|Hk].
    + inversion Hk. subst. apply Hv. reflexivity.
    + destruct (deref_In h a) as [E|Hd].
      * rewrite E in Hk. destruct Hk.
      * exact (Hwf _ _ _ Hd Hk).
  - exact (Hwf _ _ _ Hin Hk).
Qed.

(** The dictionaries on the way of [set]: [None] when the way meets a value
    that is not a dictionary. *)
Fixpoint visited (h : heap) (value : cval) (keys : list pystr)
  : option (list nat) :=
  match keys with
  | [] => Some []
  | k :: rest =>
      match value with
      | Leaf _ => None
      | Dict a =>
          match rest with
          | [] => Some [a]
          | _ =>
              match dict_get k (deref h a) with
              | Some v => option_map (cons a) (visited h v rest)
              | None => Some [a]
              end
          end
      end
  end.

Lemma visited_fresh h b keys :
  keys <> [] -> deref h b = [] -> visited h (Dict b) keys = Some [b].
Proof.
  intros Hk Hb. destruct keys as [|k rest]; [contradiction Hk; reflexivity|].
  cbn [visited]. destruct rest; [reflexivity|]. rewrite Hb. reflexivity.
Qed.

(** [set] writes only to the dictionaries on its way and to those it
    creates. *)
Lemma set_walk_frame keys : forall h a v l x,
  wf h -> a < List.length h ->
  visited h (Dict a) keys = Some l ->
  x < List.length h -> ~ In x l ->
  deref (set_walk h (Dict a) keys v) x = deref h x.
Proof.
  induction keys as [|k rest IH]; intros h a v l x Hwf Ha Hv Hx Hn;
    [reflexivity|].
  cbn [set_walk visited] in *.
  destruct rest as [|k2 rest'].
  - inversion Hv. subst l. unfold setitem.
    apply deref_replace_other. intros ->. apply Hn. left. reflexivity.
  - destruct (dict_get k (deref h a)) as [[y|b]|] eqn:E.
    + discriminate Hv.
    + destruct (visited h (Dict b) (k2 :: rest')) as [l'|] eqn:E2;
        [|discriminate Hv].
      inversion Hv. subst l.
      apply (IH h b v l' x Hwf (wf_deref _ _ Hwf E) E2 Hx).
      intros H. apply Hn. right. exact H.
    + inversion Hv. subst l.
      assert (Hxa : x <> a) by (intros ->; apply Hn; left; reflexivity).
      set (b := List.length h) in *.
      set (h1 := setitem (h ++ [[]]) a k (Dict b)).
      assert (Hlen : List.length h1 = S b).
      { unfold h1. rewrite length_setitem, length_app. cbn. lia. }
      assert (Hb : deref h1 b = []).
      { unfold h1, setitem. rewrite deref_replace_other by lia.
        apply deref_app_new. }
      assert (Hwf1 : wf h1).
      { unfold h1. apply wf_setitem.
        - apply wf_alloc; [exact Hwf|intros ? ? []].
        - intros b' Hb'. inversion Hb'. rewrite length_app. cbn. lia. }
      rewrite (IH h1 b v [b] x Hwf1).
      * unfold h1, setitem. rewrite deref_replace_other by exact Hxa.
        apply deref_app_old. exact Hx.
      * lia.
      * apply visited_fresh; [discriminate|exact Hb].
      * lia.
      * intros [H|[]]. lia.
Qed.

(** When the way meets a value that is not a dictionary, [set] has no
    effect. *)
Lemma set_walk_blocked keys : forall h a v,
  visited h (Dict a) keys = None -> set_walk h (Dict a) keys v = h.
Proof.
  induction keys as [|k rest IH]; intros h a v Hv; [reflexivity|].
  cbn [set_walk visited] in *.
  destruct rest as [|k2 rest']; [discriminate Hv|].
  destruct (dict_get k (deref h a)) as [[y|b]|] eqn:E.
  - reflexivity.
  - apply IH. destruct (visited h (Dict b) (k2 :: rest')); [discriminate Hv|].
    reflexivity.
  - discriminate Hv.
Qed.

(** What [get] finds where [set] has just written. *)
Lemma walk_set_walk keys : forall h a v l,
  keys <> [] -> wf h -> a < List.length h ->
  visited h (Dict a) keys = Some l -> NoDup l ->
  walk (set_walk h (Dict a) keys v) (Dict a) keys = Some v.
Proof.
  induction keys as [|k rest IH]; intros h a v l Hk Hwf Ha Hv Hnd;
    [contradiction Hk; reflexivity|].
  cbn [set_walk visited] in *.
  destruct rest as [|k2 rest'].
  - cbn [walk]. unfold setitem. rewrite deref_replace_same by exact Ha.
    rewrite dict_get_set_same. reflexivity.
  - destruct (dict_get k (deref h a)) as [[y|b]|] eqn:E.
    + discriminate Hv.
    + destruct (visited h (Dict b) (k2 :: rest')) as [l'|] eqn:E2;
        [|discriminate Hv].
      inversion Hv. subst l. inversion Hnd as [|? ? Hnotin Hnd']. subst.
      pose proof (wf_deref _ _ Hwf E) as Hb.
      cbn [walk].
      rewrite (set_walk_frame (k2 :: rest') v Hwf Hb E2 Ha Hnotin).
      rewrite E.
      apply (IH h b v l'); [discriminate|exact Hwf|exact Hb|exact E2|exact Hnd'].
    + set (b := List.length h) in *.
      set (h1 := setitem (h ++ [[]]) a k (Dict b)).
      assert (Hlen : List.length h1 = S b).
      { unfold h1. rewrite length_setitem, length_app. cbn. lia. }
      assert (Hb : deref h1 b = []).
      { unfold h1, setitem. rewrite deref_replace_other by lia.
        apply deref_app_new. }
      assert (Hwf1 : wf h1).
      { unfold h1. apply wf_setitem.
        - apply wf_alloc; [exact Hwf|intros ? ? []].
        - intros b' Hb'. inversion Hb'. rewrite length_app. cbn. lia. }
      assert (Hvis : visited h1 (Dict b) (k2 :: rest') = Some [b])
        by (apply visited_fresh; [discriminate|exact Hb]).
      cbn [walk].
      rewrite (@set_walk_frame (k2 :: rest') h1 b v [b] a Hwf1);
        [|lia|exact Hvis|lia|intros [H|[]]; lia].
      assert (Hget : dict_get k (deref h1 a) = Some (Dict b)).
      { unfold h1, setitem. rewrite deref_replace_same.
        - apply dict_get_set_same.
        - rewrite length_app. cbn. lia. }
      rewrite Hget.
      apply (IH h1 b v [b]); [discriminate|exact Hwf1|lia|exact Hvis|].
      constructor; [intros []|constructor].
Qed.

Lemma split_on_nonempty sep s : forall word, split_on sep word s <> [].
Proof.
  induction s as [|ch rest IH]; intros word; cbn [split_on]; [discriminate|].
  destruct (ch =? sep)%N; [discriminate|apply IH].
Qed.

Definition no_dot (s : pystr) : bool := forallb (fun ch => negb (ch =? 46)%N) s.

Lemma split_on_no_dot s : forall word,
  no_dot s = true -> split_on 46 word s = [word ++ s].
Proof.
  induction s as [|ch rest IH]; intros word H; cbn [split_on].
  - rewrite app_nil_r. reflexivity.
  - cbn [no_dot forallb] in H. apply andb_prop in H as [Hc Hr].
    apply negb_true_iff in Hc. rewrite Hc.
    rewrite IH by exact Hr. rewrite <- app_assoc. reflexivity.
Qed.

Lemma split_on_section s : forall word rest,
  no_dot s = true ->
  split_on 46 word (s ++ 46%N :: rest) = (word ++ s) :: split_on 46 [] rest.
Proof.
  induction s as [|ch s IH]; intros word rest H; cbn [app split_on].
  - rewrite app_nil_r. reflexivity.
  - cbn [no_dot forallb] in H. apply andb_prop in H as [Hc Hr].
    apply negb_true_iff in Hc. rewrite Hc.
    rewrite IH by exact Hr. rewrite <- app_assoc. reflexivity.
Qed.

(** The key of a setting of a section. *)
Definition dotted (section setting : pystr) : pystr :=
  section ++ str "." ++ setting.

Lemma split_dotted section setting :
  no_dot section = true -> no_dot setting = true ->
  split_dots (dotted section setting) = [section; setting].
Proof.
  intros H1 H2. unfold split_dots, dotted.
  change (str "." ++ setting) with (46%N :: setting).
  rewrite split_on_section by exact H1.
  rewrite split_on_no_dot by exact H2. reflexivity.
Qed.

End ConfigProperties.

(** X19.  [get] after [set] on the same key.  When no value that is not a
    dictionary stands on the way of the key and the dictionaries on the way
    are distinct, [set] creates the missing dictionaries and [get] then
    returns the value that was set, whatever the default.  When such a
    value stands on the way, [set] changes nothing at all. *)
Theorem config_get_after_set :
  forall (key : pystr) (value default : ConfigManager.cval)
         (self : ConfigManager.ConfigManager),
    wf (ConfigManager.objects self) ->
    ConfigManager.config self < List.length (ConfigManager.objects self) ->
    (forall way,
        visited (ConfigManager.objects self)
          (ConfigManager.Dict (ConfigManager.config self))
          (ConfigManager.split_dots key) = Some way ->
        NoDup way ->
        ConfigManager.get key default (ConfigManager.set key value self)
        = value)
    /\ (visited (ConfigManager.objects self)
          (ConfigManager.Dict (ConfigManager.config self))
          (ConfigManager.split_dots key) = None ->
        ConfigManager.set key value self = self).
Proof.
  intros key value default self Hwf Hc. split.
  - intros way Hv Hnd. unfold ConfigManager.get, ConfigManager.set.
    cbn [ConfigManager.objects ConfigManager.config].
    rewrite (@walk_set_walk (ConfigManager.split_dots key) _ _ value way);
      auto.
    apply split_on_nonempty.
  - intros Hv. unfold ConfigManager.set.
    rewrite set_walk_blocked by exact Hv. destruct self. reflexivity.
Qed.

Lemma config_get_after_set_witness :
  ConfigManager.get (str "security.lockout.minutes")
    (ConfigManager.Leaf ConfigManager.LNone)
    (ConfigManager.set (str "security.lockout.minutes")
       (ConfigManager.Leaf (ConfigManager.LInt 5))
       (ConfigManager.init (str "key")))
  = ConfigManager.Leaf (ConfigManager.LInt 5)
  /\ ConfigManager.set (str "ai.model.name")
       (ConfigManager.Leaf (ConfigManager.LStr (str "m")))
       (ConfigManager.init (str "key"))
     = ConfigManager.init (str "key").
Proof.
  assert (Hwf : wf (ConfigManager.objects (ConfigManager.init (str "key"))))
    by (apply wfb_wf; reflexivity).
  assert (Hc : ConfigManager.config (ConfigManager.init (str "key"))
               < List.length
                   (ConfigManager.objects (ConfigManager.init (str "key"))))
    by (cbn; lia).
  split.
  - apply (proj1 (@config_get_after_set (str "security.lockout.minutes")
                    (ConfigManager.Leaf (ConfigManager.LInt 5))
                    (ConfigManager.Leaf ConfigManager.LNone)
                    (ConfigManager.init (str "key")) Hwf Hc)
             [11; 6]).
    + reflexivity.
    + repeat constructor; cbn; intuition lia.
  - apply (proj2 (@config_get_after_set (str "ai.model.name")
                    (ConfigManager.Leaf (ConfigManager.LStr (str "m")))
                    (ConfigManager.Leaf ConfigManager.LNone)
                    (ConfigManager.init (str "key")) Hwf Hc)).
    reflexivity.
Defined.

Section ConfigSharing.
Import ConfigManager.

(** The section is one and the same dictionary in the configuration and in
    the default configuration. *)
Definition shared (section : pystr) (a : nat) (self : ConfigManager) : Prop :=
  dict_get section (deref (objects self) (config self)) = Some (Dict a)
  /\ dict_get section (deref (objects self) (default_config self))
     = Some (Dict a).

Lemma deref_setitem_same h a k v :
  a < List.length h -> deref (setitem h a k v) a = dict_set k v (deref h a).
Proof. intros H. apply deref_replace_same. exact H. Qed.

Lemma deref_setitem_other h a k v x :
  x <> a -> deref (setitem h a k v) x = deref h x.
Proof. intros H. apply deref_replace_other. exact H. Qed.

Lemma use_defaults_shared s0 section a :
  default_config s0 < List.length (objects s0) ->
  dict_get section (deref (objects s0) (default_config s0)) = Some (Dict a) ->
  shared section a (use_defaults s0).
Proof.
  intros Hd H. unfold shared, use_defaults.
  cbn [objects config default_config].
  rewrite deref_app_new, deref_app_old by exact Hd. split; exact H.
Qed.

Lemma set_in_section section setting value self a :
  no_dot section = true -> no_dot setting = true ->
  dict_get section (deref (objects self) (config self)) = Some (Dict a) ->
  objects (set (dotted section setting) value self)
  = setitem (objects self) a setting value.
Proof.
  intros H1 H2 Hc. unfold set. cbn [objects].
  rewrite (split_dotted _ _ H1 H2). cbn [set_walk]. rewrite Hc. reflexivity.
Qed.

Lemma get_in_section section setting default self :
  no_dot section = true -> no_dot setting = true ->
  get (dotted section setting) default self
  = match walk (objects self) (Dict (config self)) [section; setting] with
    | Some v => v
    | None => default
    end.
Proof.
  intros H1 H2. unfold get. rewrite (split_dotted _ _ H1 H2). reflexivity.
Qed.

Lemma reset_section section a self :
  section <> [] ->
  dict_get section (deref (objects self) (default_config self))
  = Some (Dict a) ->
  reset_to_default (Some section) self
  = {| objects :=
         setitem (objects self ++ [deref (objects self) a])
           (config self) section (Dict (List.length (objects self)));
       config := config self;
       default_config := default_config self |}.
Proof.
  intros Hne H. destruct section as [|ch s]; [contradiction Hne; reflexivity|].
  unfold reset_to_default. rewrite H. reflexivity.
Qed.

End ConfigSharing.

(** X20.  The configuration taken from the defaults shares its sections
    with them: [default_config.copy()] copies the top dictionary only.  A
    [set] on a setting of a shared section therefore changes the default
    configuration itself, and neither [reset_to_default(section)] nor
    [reset_to_default()] brings the old value back: [get] still returns the
    value that was set. *)
Theorem defaults_are_shared :
  forall (s0 : ConfigManager.ConfigManager)
         (section setting : pystr) (value default : ConfigManager.cval)
         (a : nat),
    wf (ConfigManager.objects s0) ->
    ConfigManager.default_config s0 < List.length (ConfigManager.objects s0) ->
    dict_get section
      (ConfigManager.deref (ConfigManager.objects s0)
         (ConfigManager.default_config s0))
    = Some (ConfigManager.Dict a) ->
    a <> ConfigManager.default_config s0 ->
    section <> [] -> no_dot section = true -> no_dot setting = true ->
    let self := ConfigManager.use_defaults s0 in
    let changed := ConfigManager.set (dotted section setting) value self in
    shared section a self
    /\ ConfigManager.walk (ConfigManager.objects changed)
         (ConfigManager.Dict (ConfigManager.default_config changed))
         [section; setting]
       = Some value
    /\ ConfigManager.get (dotted section setting) default
         (ConfigManager.reset_to_default (Some section) changed)
       = value
    /\ ConfigManager.get (dotted section setting) default
         (ConfigManager.reset_to_default None changed)
       = value.
Proof.
  intros s0 section setting value default a Hwf Hd Hsec Had Hne H1 H2 self changed.
  pose proof (use_defaults_shared s0 section Hd Hsec) as Hshared.
  fold self in Hshared. destruct Hshared as (Hc1 & Hc2).
  pose proof (wf_deref _ _ Hwf Hsec) as Ha.
  set (h0 := ConfigManager.objects s0) in *.
  set (d := ConfigManager.default_config s0) in *.
  assert (Hobj : ConfigManager.objects changed
                 = ConfigManager.setitem (ConfigManager.objects self) a
                     setting value)
    by (apply set_in_section; assumption).
  assert (Hlen : List.length (ConfigManager.objects self) = S (List.length h0)).
  { unfold self, ConfigManager.use_defaults. cbn [ConfigManager.objects].
    rewrite length_app. cbn. fold h0. lia. }
  assert (Hcfg : ConfigManager.config changed = List.length h0) by reflexivity.
  assert (Hdef : ConfigManager.default_config changed = d) by reflexivity.
  assert (Hdef0 : ConfigManager.default_config self = d) by reflexivity.
  assert (Hcfg0 : ConfigManager.config self = List.length h0) by reflexivity.
  rewrite Hdef0 in Hc2. rewrite Hcfg0 in Hc1.
  set (h := ConfigManager.objects self) in *.
  assert (Hsec1 : dict_get section
                    (ConfigManager.deref (ConfigManager.objects changed) d)
                  = Some (ConfigManager.Dict a)).
  { rewrite Hobj, deref_setitem_other by (intros E; apply Had; symmetry; exact E).
    exact Hc2. }
  assert (Hval : dict_get setting
                   (ConfigManager.deref (ConfigManager.objects changed) a)
                 = Some value).
  { rewrite Hobj, deref_setitem_same by lia. apply dict_get_set_same. }
  split; [split; assumption|]. split; [|split].
  - rewrite Hdef. cbn [ConfigManager.walk]. rewrite Hsec1, Hval. reflexivity.
  - rewrite (get_in_section _ _ _ _ H1 H2).
    rewrite (reset_section _ Hne (a := a)) by (rewrite Hdef; exact Hsec1).
    cbn [ConfigManager.objects ConfigManager.config ConfigManager.walk].
    rewrite Hcfg.
    assert (Hl : List.length (ConfigManager.objects changed) = S (List.length h0))
      by (rewrite Hobj, length_setitem; exact Hlen).
    rewrite deref_setitem_same
      by (rewrite length_app, Hl; cbn [List.length]; lia).
    rewrite dict_get_set_same.
    rewrite deref_setitem_other by lia.
    rewrite deref_app_new, Hval. reflexivity.
  - rewrite (get_in_section _ _ _ _ H1 H2).
    unfold ConfigManager.reset_to_default, ConfigManager.use_defaults.
    cbn [ConfigManager.objects ConfigManager.config ConfigManager.walk].
    assert (Hl : List.length (ConfigManager.objects changed) = S (List.length h0))
      by (rewrite Hobj, length_setitem; exact Hlen).
    rewrite deref_app_new. rewrite Hdef, Hsec1.
    rewrite deref_app_old by lia. rewrite Hval. reflexivity.
Qed.

Lemma defaults_are_shared_witness :
  ConfigManager.get (str "ai.model") (ConfigManager.Leaf ConfigManager.LNone)
    (ConfigManager.reset_to_default (Some (str "ai"))
       (ConfigManager.set (str "ai.model")
          (ConfigManager.Leaf (ConfigManager.LStr (str "other")))
          (ConfigManager.init (str "key"))))
  = ConfigManager.Leaf (ConfigManager.LStr (str "other")).
Proof.
  apply (@defaults_are_shared
           {| ConfigManager.objects :=
                ConfigManager.default_objects (str "key") ++ [[]];
              ConfigManager.config := 10;
              ConfigManager.default_config := 0 |}
           (str "ai") (str "model")
           (ConfigManager.Leaf (ConfigManager.LStr (str "other")))
           (ConfigManager.Leaf ConfigManager.LNone) 1).
  - apply wfb_wf. reflexivity.
  - cbn. lia.
  - reflexivity.
  - discriminate.
  - discriminate.
  - reflexivity.
  - reflexivity.
Defined.

(** X21.  After [reset_to_default(section)] the section of the
    configuration is a dictionary of its own, a copy of the default one.
    From then on a [set] on one of its settings leaves the defaults alone,
    and a further [reset_to_default(section)] undoes it: [get] returns what
    the default section holds for the setting, or the default argument when
    it holds nothing. *)
Theorem reset_makes_section_private :
  forall (s : ConfigManager.ConfigManager)
         (section setting : pystr) (value default : ConfigManager.cval)
         (a : nat),
    wf (ConfigManager.objects s) ->
    ConfigManager.config s < List.length (ConfigManager.objects s) ->
    ConfigManager.default_config s < List.length (ConfigManager.objects s) ->
    ConfigManager.config s <> ConfigManager.default_config s ->
    dict_get section
      (ConfigManager.deref (ConfigManager.objects s)
         (ConfigManager.default_config s))
    = Some (ConfigManager.Dict a) ->
    a <> ConfigManager.default_config s ->
    a <> ConfigManager.config s ->
    section <> [] -> no_dot section = true -> no_dot setting = true ->
    let self := ConfigManager.reset_to_default (Some section) s in
    let changed := ConfigManager.set (dotted section setting) value self in
    ConfigManager.get (dotted section setting) default changed = value
    /\ ConfigManager.walk (ConfigManager.objects changed)
         (ConfigManager.Dict (ConfigManager.default_config changed))
         [section; setting]
       = dict_get setting (ConfigManager.deref (ConfigManager.objects s) a)
    /\ ConfigManager.get (dotted section setting) default
         (ConfigManager.reset_to_default (Some section) changed)
       = match dict_get setting
                 (ConfigManager.deref (ConfigManager.objects s) a) with
         | Some v => v
         | None => default
         end.
Proof.
  intros s section setting value default a Hwf Hc Hd Hcd Hsec Had Hac Hne H1 H2
         self changed.
  pose proof (wf_deref _ _ Hwf Hsec) as Ha.
  set (h := ConfigManager.objects s) in *.
  set (c := ConfigManager.config s) in *.
  set (d := ConfigManager.default_config s) in *.
  set (b := List.length h).
  set (h1 := ConfigManager.setitem (h ++ [ConfigManager.deref h a]) c section
               (ConfigManager.Dict b)).
  assert (Hself : self = {| ConfigManager.objects := h1;
                            ConfigManager.config := c;
                            ConfigManager.default_config := d |})
    by (apply reset_section; assumption).
  assert (Hl1 : List.length h1 = S b).
  { unfold h1. rewrite length_setitem, length_app. cbn. lia. }
  assert (Hc1 : dict_get section (ConfigManager.deref h1 c)
                = Some (ConfigManager.Dict b)).
  { unfold h1. rewrite deref_setitem_same by (rewrite length_app; cbn; lia).
    apply dict_get_set_same. }
  set (h2 := ConfigManager.setitem h1 b setting value).
  assert (Hchanged : changed = {| ConfigManager.objects := h2;
                                  ConfigManager.config := c;
                                  ConfigManager.default_config := d |}).
  { unfold changed, ConfigManager.set. rewrite Hself.
    cbn [ConfigManager.objects ConfigManager.config
           ConfigManager.default_config].
    rewrite (split_dotted _ _ H1 H2). cbn [ConfigManager.set_walk].
    rewrite Hc1. reflexivity. }
  assert (Hl2 : List.length h2 = S b)
    by (unfold h2; rewrite length_setitem; exact Hl1).
  assert (Hbc : b <> c) by (unfold b; lia).
  assert (Hbd : b <> d) by (unfold b; lia).
  assert (Hba : b <> a) by (unfold b; lia).
  assert (Hd2 : ConfigManager.deref h2 d = ConfigManager.deref h d).
  { unfold h2. rewrite deref_setitem_other by (intros E; apply Hbd; symmetry; exact E).
    unfold h1. rewrite deref_setitem_other by (intros E; apply Hcd; symmetry; exact E).
    apply deref_app_old. exact Hd. }
  assert (Ha2 : ConfigManager.deref h2 a = ConfigManager.deref h a).
  { unfold h2. rewrite deref_setitem_other by (intros E; apply Hba; symmetry; exact E).
    unfold h1. rewrite deref_setitem_other by exact Hac.
    apply deref_app_old. exact Ha. }
  assert (Hc2 : dict_get section (ConfigManager.deref h2 c)
                = Some (ConfigManager.Dict b)).
  { unfold h2. rewrite deref_setitem_other by (intros E; apply Hbc; symmetry; exact E).
    exact Hc1. }
  rewrite Hchanged.
  split; [|split].
  - rewrite (get_in_section _ _ _ _ H1 H2).
    cbn [ConfigManager.objects ConfigManager.config ConfigManager.walk].
    rewrite Hc2. unfold h2. rewrite deref_setitem_same by lia.
    rewrite dict_get_set_same. reflexivity.
  - cbn [ConfigManager.objects ConfigManager.default_config ConfigManager.walk].
    rewrite Hd2. fold h d in Hsec. rewrite Hsec, Ha2.
    destruct (dict_get setting (ConfigManager.deref h a)); reflexivity.
  - rewrite (get_in_section _ _ _ _ H1 H2).
    rewrite (reset_section _ Hne (a := a))
      by (cbn [ConfigManager.objects ConfigManager.default_config];
          rewrite Hd2; exact Hsec).
    cbn [ConfigManager.objects ConfigManager.config ConfigManager.walk].
    rewrite deref_setitem_same by (rewrite length_app; cbn; lia).
    rewrite dict_get_set_same.
    rewrite deref_setitem_other by lia.
    rewrite deref_app_new, Ha2.
    destruct (dict_get setting (ConfigManager.deref h a)); reflexivity.
Qed.

Lemma reset_makes_section_private_witness :
  ConfigManager.get (str "ai.model") (ConfigManager.Leaf ConfigManager.LNone)
    (ConfigManager.reset_to_default (Some (str "ai"))
       (ConfigManager.set (str "ai.model")
          (ConfigManager.Leaf (ConfigManager.LStr (str "other")))
          (ConfigManager.reset_to_default (Some (str "ai"))
             (ConfigManager.init (str "key")))))
  = ConfigManager.Leaf
      (ConfigManager.LStr (str "google/gemini-2.5-flash-lite-preview-06-17")).
Proof.
  apply (@reset_makes_section_private
           (ConfigManager.init (str "key"))
           (str "ai") (str "model")
           (ConfigManager.Leaf (ConfigManager.LStr (str "other")))
           (ConfigManager.Leaf ConfigManager.LNone) 1).
  - apply wfb_wf. reflexivity.
  - cbn. lia.
  - cbn. lia.
  - cbn. lia.
  - reflexivity.
  - cbn. lia.
  - cbn. lia.
  - discriminate.
  - reflexivity.
  - reflexivity.
Defined.

(* ###################################################################### *)
(** * core/security_manager.py: authentication and the event log *)

Module SecurityManager.

Record Event := {
  timestamp : pystr;
  level : pystr;
  message : pystr;
  event_threat_level : pystr
}.

(** The attributes that [authenticate] and [_log_security_event] use.  The
    attempt limit and the lock-out time are numbers, as [__init__] sets
    them; times are the seconds of [time.time()]. *)
Record SecurityManager := {
  config : ConfigManager.ConfigManager;
  authenticated : bool;
  auth_attempts : Z;
  max_auth_attempts : Z;
  lockout_time : Q;
  last_auth_attempt : Q;
  security_events : list Event;
  threat_level : pystr
}.

(** [__init__], with the configuration it is given. *)
Definition init (config : ConfigManager.ConfigManager) : SecurityManager :=
  {| config := config;
     authenticated := false;
     auth_attempts := 0;
     max_auth_attempts := 3;
     lockout_time := 300;
     last_auth_attempt := 0;
     security_events := [];
     threat_level := str "LOW" |}.

Definition set_events (events : list Event) (self : SecurityManager)
  : SecurityManager :=
  {| config := config self;
     authenticated := authenticated self;
     auth_attempts := auth_attempts self;
     max_auth_attempts := max_auth_attempts self;
     lockout_time := lockout_time self;
     last_auth_attempt := last_auth_attempt self;
     security_events := events;
     threat_level := threat_level self |}.

Definition set_authenticated (b : bool) (self : SecurityManager)
  : SecurityManager :=
  {| config := config self;
     authenticated := b;
     auth_attempts := auth_attempts self;
     max_auth_attempts := max_auth_attempts self;
     lockout_time := lockout_time self;
     last_auth_attempt := last_auth_attempt self;
     security_events := security_events self;
     threat_level := threat_level self |}.

Definition set_attempts (n : Z) (self : SecurityManager) : SecurityManager :=
  {| config := config self;
     authenticated := authenticated self;
     auth_attempts := n;
     max_auth_attempts := max_auth_attempts self;
     lockout_time := lockout_time self;
     last_auth_attempt := last_auth_attempt self;
     security_events := security_events self;
     threat_level := threat_level self |}.

Definition set_last_attempt (t : Q) (self : SecurityManager) : SecurityManager :=
  {| config := config self;
     authenticated := authenticated self;
     auth_attempts := auth_attempts self;
     max_auth_attempts := max_auth_attempts self;
     lockout_time := lockout_time self;
     last_auth_attempt := t;
     security_events := security_events self;
     threat_level := threat_level self |}.

(** [_log_security_event]; [now] is [datetime.now().isoformat()]. *)
Definition _log_security_event (now : pystr) (level message : pystr)
    (self : SecurityManager) : SecurityManager :=
  let event :=
    {| timestamp := now;
       level := level;
       message := message;
       event_threat_level := threat_level self |} in
  let events := security_events self ++ [event] in
  set_events (if 1000 <? List.length events then last_n 1000 events
              else events) self.

(** Truth value of what [config.get] returns. *)
Definition truthy (h : ConfigManager.heap) (v : ConfigManager.cval) : bool :=
  match v with
  | ConfigManager.Leaf ConfigManager.LNone => false
  | ConfigManager.Leaf (ConfigManager.LBool b) => b
  | ConfigManager.Leaf (ConfigManager.LInt z) => negb (z =? 0)%Z
  | ConfigManager.Leaf (ConfigManager.LFloat q) => negb (Qeq_bool q 0)
  | ConfigManager.Leaf (ConfigManager.LStr s) =>
      match s with [] => false | _ => true end
  | ConfigManager.Leaf (ConfigManager.LList l) =>
      match l with [] => false | _ => true end
  | ConfigManager.Dict a =>
      match ConfigManager.deref h a with [] => false | _ => true end
  end.

Definition require_authentication (self : SecurityManager) : bool :=
  truthy (ConfigManager.objects (config self))
    (ConfigManager.get (str "security.require_authentication")
       (ConfigManager.Leaf (ConfigManager.LBool false)) (config self)).

Definition stored_password (self : SecurityManager) : ConfigManager.cval :=
  ConfigManager.get (str "security.password")
    (ConfigManager.Leaf (ConfigManager.LStr [])) (config self).

(** [password and password == stored_password] *)
Definition password_accepted (password : option pystr)
    (stored : ConfigManager.cval) : bool :=
  match password with
  | Some (ch :: p) =>
      match stored with
      | ConfigManager.Leaf (ConfigManager.LStr s) => PyStr.eqb (ch :: p) s
      | _ => false
      end
  | _ => false
  end.

Definition Qlt_bool (a b : Q) : bool := negb (Qle_bool b a).

(** [authenticate]; [current_time] is [time.time()]. *)
Definition authenticate (current_time : Q) (now : pystr)
    (password : option pystr) (self : SecurityManager)
  : bool * SecurityManager :=
  let limit_reached := (max_auth_attempts self <=? auth_attempts self)%Z in
  if limit_reached
     && Qlt_bool (Qminus current_time (last_auth_attempt self))
          (lockout_time self)
  then (false, self)
  else
    let self := if limit_reached then set_attempts 0 self else self in
    if negb (require_authentication self) then
      (true,
       _log_security_event now (str "INFO")
         (str "User authenticated (no auth required)")
         (set_authenticated true self))
    else if password_accepted password (stored_password self) then
      (true,
       _log_security_event now (str "INFO")
         (str "User authenticated successfully")
         (set_attempts 0 (set_authenticated true self)))
    else
      let self :=
        set_last_attempt current_time
          (set_attempts (auth_attempts self + 1) self) in
      (false,
       _log_security_event now (str "WARNING")
         (str "Authentication failed (attempt "
          ++ of_Z (auth_attempts self) ++ str ")")
         self).

(** Successive calls of [authenticate]. *)
Record Attempt := {
  at_time : Q;
  at_clock : pystr;
  with_password : option pystr
}.

Fixpoint attempts (l : list Attempt) (self : SecurityManager)
  : list bool * SecurityManager :=
  match l with
  | [] => ([], self)
  | x :: rest =>
      let (ok, self1) :=
        authenticate (at_time x) (at_clock x) (with_password x) self in
      let (oks, self2) := attempts rest self1 in
      (ok :: oks, self2)
  end.

End SecurityManager.

Section SecurityProperties.
Import SecurityManager.

Lemma log_event_fields now lvl msg self :
  let self' := _log_security_event now lvl msg self in
  config self' = config self
  /\ authenticated self' = authenticated self
  /\ auth_attempts self' = auth_attempts self
  /\ max_auth_attempts self' = max_auth_attempts self
  /\ lockout_time self' = lockout_time self
  /\ last_auth_attempt self' = last_auth_attempt self.
Proof. cbv zeta. unfold _log_security_event. cbn. repeat split. Qed.

Lemma log_event_bound now lvl msg self :
  List.length (security_events (_log_security_event now lvl msg self)) <= 1000
  /\ exists kept,
       security_events (_log_security_event now lvl msg self)
       = kept ++ [ {| timestamp := now;
                      level := lvl;
                      message := msg;
                      event_threat_level := threat_level self |} ].
Proof.
  unfold _log_security_event. cbn [security_events set_events].
  set (event := {| timestamp := now; level := lvl; message := msg;
                   event_threat_level := threat_level self |}).
  destruct (Nat.ltb_spec 1000 (List.length (security_events self ++ [event])))
    as [H|H].
  - split; [apply last_n_length|].
    unfold last_n. rewrite length_app in *. cbn [List.length] in *.
    rewrite skipn_app.
    replace (List.length (security_events self) + 1 - 1000
             - List.length (security_events self)) with 0 by lia.
    exists (skipn (List.length (security_events self) + 1 - 1000)
              (security_events self)).
    reflexivity.
  - split; [exact H|]. exists (security_events self). reflexivity.
Qed.

(** The four ways through [authenticate]. *)
Inductive Outcome :=
| LockedOut
| NotRequired
| Accepted
| Rejected.

Definition outcome (current_time : Q) (password : option pystr)
    (self : SecurityManager) : Outcome :=
  let limit_reached := (max_auth_attempts self <=? auth_attempts self)%Z in
  if limit_reached
     && Qlt_bool (Qminus current_time (last_auth_attempt self))
          (lockout_time self)
  then LockedOut
  else if negb (require_authentication self) then NotRequired
  else if password_accepted password (stored_password self) then Accepted
  else Rejected.

Lemma authenticate_cases t now pw self :
  let limit_reached := (max_auth_attempts self <=? auth_attempts self)%Z in
  let n := if limit_reached then 0%Z else auth_attempts self in
  let r := authenticate t now pw self in
  config (snd r) = config self
  /\ max_auth_attempts (snd r) = max_auth_attempts self
  /\ lockout_time (snd r) = lockout_time self
  /\ match outcome t pw self with
     | LockedOut => r = (false, self)
     | NotRequired =>
         fst r = true /\ authenticated (snd r) = true
         /\ auth_attempts (snd r) = n
         /\ last_auth_attempt (snd r) = last_auth_attempt self
     | Accepted =>
         fst r = true /\ authenticated (snd r) = true
         /\ auth_attempts (snd r) = 0%Z
         /\ last_auth_attempt (snd r) = last_auth_attempt self
     | Rejected =>
         fst r = false /\ authenticated (snd r) = authenticated self
         /\ auth_attempts (snd r) = (n + 1)%Z
         /\ last_auth_attempt (snd r) = t
     end.
Proof.
  cbv zeta. unfold authenticate, outcome.
  destruct ((max_auth_attempts self <=? auth_attempts self)%Z) eqn:L;
    cbn [andb].
  - destruct (Qlt_bool _ _); [repeat split; reflexivity|].
    unfold require_authentication, stored_password.
    cbn [config set_attempts].
    destruct (truthy _ _); cbn [negb];
      [destruct (password_accepted pw _)|];
      repeat split; reflexivity.
  - unfold require_authentication, stored_password.
    destruct (truthy _ _); cbn [negb];
      [destruct (password_accepted pw _)|];
      repeat split; reflexivity.
Qed.



Lemma attempts_app l1 : forall l2 self,
  attempts (l1 ++ l2) self
  = (fst (attempts l1 self) ++ fst (attempts l2 (snd (attempts l1 self))),
     snd (attempts l2 (snd (attempts l1 self)))).
Proof.
  induction l1 as [|x l1 IH]; intros l2 self; cbn [app attempts].
  - cbn. destruct (attempts l2 self). reflexivity.
  - destruct (authenticate _ _ _ self) as [ok self1].
    rewrite IH. destruct (attempts l1 self1) as [oks self2]. cbn [fst snd].
    destruct (attempts l2 self2). reflexivity.
Qed.

End SecurityProperties.

(** X22.  Authentication is never revoked.  A call of [authenticate] that
    returns true leaves [authenticated] true; one that returns false, by a
    wrong password or by the lock-out, leaves [authenticated] as it was.
    So after any series of calls [authenticated] is true as soon as it was
    true before or one of the calls returned true, whatever failures
    followed. *)
Theorem authentication_is_never_revoked :
  forall (l : list SecurityManager.Attempt)
         (self : SecurityManager.SecurityManager),
    let oks := fst (SecurityManager.attempts l self) in
    let self' := snd (SecurityManager.attempts l self) in
    SecurityManager.authenticated self'
    = SecurityManager.authenticated self || existsb (fun ok => ok) oks.
Proof.
  induction l as [|x rest IH]; intros self; cbv zeta.
  - cbn. rewrite orb_false_r. reflexivity.
  - cbn [SecurityManager.attempts].
    pose proof (authenticate_cases (SecurityManager.at_time x)
                  (SecurityManager.at_clock x)
                  (SecurityManager.with_password x) self) as H.
    cbv zeta in H. destruct H as (_ & _ & _ & H).
    destruct (SecurityManager.authenticate _ _ _ self) as [ok self1].
    specialize (IH self1). cbv zeta in IH.
    destruct (SecurityManager.attempts rest self1) as [oks self2].
    cbn [fst snd existsb] in *. rewrite IH.
    destruct (outcome _ _ self).
    + inversion H. subst. rewrite orb_false_l. reflexivity.
    + destruct H as (-> & -> & _). rewrite !orb_true_l, orb_true_r.
      reflexivity.
    + destruct H as (-> & -> & _). rewrite !orb_true_l, orb_true_r.
      reflexivity.
    + destruct H as (-> & -> & _). rewrite orb_false_l. reflexivity.
Qed.





(* ###################################################################### *)
(** * utils/config_manager.py: loading a configuration file *)

Module ConfigFile.
Import ConfigManager.

(** What [json.load] returns: values and dictionaries of values, none of
    them shared with a dictionary that existed before. *)
#[warnings="-register-all"]
Inductive jvalue :=
| JLeaf (x : leaf)
| JDict (entries : list (pystr * jvalue)).

(** The value as an object of the store. *)
Fixpoint store_tree (v : jvalue) (h : heap) : heap * cval :=
  match v with
  | JLeaf x => (h, Leaf x)
  | JDict entries =>
      let fix store_entries (es : list (pystr * jvalue)) (h : heap) (acc : obj)
        : heap * obj :=
        match es with
        | [] => (h, acc)
        | (k, v) :: rest =>
            let (h1, c) := store_tree v h in
            store_entries rest h1 (dict_set k c acc)
        end in
      let (h1, o) := store_entries entries h [] in
      (h1 ++ [o], Dict (List.length h1))
  end.

(** [_merge_configs(default, user)] for a [user] that is a dictionary:
    [merged] is the copy made first, at the first free address. *)
Fixpoint merge (user : jvalue) (default : nat) (h : heap) : heap * nat :=
  let merged := List.length h in
  match user with
  | JLeaf _ => (h ++ [deref h default], merged)
  | JDict entries =>
      let fix items (es : list (pystr * jvalue)) (h : heap) : heap :=
        match es with
        | [] => h
        | (key, value) :: rest =>
            match dict_get key (deref h merged), value with
            | Some (Dict d), JDict sub =>
                let (h1, m1) := merge value d h in
                items rest (setitem h1 merged key (Dict m1))
            | _, _ =>
                let (h1, c) := store_tree value h in
                items rest (setitem h1 merged key c)
            end
        end in
      (items entries (h ++ [deref h default]), merged)
  end.

Definition _merge_configs (user : list (pystr * jvalue)) (default : nat)
    (h : heap) : heap * nat :=
  merge (JDict user) default h.

(** [_load_config] when the configuration file exists.  A file that holds
    a dictionary is merged with the defaults; on any other content
    [user.items()] raises and the [except] branch takes the defaults. *)
Definition _load_config (file_config : jvalue) (self : ConfigManager)
  : ConfigManager :=
  match file_config with
  | JDict user =>
      let (h, merged) :=
        _merge_configs user (default_config self) (objects self) in
      {| objects := h;
         config := merged;
         default_config := default_config self |}
  | JLeaf _ =>
      use_defaults
        {| objects := objects self
                      ++ [deref (objects self) (default_config self)];
           config := config self;
           default_config := default_config self |}
  end.

End ConfigFile.

Section ConfigFileProperties.
Import ConfigManager ConfigFile.

(** Induction on a value of a configuration file. *)
Fixpoint jvalue_induction (P : jvalue -> Prop)
    (Hleaf : forall x, P (JLeaf x))
    (Hdict : forall entries,
        Forall (fun kv => P (snd kv)) entries -> P (JDict entries))
    (v : jvalue) : P v :=
  match v with
  | JLeaf x => Hleaf x
  | JDict entries =>
      Hdict entries
        ((fix all (es : list (pystr * jvalue))
            : Forall (fun kv => P (snd kv)) es :=
            match es with
            | [] => Forall_nil _
            | kv :: rest =>
                Forall_cons kv (jvalue_induction P Hleaf Hdict (snd kv))
                  (all rest)
            end) entries)
  end.

(** The store after an operation that only creates dictionaries: it has
    grown, and the dictionaries that existed are as they were. *)
Definition extends (h h' : heap) : Prop :=
  List.length h <= List.length h'
  /\ forall x, x < List.length h -> deref h' x = deref h x.

Lemma extends_refl h : extends h h.
Proof. split; [lia|reflexivity]. Qed.

Lemma extends_trans h1 h2 h3 : extends h1 h2 -> extends h2 h3 -> extends h1 h3.
Proof.
  intros (L1 & F1) (L2 & F2). split; [lia|].
  intros x Hx. rewrite F2 by lia. apply F1. exact Hx.
Qed.

Lemma extends_alloc h o : extends h (h ++ [o]).
Proof.
  split; [rewrite length_app; cbn; lia|].
  intros x Hx. apply deref_app_old. exact Hx.
Qed.

Lemma extends_setitem_new h0 h a k v :
  extends h0 h -> List.length h0 <= a -> extends h0 (setitem h a k v).
Proof.
  intros (L & F) Ha. split; [rewrite length_setitem; exact L|].
  intros x Hx. rewrite deref_setitem_other by lia. apply F. exact Hx.
Qed.

Definition fresh (h : heap) (c : cval) : Prop :=
  forall b, c = Dict b -> List.length h <= b.

Lemma store_tree_extends v : forall h,
  extends h (fst (store_tree v h)) /\ fresh h (snd (store_tree v h)).
Proof.
  induction v as [x|entries IH] using jvalue_induction; intros h.
  - cbn. split; [apply extends_refl|intros b Hb; discriminate Hb].
  - cbn [store_tree].
    set (store_entries :=
           fix store_entries (es : list (pystr * jvalue)) (h : heap) (acc : obj)
             : heap * obj :=
             match es with
             | [] => (h, acc)
             | (k, v) :: rest =>
                 let (h1, c) := store_tree v h in
                 store_entries rest h1 (dict_set k c acc)
             end).
    assert (Hes : forall h acc, extends h (fst (store_entries entries h acc))).
    { clear h. induction IH as [|[k v] rest Hv _ IHrest]; intros h acc.
      - apply extends_refl.
      - cbn [store_entries]. cbn [snd] in Hv.
        destruct (Hv h) as (He & _).
        destruct (store_tree v h) as [h1 c]. cbn [fst] in He.
        apply (extends_trans He). apply IHrest. }
    specialize (Hes h []).
    destruct (store_entries entries h []) as [h1 o]. cbn [fst snd] in *.
    split.
    + apply (extends_trans Hes). apply extends_alloc.
    + intros b Hb. inversion Hb. apply Hes.
Qed.

(** The loop of [_merge_configs] over the items of [user]. *)
Definition items (merged : nat) : list (pystr * jvalue) -> heap -> heap :=
  fix items (es : list (pystr * jvalue)) (h : heap) : heap :=
    match es with
    | [] => h
    | (key, value) :: rest =>
        match dict_get key (deref h merged), value with
        | Some (Dict d), JDict sub =>
            let (h1, m1) := merge value d h in
            items rest (setitem h1 merged key (Dict m1))
        | _, _ =>
            let (h1, c) := store_tree value h in
            items rest (setitem h1 merged key c)
        end
    end.

Lemma merge_unfold entries default h :
  merge (JDict entries) default h
  = (items (List.length h) entries (h ++ [deref h default]), List.length h).
Proof. reflexivity. Qed.

(** One item of the loop: the store grows, old dictionaries stay, and the
    entry written under the key is a value or a new dictionary. *)
Definition item_step (merged : nat) (key : pystr) (value : jvalue) (h : heap)
  : heap :=
  match dict_get key (deref h merged), value with
  | Some (Dict d), JDict sub =>
      let (h1, m1) := merge value d h in setitem h1 merged key (Dict m1)
  | _, _ =>
      let (h1, c) := store_tree value h in setitem h1 merged key c
  end.

Lemma items_cons merged key value rest h :
  items merged ((key, value) :: rest) h
  = items merged rest (item_step merged key value h).
Proof.
  unfold item_step. cbn [items].
  destruct (dict_get key (deref h merged)) as [[x|d]|];
    destruct value as [y|sub];
    try (destruct (store_tree _ h); reflexivity).
  match goal with
  | |- context [merge ?v ?a h] => destruct (merge v a h)
  end.
  reflexivity.
Qed.

Definition merge_ok (v : jvalue) : Prop :=
  forall default h,
    snd (merge v default h) = List.length h
    /\ List.length h < List.length (fst (merge v default h))
    /\ extends h (fst (merge v default h)).

Lemma item_step_ok h0 merged key value h :
  merge_ok value ->
  List.length h0 <= merged -> merged < List.length h -> extends h0 h ->
  let h' := item_step merged key value h in
  extends h0 h'
  /\ List.length h <= List.length h'
  /\ (exists c, deref h' merged = dict_set key c (deref h merged)
                /\ fresh h c).
Proof.
  intros Hv Hm Hlt Hext. cbv zeta. unfold item_step.
  assert (Hstore : let (h1, c) := store_tree value h in
                   extends h0 (setitem h1 merged key c)
                   /\ List.length h <= List.length (setitem h1 merged key c)
                   /\ exists c0,
                        deref (setitem h1 merged key c) merged
                        = dict_set key c0 (deref h merged)
                        /\ fresh h c0).
  { destruct (store_tree_extends value h) as (He & Hf).
    destruct (store_tree value h) as [h1 c]. cbn [fst snd] in *.
    destruct He as (L & F).
    split; [apply extends_setitem_new;
            [apply (extends_trans Hext); split; assumption|exact Hm]|].
    split; [rewrite length_setitem; exact L|].
    exists c. rewrite deref_setitem_same by lia. rewrite F by exact Hlt.
    split; [reflexivity|exact Hf]. }
  destruct (dict_get key (deref h merged)) as [[x|d]|];
    destruct value as [y|sub];
    try (destruct (store_tree _ h); exact Hstore).
  clear Hstore. destruct (Hv d h) as (Hs & Hl & He).
  destruct (merge (JDict sub) d h) as [h1 m1]. cbn [fst snd] in *.
  destruct He as (L & F).
  split; [apply extends_setitem_new;
          [apply (extends_trans Hext); split; assumption|exact Hm]|].
  split; [rewrite length_setitem; exact L|].
  exists (Dict m1). rewrite deref_setitem_same by lia. rewrite F by exact Hlt.
  split; [reflexivity|]. intros b Hb. inversion Hb. lia.
Qed.

(** What the loop leaves in [merged]: under a key of the items a value or
    a new dictionary, under any other key what was there. *)
Lemma items_ok h0 merged es :
  Forall (fun kv => merge_ok (snd kv)) es ->
  forall h,
    List.length h0 <= merged -> merged < List.length h -> extends h0 h ->
    let h' := items merged es h in
    extends h0 h'
    /\ List.length h <= List.length h'
    /\ (forall k, ~ In k (map fst es) ->
                  dict_get k (deref h' merged) = dict_get k (deref h merged))
    /\ (forall k, In k (map fst es) ->
                  exists c, dict_get k (deref h' merged) = Some c
                            /\ fresh h c).
Proof.
  induction 1 as [|[key value] rest Hv _ IH]; intros h Hm Hlt Hext; cbv zeta.
  - cbn [items map]. split; [exact Hext|]. split; [lia|].
    split; [reflexivity|intros k []].
  - rewrite items_cons. cbn [snd] in Hv.
    destruct (@item_step_ok h0 merged key value h Hv Hm Hlt Hext)
      as (He1 & Hl1 & c & Hd1 & Hc).
    set (h1 := item_step merged key value h) in *.
    destruct (IH h1 Hm ltac:(lia) He1) as (He2 & Hl2 & Hother & Hin).
    split; [exact He2|]. split; [lia|]. split.
    + intros k Hk. cbn [map fst] in Hk.
      rewrite Hother by (intros H; apply Hk; right; exact H).
      rewrite Hd1. apply dict_get_set_other.
      intros ->. apply Hk. left. reflexivity.
    + intros k Hk.
      destruct (in_dec (list_eq_dec N.eq_dec) k (map fst rest)) as [Hr|Hr].
      * destruct (Hin k Hr) as (c' & Hg & Hf).
        exists c'. split; [exact Hg|]. intros b Hb. specialize (Hf b Hb). lia.
      * rewrite (Hother k Hr), Hd1.
        cbn [map fst] in Hk. destruct Hk as [<-|Hk]; [|contradiction].
        exists c. split; [apply dict_get_set_same|exact Hc].
Qed.

Lemma merge_is_ok v : merge_ok v.
Proof.
  induction v as [x|entries IH] using jvalue_induction; intros default h.
  - cbn [merge fst snd]. split; [reflexivity|].
    split; [rewrite length_app; cbn; lia|apply extends_alloc].
  - rewrite merge_unfold. cbn [fst snd].
    destruct (@items_ok h (List.length h) entries IH (h ++ [deref h default]))
      as (He & Hl & _); [lia|rewrite length_app; cbn; lia|apply extends_alloc|].
    split; [reflexivity|]. split; [|exact He].
    rewrite length_app in Hl. cbn in Hl. lia.
Qed.

Lemma dict_get_None_not_In {V} k (d : list (pystr * V)) :
  dict_get k d = None -> ~ In k (map fst d).
Proof.
  induction d as [|[k' v] d IH]; cbn [dict_get map fst]; [intros _ []|].
  destruct (PyStr.eqb k k') eqn:E; [discriminate|].
  intros H [H1|H1]; [|exact (IH H H1)].
  subst k'. rewrite PyStr.eqb_refl in E. discriminate E.
Qed.

Lemma dict_get_Some_In {V} k (v : V) d :
  dict_get k d = Some v -> In k (map fst d).
Proof.
  intros H. apply dict_get_In in H. apply in_map_iff.
  exists (k, v). split; [reflexivity|exact H].
Qed.

End ConfigFileProperties.

(** X25.  Merging a configuration file with the defaults modifies no
    dictionary that existed before, the defaults included.  The merged
    configuration is a new dictionary.  Under a key that the file has it
    holds a value or a dictionary created by the merge, never a dictionary
    of the defaults; under a key that the file does not have it holds
    exactly what the defaults hold, so a default section missing from the
    file is the same dictionary in both. *)
Theorem merged_config_sharing :
  forall (user : list (pystr * ConfigFile.jvalue)) (default : nat)
         (h : ConfigManager.heap),
    let h' := fst (ConfigFile._merge_configs user default h) in
    let merged := snd (ConfigFile._merge_configs user default h) in
    merged = List.length h
    /\ merged < List.length h'
    /\ (forall x, x < List.length h ->
                  ConfigManager.deref h' x = ConfigManager.deref h x)
    /\ (forall k, dict_get k user = None ->
                  dict_get k (ConfigManager.deref h' merged)
                  = dict_get k (ConfigManager.deref h default))
    /\ (forall k v, dict_get k user = Some v ->
                    exists c,
                      dict_get k (ConfigManager.deref h' merged) = Some c
                      /\ forall b, c = ConfigManager.Dict b ->
                                   List.length h < b).
Proof.
  intros user default h. cbv zeta. unfold ConfigFile._merge_configs.
  rewrite merge_unfold. cbn [fst snd].
  assert (Hall : Forall (fun kv => merge_ok (snd kv)) user)
    by (apply Forall_forall; intros kv _; apply merge_is_ok).
  destruct (@items_ok h (List.length h) user Hall
              (h ++ [ConfigManager.deref h default]))
    as (He & Hl & Hother & Hin);
    [lia|rewrite length_app; cbn; lia|apply extends_alloc|].
  rewrite length_app in Hl. cbn [List.length] in Hl.
  split; [reflexivity|]. split; [lia|]. split; [apply He|]. split.
  - intros k Hk. rewrite Hother by (apply dict_get_None_not_In; exact Hk).
    rewrite deref_app_new. reflexivity.
  - intros k v Hk. destruct (Hin k (dict_get_Some_In _ _ Hk)) as (c & Hg & Hf).
    exists c. split; [exact Hg|]. intros b Hb. specialize (Hf b Hb).
    rewrite length_app in Hf. cbn [List.length] in Hf. lia.
Qed.

Lemma merged_config_sharing_witness :
  let file := [ (str "ai",
                 ConfigFile.JDict
                   [ (str "model",
                      ConfigFile.JLeaf (ConfigManager.LStr (str "local"))) ]) ] in
  let self :=
    ConfigFile._load_config (ConfigFile.JDict file)
      {| ConfigManager.objects := ConfigManager.default_objects (str "key") ++ [[]];
         ConfigManager.config := 10;
         ConfigManager.default_config := 0 |} in
  dict_get (str "voice")
    (ConfigManager.deref (ConfigManager.objects self) (ConfigManager.config self))
  = Some (ConfigManager.Dict 2)
  /\ dict_get (str "ai")
       (ConfigManager.deref (ConfigManager.objects self)
          (ConfigManager.config self))
     = Some (ConfigManager.Dict 12)
  /\ ConfigManager.get (str "ai.model") (ConfigManager.Leaf ConfigManager.LNone)
       self
     = ConfigManager.Leaf (ConfigManager.LStr (str "local"))
  /\ ConfigManager.get (str "ai.timeout")
       (ConfigManager.Leaf ConfigManager.LNone) self
     = ConfigManager.Leaf (ConfigManager.LInt 30).
Proof.
  cbv zeta.
  pose proof (merged_config_sharing
                [ (str "ai",
                   ConfigFile.JDict
                     [ (str "model",
                        ConfigFile.JLeaf (ConfigManager.LStr (str "local"))) ]) ]
                0 (ConfigManager.default_objects (str "key") ++ [[]]))
    as (_ & _ & _ & Habsent & _).
  split; [exact (Habsent (str "voice") eq_refl)|].
  repeat split; reflexivity.
Defined.

(* ###################################################################### *)
(** * core/learning_engine.py: the frequency tables and the prediction *)

Module LearningModels.
Import LearningEngine.

(** A key of [time_patterns]: an hour, or the text [day_<n>]. *)
Inductive TimeKey :=
| KInt (z : Z)
| KStr (s : pystr).

Definition key_eqb (a b : TimeKey) : bool :=
  match a, b with
  | KInt x, KInt y => (x =? y)%Z
  | KStr x, KStr y => PyStr.eqb x y
  | _, _ => false
  end.

(** [d.get(k)] and [d[k].append(x)] on a [defaultdict(list)]. *)
Fixpoint table_get {K} (eqb : K -> K -> bool) (k : K)
    (d : list (K * list pystr)) : option (list pystr) :=
  match d with
  | [] => None
  | (k', v) :: d' => if eqb k k' then Some v else table_get eqb k d'
  end.

Fixpoint table_append {K} (eqb : K -> K -> bool) (k : K) (x : pystr)
    (d : list (K * list pystr)) : list (K * list pystr) :=
  match d with
  | [] => [(k, [x])]
  | (k', v) :: d' =>
      if eqb k k' then (k', v ++ [x]) :: d'
      else (k', v) :: table_append eqb k x d'
  end.

(** [c[k] += 1] on a [Counter] *)
Definition counter_incr (k : pystr) (c : list (pystr * Z)) : list (pystr * Z) :=
  dict_set k (match dict_get k c with Some n => n + 1 | None => 1 end)%Z c.

(** [Counter(l)] *)
Definition Counter (l : list pystr) : list (pystr * Z) :=
  fold_left (fun c k => counter_incr k c) l [].

(** [c.most_common(1)]: the first of the entries with the largest count. *)
Fixpoint first_max (best : pystr * Z) (l : list (pystr * Z)) : pystr * Z :=
  match l with
  | [] => best
  | x :: r => if (snd best <? snd x)%Z then first_max x r else first_max best r
  end.

Definition most_common_1 (c : list (pystr * Z)) : option (pystr * Z) :=
  match c with
  | [] => None
  | x :: r => Some (first_max x r)
  end.

Record Models := {
  command_frequency : list (pystr * Z);
  time_patterns : list (TimeKey * list pystr);
  context_patterns : list (pystr * list pystr)
}.

Definition no_models : Models :=
  {| command_frequency := []; time_patterns := []; context_patterns := [] |}.

(** [isinstance(value, (str, int, float))] *)
Definition is_scalar (v : pyval) : bool :=
  match v with
  | VStr _ | VInt _ | VFloat _ | VBool _ => true
  | _ => false
  end.

Section WithRuntime.
Context {U : Runtime}.
(** [datetime.fromisoformat(timestamp)]: the hour and the weekday, or
    [None] when the text does not parse. *)
Variable fromisoformat : pystr -> option (Z * Z).

(** [_update_models] *)
Definition _update_models (interaction : Interaction) (m : Models) : Models :=
  let command := lower (command interaction) in
  let command_frequency := counter_incr command (command_frequency m) in
  let time_patterns :=
    match timestamp interaction with
    | [] => time_patterns m
    | _ =>
        match fromisoformat (timestamp interaction) with
        | Some (hour, day_of_week) =>
            table_append key_eqb (KStr (str "day_" ++ of_Z day_of_week))
              command
              (table_append key_eqb (KInt hour) command (time_patterns m))
        | None => time_patterns m
        end
    end in
  let context_patterns :=
    fold_left
      (fun patterns kv =>
         if is_scalar (snd kv) then
           table_append PyStr.eqb (fst kv ++ str "_" ++ py_str (snd kv))
             command patterns
         else patterns)
      (context interaction) (context_patterns m) in
  {| command_frequency := command_frequency;
     time_patterns := time_patterns;
     context_patterns := context_patterns |}.

(** [predict_next_command] *)
Definition predict_next_command (now : Clock) (self : LearningEngine Models)
  : option pystr :=
  if List.length (user_interactions self) <? 10 then None
  else
    let time_commands :=
      match table_get key_eqb (KInt (hour now)) (time_patterns (models self)) with
      | Some l => l
      | None => []
      end in
    match time_commands with
    | _ :: _ =>
        match most_common_1 (Counter time_commands) with
        | Some (cmd, _) => Some cmd
        | None => None
        end
    | [] =>
        match most_common_1 (command_frequency (models self)) with
        | Some (cmd, _) => Some cmd
        | None => None
        end
    end.

End WithRuntime.

(** [__init__] *)
Definition init : LearningEngine Models :=
  {| learning_enabled := true;
     user_interactions := [];
     user_preferences := VDict [];
     models := no_models |}.

End LearningModels.

Section CounterProperties.
Import LearningModels.

(** Occurrences of [k] in [l]. *)
Fixpoint occ (k : pystr) (l : list pystr) : Z :=
  match l with
  | [] => 0
  | x :: r => (if PyStr.eqb k x then 1 else 0) + occ k r
  end%Z.

Lemma occ_nonneg k l : (0 <= occ k l)%Z.
Proof.
  induction l as [|x r IH]; cbn [occ]; [lia|].
  destruct (PyStr.eqb k x); lia.
Qed.

Lemma occ_app k l1 l2 : occ k (l1 ++ l2) = (occ k l1 + occ k l2)%Z.
Proof.
  induction l1 as [|x r IH]; cbn [app occ]; [lia|]. rewrite IH. lia.
Qed.

Lemma occ_In k l : (0 < occ k l)%Z -> In k l.
Proof.
  induction l as [|x r IH]; cbn [occ]; [lia|].
  destruct (PyStr.eqb k x) eqn:E.
  - apply PyStr.eqb_eq in E. intros _. left. symmetry. exact E.
  - intros H. right. apply IH. lia.
Qed.

Lemma eqb_neq a b : a <> b -> PyStr.eqb a b = false.
Proof.
  intros H. destruct (PyStr.eqb a b) eqn:E; [|reflexivity].
  apply PyStr.eqb_eq in E. contradiction.
Qed.

(** The count that a counter holds for a key, 0 when it holds none. *)
Definition count_of (c : list (pystr * Z)) (k : pystr) : Z :=
  match dict_get k c with Some n => n | None => 0%Z end.

(** A counter as [Counter] builds them: every key once, every count
    positive. *)
Definition counter_ok (c : list (pystr * Z)) : Prop :=
  NoDup (map fst c) /\ forall k n, In (k, n) c -> (1 <= n)%Z.

Lemma dict_set_keys {V} k (v : V) d :
  map fst (dict_set k v d)
  = if existsb (PyStr.eqb k) (map fst d) then map fst d else map fst d ++ [k].
Proof.
  induction d as [|[k' v'] d IH]; cbn [dict_set map fst existsb]; [reflexivity|].
  destruct (PyStr.eqb k k') eqn:E; cbn [orb map fst].
  - apply PyStr.eqb_eq in E. subst k'. reflexivity.
  - rewrite IH. destruct (existsb _ _); reflexivity.
Qed.

Lemma existsb_eqb_In k l : existsb (PyStr.eqb k) l = true <-> In k l.
Proof.
  rewrite existsb_exists. split.
  - intros (x & Hx & E). apply PyStr.eqb_eq in E. subst x. exact Hx.
  - intros H. exists k. split; [exact H|apply PyStr.eqb_refl].
Qed.

Lemma NoDup_In_dict_get {V} k (v : V) d :
  NoDup (map fst d) -> In (k, v) d -> dict_get k d = Some v.
Proof.
  induction d as [|[k' v'] d IH]; cbn [map fst dict_get]; [intros _ []|].
  intros Hnd [H|H].
  - inversion H. subst. rewrite PyStr.eqb_refl. reflexivity.
  - inversion Hnd as [|? ? Hnot Hnd']. subst.
    destruct (PyStr.eqb k k') eqn:E.
    + apply PyStr.eqb_eq in E. subst k'. exfalso. apply Hnot.
      apply in_map_iff. exists (k, v). split; [reflexivity|exact H].
    + apply IH; assumption.
Qed.

Lemma counter_incr_ok k c : counter_ok c -> counter_ok (counter_incr k c).
Proof.
  intros (Hnd & Hpos). unfold counter_incr. split.
  - rewrite dict_set_keys. destruct (existsb _ _) eqn:E; [exact Hnd|].
    apply NoDup_app; [exact Hnd|repeat constructor; intros []|].
    intros x Hx [<-|[]].
    apply existsb_eqb_In in Hx. rewrite Hx in E. discriminate E.
  - intros k' n Hin. apply In_dict_set in Hin as [Hin|Hin].
    + inversion Hin. subst. destruct (dict_get k c) as [m|] eqn:G; [|lia].
      apply dict_get_In in G. specialize (Hpos _ _ G). lia.
    + exact (Hpos _ _ Hin).
Qed.

Lemma counter_incr_count k c k' :
  count_of (counter_incr k c) k'
  = (count_of c k' + if PyStr.eqb k' k then 1 else 0)%Z.
Proof.
  unfold counter_incr, count_of.
  destruct (PyStr.eqb k' k) eqn:E.
  - apply PyStr.eqb_eq in E. subst k'. rewrite dict_get_set_same.
    destruct (dict_get k c); lia.
  - rewrite dict_get_set_other.
    + lia.
    + intros ->. rewrite PyStr.eqb_refl in E. discriminate E.
Qed.

Lemma Counter_snoc l k : Counter (l ++ [k]) = counter_incr k (Counter l).
Proof. unfold Counter. rewrite fold_left_app. reflexivity. Qed.

Lemma Counter_ok l : counter_ok (Counter l).
Proof.
  induction l as [|k l IH] using rev_ind.
  - split; [constructor|intros k n []].
  - rewrite Counter_snoc. apply counter_incr_ok. exact IH.
Qed.

Lemma Counter_count l k : count_of (Counter l) k = occ k l.
Proof.
  induction l as [|x l IH] using rev_ind; [reflexivity|].
  rewrite Counter_snoc, counter_incr_count, IH, occ_app. cbn [occ]. lia.
Qed.

Lemma Counter_nonempty x l : Counter (l ++ [x]) <> [].
Proof.
  rewrite Counter_snoc. unfold counter_incr.
  destruct (Counter l) as [|[k' v'] c]; cbn [dict_set]; [discriminate|].
  destruct (PyStr.eqb x k'); discriminate.
Qed.

Lemma first_max_spec l : forall best,
  In (first_max best l) (best :: l)
  /\ forall x, In x (best :: l) -> (snd x <= snd (first_max best l))%Z.
Proof.
  induction l as [|y r IH]; intros best; cbn [first_max].
  - split; [left; reflexivity|]. intros x [<-|[]]. lia.
  - destruct (Z.ltb_spec (snd best) (snd y)) as [H|H].
    + destruct (IH y) as (Hin & Hmax). split.
      * right. exact Hin.
      * intros x [<-|Hx]; [|apply Hmax; exact Hx].
        specialize (Hmax y (or_introl eq_refl)). lia.
    + destruct (IH best) as (Hin & Hmax). split.
      * destruct Hin as [Hin|Hin]; [left; exact Hin|right; right; exact Hin].
      * intros x [<-|[<-|Hx]].
        -- apply Hmax. left. reflexivity.
        -- specialize (Hmax best (or_introl eq_refl)). lia.
        -- apply Hmax. right. exact Hx.
Qed.

(** [most_common(1)] of a counter: a key of the counter whose count no
    other count exceeds. *)
Lemma most_common_1_spec c :
  counter_ok c -> c <> [] ->
  exists k n,
    most_common_1 c = Some (k, n)
    /\ n = count_of c k /\ (1 <= n)%Z
    /\ forall k', (count_of c k' <= n)%Z.
Proof.
  intros (Hnd & Hpos) Hne. destruct c as [|x r]; [contradiction Hne; reflexivity|].
  cbn [most_common_1].
  destruct (first_max_spec r x) as (Hin & Hmax).
  destruct (first_max x r) as [k n] eqn:E. exists k, n.
  split; [reflexivity|].
  pose proof (NoDup_In_dict_get _ _ _ Hnd Hin) as G.
  split; [unfold count_of; rewrite G; reflexivity|].
  split; [exact (Hpos _ _ Hin)|].
  intros k'. unfold count_of.
  destruct (dict_get k' (x :: r)) as [n'|] eqn:G'.
  - apply dict_get_In in G'. exact (Hmax _ G').
  - specialize (Hpos _ _ Hin). lia.
Qed.

Lemma most_common_1_Counter l :
  l <> [] ->
  exists k n,
    most_common_1 (Counter l) = Some (k, n)
    /\ In k l /\ n = occ k l /\ forall k', (occ k' l <= occ k l)%Z.
Proof.
  intros Hne.
  assert (Hc : Counter l <> []).
  { destruct (exists_last Hne) as (l' & x & ->). apply Counter_nonempty. }
  destruct (most_common_1_spec (Counter_ok l) Hc) as (k & n & Hm & Hn & Hpos & Hmax).
  rewrite Counter_count in Hn. exists k, n.
  split; [exact Hm|]. split; [apply occ_In; lia|]. split; [exact Hn|].
  intros k'. specialize (Hmax k'). rewrite Counter_count in Hmax. lia.
Qed.

(** The sum of the counts. *)
Definition total (c : list (pystr * Z)) : Z :=
  fold_right (fun kv acc => (snd kv + acc)%Z) 0%Z c.

Lemma total_dict_set k n c :
  total (dict_set k n c) = (total c + n - count_of c k)%Z.
Proof.
  unfold count_of.
  induction c as [|[k' n'] c IH]; cbn [dict_set dict_get total fold_right snd].
  - lia.
  - destruct (PyStr.eqb k k'); cbn [total fold_right snd].
    + lia.
    + fold (total (dict_set k n c)). fold (total c). rewrite IH. lia.
Qed.

Lemma total_counter_incr k c : total (counter_incr k c) = (total c + 1)%Z.
Proof.
  unfold counter_incr. rewrite total_dict_set. unfold count_of.
  destruct (dict_get k c); lia.
Qed.

Lemma key_eqb_eq a b : key_eqb a b = true <-> a = b.
Proof.
  destruct a as [x|x], b as [y|y]; cbn [key_eqb];
    try (split; [discriminate|intros H; inversion H]).
  - rewrite Z.eqb_eq. split; [intros ->; reflexivity|intros H; inversion H; reflexivity].
  - rewrite PyStr.eqb_eq. split; [intros ->; reflexivity|intros H; inversion H; reflexivity].
Qed.

Section Tables.
Context {K : Type} (eqb : K -> K -> bool).
Hypothesis eqb_eq : forall a b, eqb a b = true <-> a = b.

Lemma table_get_append_same k x d :
  table_get eqb k (table_append eqb k x d)
  = Some (match table_get eqb k d with Some l => l ++ [x] | None => [x] end).
Proof.
  assert (Hrefl : eqb k k = true) by (apply eqb_eq; reflexivity).
  induction d as [|[k' v] d IH]; cbn [table_append table_get].
  - rewrite Hrefl. reflexivity.
  - destruct (eqb k k') eqn:E; cbn [table_get]; rewrite E; [reflexivity|].
    exact IH.
Qed.

Lemma table_get_append_other k k' x d :
  k' <> k ->
  table_get eqb k' (table_append eqb k x d) = table_get eqb k' d.
Proof.
  intros Hne.
  assert (Hf : eqb k' k = false).
  { destruct (eqb k' k) eqn:E; [|reflexivity].
    apply eqb_eq in E. contradiction. }
  induction d as [|[k0 v] d IH]; cbn [table_append table_get].
  - rewrite Hf. reflexivity.
  - destruct (eqb k k0) eqn:E; cbn [table_get].
    + apply eqb_eq in E. subst k0. rewrite Hf. reflexivity.
    + rewrite IH. reflexivity.
Qed.

End Tables.

End CounterProperties.

Section PredictionProperties.
Import LearningEngine LearningModels.
Context {U : Runtime}.
Variable fromisoformat : pystr -> option (Z * Z).

Definition learnt : Type := list (Clock * pystr * pyval).

(** The lower-cased commands of the interactions learnt. *)
Definition lowered (ops : learnt) : list pystr :=
  map (fun op => lower (snd (fst op))) ops.

(** Whether the interaction was recorded at hour [h], as its stored
    timestamp reads. *)
Definition stamped_at (h : Z) (op : Clock * pystr * pyval) : bool :=
  match isoformat (fst (fst op)) with
  | [] => false
  | _ =>
      match fromisoformat (isoformat (fst (fst op))) with
      | Some (hour, _) => (hour =? h)%Z
      | None => false
      end
  end.

Definition lowered_at (h : Z) (ops : learnt) : list pystr :=
  lowered (filter (stamped_at h) ops).

Definition learn_all (ops : learnt) : LearningEngine Models :=
  record_interactions (_update_models fromisoformat) ops LearningModels.init.

Lemma learn_all_snoc ops op :
  learn_all (ops ++ [op])
  = learn_from_interaction (_update_models fromisoformat)
      (fst (fst op)) (snd (fst op)) (snd op) (learn_all ops).
Proof. unfold learn_all, record_interactions. apply fold_left_app. Qed.

Lemma lowered_snoc ops op :
  lowered (ops ++ [op]) = lowered ops ++ [lower (snd (fst op))].
Proof. unfold lowered. rewrite map_app. reflexivity. Qed.

Lemma lowered_at_snoc h ops op :
  lowered_at h (ops ++ [op])
  = lowered_at h ops
    ++ (if stamped_at h op then [lower (snd (fst op))] else []).
Proof.
  unfold lowered_at. rewrite filter_app. cbn [filter].
  destruct (stamped_at h op).
  - apply lowered_snoc.
  - rewrite !app_nil_r. reflexivity.
Qed.

(** What the engine holds after the interactions [ops]. *)
Lemma learn_all_state ops :
  let self := learn_all ops in
  learning_enabled self = true
  /\ List.length (user_interactions self)
     = Nat.min (List.length ops) max_interactions
  /\ command_frequency (models self) = Counter (lowered ops)
  /\ forall h,
       table_get key_eqb (KInt h) (time_patterns (models self))
       = match lowered_at h ops with
         | [] => None
         | l => Some l
         end.
Proof.
  induction ops as [|op ops IH] using rev_ind; cbv zeta.
  - cbn. split; [reflexivity|]. split; [reflexivity|].
    split; [reflexivity|]. intros h. reflexivity.
  - cbv zeta in IH. destruct IH as (He & Hlen & Hcf & Htp).
    rewrite learn_all_snoc. unfold learn_from_interaction. rewrite He.
    cbn [negb learning_enabled user_interactions models].
    split; [reflexivity|]. split; [|split].
    + match goal with
      | |- List.length (if ?n <? List.length ?l then _ else _) = _ =>
          destruct (Nat.ltb_spec n (List.length l)) as [H|H];
          [rewrite last_n_min|];
          repeat rewrite length_app in *; cbn [List.length] in *; lia
      end.
    + unfold _update_models at 1.
      cbn [command_frequency LearningEngine.command].
      rewrite Hcf, lowered_snoc, Counter_snoc. reflexivity.
    + intros h. rewrite lowered_at_snoc.
      unfold _update_models at 1.
      cbn [time_patterns LearningEngine.timestamp LearningEngine.command].
      unfold stamped_at.
      destruct (isoformat (fst (fst op))) as [|ch ts] eqn:Ei.
      * rewrite app_nil_r. apply Htp.
      * destruct (fromisoformat (ch :: ts)) as [[hour dow]|];
          [|rewrite app_nil_r; apply Htp].
        rewrite (table_get_append_other key_eqb key_eqb_eq) by discriminate.
        destruct (Z.eqb_spec hour h) as [->|Hne].
        -- rewrite (table_get_append_same key_eqb key_eqb_eq), Htp.
           destruct (lowered_at h ops); reflexivity.
        -- rewrite (table_get_append_other key_eqb key_eqb_eq)
             by (intros E; inversion E; apply Hne; symmetry; assumption).
           rewrite app_nil_r. apply Htp.
Qed.

Lemma total_Counter l : total (Counter l) = Z.of_nat (List.length l).
Proof.
  induction l as [|x l IH] using rev_ind; [reflexivity|].
  rewrite Counter_snoc, total_counter_incr, IH, length_app. cbn [List.length].
  lia.
Qed.

Lemma ten_fit : 10 <= max_interactions.
Proof.
  pose proof max_interactions_value as H.
  destruct (Nat.le_gt_cases 10 max_interactions) as [L|L]; [exact L|].
  exfalso. lia.
Qed.

End PredictionProperties.

(** X26.  [predict_next_command] in terms of what was learnt.  After the
    interactions [ops], learnt one after the other by a fresh engine, it
    returns nothing when there are fewer than ten of them.  From ten on it
    always returns a command: one of the lower-cased commands learnt whose
    stored timestamp reads the current hour, and among these one that
    occurs most often; or, when no interaction was stamped at this hour, a
    most frequent one among all lower-cased commands learnt.  The frequency
    table is never trimmed: its counts add up to the number of interactions
    learnt, also beyond the 10,000 that the log keeps. *)
Theorem prediction_is_most_frequent :
  forall (U : Runtime) (fromisoformat : pystr -> option (Z * Z))
         (ops : list (LearningEngine.Clock * pystr * pyval))
         (now : LearningEngine.Clock),
    let self := learn_all fromisoformat ops in
    let pool :=
      match lowered_at fromisoformat (LearningEngine.hour now) ops with
      | [] => lowered ops
      | l => l
      end in
    (List.length ops < 10 ->
     LearningModels.predict_next_command now self = None)
    /\ (10 <= List.length ops ->
        exists cmd,
          LearningModels.predict_next_command now self = Some cmd
          /\ In cmd pool
          /\ forall k, (occ k pool <= occ cmd pool)%Z)
    /\ total (LearningModels.command_frequency (LearningEngine.models self))
       = Z.of_nat (List.length ops).
Proof.
  intros U fromisoformat ops now. cbv zeta.
  destruct (learn_all_state fromisoformat ops) as (_ & Hlen & Hcf & Htp).
  pose proof ten_fit as Hten.
  split; [|split].
  - intros H. unfold LearningModels.predict_next_command. rewrite Hlen.
    destruct (Nat.ltb_spec (Nat.min (List.length ops)
                              LearningEngine.max_interactions) 10);
      [reflexivity|lia].
  - intros H. unfold LearningModels.predict_next_command. rewrite Hlen.
    destruct (Nat.ltb_spec (Nat.min (List.length ops)
                              LearningEngine.max_interactions) 10); [lia|].
    rewrite Htp, Hcf.
    destruct (lowered_at fromisoformat (LearningEngine.hour now) ops)
      as [|c0 rest] eqn:E.
    + assert (Hne : lowered ops <> []).
      { unfold lowered. destruct ops; [cbn in H; lia|discriminate]. }
      destruct (most_common_1_Counter Hne) as (k & n & Hm & Hin & _ & Hmax).
      rewrite Hm. exists k. split; [reflexivity|]. split; assumption.
    + assert (Hne : c0 :: rest <> []) by discriminate.
      destruct (most_common_1_Counter Hne) as (k & n & Hm & Hin & _ & Hmax).
      rewrite Hm. exists k. split; [reflexivity|]. split; assumption.
  - rewrite Hcf, total_Counter. unfold lowered. rewrite length_map.
    reflexivity.
Qed.

Lemma prediction_is_most_frequent_witness :
  let at_nine :=
    {| LearningEngine.isoformat := str "2024-01-01T09:00:00";
       LearningEngine.hour := 9;
       LearningEngine.weekday := 0;
       LearningEngine.within_last_hour := fun _ => Some true |} in
  let ops :=
    repeat (at_nine, str "Status", VNone) 6
    ++ repeat (at_nine, str "open file", VNone) 5 in
  LearningModels.predict_next_command at_nine
    (@learn_all ascii_runtime (fun _ => Some (9, 0)%Z) ops)
  = Some (str "status").
Proof.
  cbv zeta.
  destruct (prediction_is_most_frequent ascii_runtime
              (fun _ => Some (9, 0)%Z)
              (repeat ({| LearningEngine.isoformat := str "2024-01-01T09:00:00";
                          LearningEngine.hour := 9;
                          LearningEngine.weekday := 0;
                          LearningEngine.within_last_hour :=
                            fun _ => Some true |}, str "Status", VNone) 6
               ++ repeat ({| LearningEngine.isoformat :=
                               str "2024-01-01T09:00:00";
                             LearningEngine.hour := 9;
                             LearningEngine.weekday := 0;
                             LearningEngine.within_last_hour :=
                               fun _ => Some true |}, str "open file", VNone) 5)
              {| LearningEngine.isoformat := str "2024-01-01T09:00:00";
                 LearningEngine.hour := 9;
                 LearningEngine.weekday := 0;
                 LearningEngine.within_last_hour := fun _ => Some true |})
    as (_ & H & _).
  destruct (H ltac:(cbn; lia)) as (cmd & -> & Hin & Hmax).
  f_equal.
  cbn in Hin.
  destruct Hin as [<-|[<-|[<-|[<-|[<-|[<-|Hin]]]]]]; try reflexivity.
  exfalso.
  specialize (Hmax (str "status")).
  destruct Hin as [<-|[<-|[<-|[<-|[<-|[]]]]]]; vm_compute in Hmax;
    apply Hmax; reflexivity.
Defined.

(* ###################################################################### *)
(** * The translation tables *)

Section TranslationTables.
Import LanguageManager.

Lemma dict_get_of_key {V} k (d : list (pystr * V)) :
  In k (map fst d) -> exists v, dict_get k d = Some v /\ In (k, v) d.
Proof.
  induction d as [|[k' v'] d IH]; cbn [map fst dict_get]; [intros []|].
  destruct (PyStr.eqb k k') eqn:E.
  - apply PyStr.eqb_eq in E. subst k'. intros _. exists v'.
    split; [reflexivity|left; reflexivity].
  - intros [H|H]; [subst k'; rewrite PyStr.eqb_refl in E; discriminate E|].
    destruct (IH H) as (v & Hg & Hin). exists v.
    split; [exact Hg|right; exact Hin].
Qed.

Lemma dict_get_not_key {V} k (d : list (pystr * V)) :
  ~ In k (map fst d) -> dict_get k d = None.
Proof.
  intros H. destruct (dict_get k d) as [v|] eqn:E; [|reflexivity].
  exfalso. apply H. apply dict_get_In in E. apply in_map_iff.
  exists (k, v). split; [reflexivity|exact E].
Qed.

(** A text that can be shown: not empty, and not the key it stands for. *)
Definition shown (kv : pystr * pystr) : bool :=
  negb (PyStr.eqb (snd kv) []) && negb (PyStr.eqb (snd kv) (fst kv)).

Lemma find_translation_english key :
  find_translation (str "english") key = dict_get key english_translations.
Proof. reflexivity. Qed.

Lemma find_translation_hindi key :
  find_translation (str "hindi") key = dict_get key hindi_translations.
Proof. reflexivity. Qed.

Lemma shown_entry table key :
  forallb shown table = true -> In key (map fst table) ->
  exists text, dict_get key table = Some text /\ text <> [] /\ text <> key.
Proof.
  intros Hall Hk. destruct (dict_get_of_key _ _ Hk) as (text & Hg & Hin).
  rewrite forallb_forall in Hall. specialize (Hall _ Hin).
  unfold shown in Hall. cbn [fst snd] in Hall.
  apply andb_prop in Hall as [H1 H2].
  exists text. split; [exact Hg|]. split.
  - intros ->. discriminate H1.
  - intros ->. rewrite PyStr.eqb_refl in H2. discriminate H2.
Qed.

End TranslationTables.

(** X27.  The two translation tables have the same keys.  So whenever
    the language manager's language is [english] or [hindi], which
    [set_language] guarantees, [get_text] on a key of the tables returns
    the entry of that very language, a non-empty text different from the
    key, and never falls back to English for Hindi; on any other key it
    returns the key itself. *)
Theorem translations_are_complete :
  forall (lm : LanguageManager.LanguageManager) (key : pystr),
    supported (LanguageManager.current_language lm) ->
    map fst LanguageManager.hindi_translations
    = map fst LanguageManager.english_translations
    /\ (In key (map fst LanguageManager.english_translations) ->
        exists text,
          LanguageManager.find_translation
            (LanguageManager.current_language lm) key = Some text
          /\ LanguageManager.get_text lm key = text
          /\ text <> [] /\ text <> key)
    /\ (~ In key (map fst LanguageManager.english_translations) ->
        LanguageManager.get_text lm key = key).
Proof.
  intros lm key Hs.
  assert (Hkeys : map fst LanguageManager.hindi_translations
                  = map fst LanguageManager.english_translations)
    by (vm_compute; reflexivity).
  assert (He : forallb shown LanguageManager.english_translations = true)
    by (vm_compute; reflexivity).
  assert (Hh : forallb shown LanguageManager.hindi_translations = true)
    by (vm_compute; reflexivity).
  split; [exact Hkeys|]. unfold LanguageManager.get_text. split.
  - intros Hk. destruct Hs as [-> | ->].
    + rewrite find_translation_english.
      destruct (shown_entry _ _ He Hk) as (text & -> & H1 & H2).
      exists text. repeat split; assumption.
    + rewrite find_translation_hindi. rewrite <- Hkeys in Hk.
      destruct (shown_entry _ _ Hh Hk) as (text & -> & H1 & H2).
      exists text. repeat split; assumption.
  - intros Hk. rewrite find_translation_english.
    rewrite (dict_get_not_key _ _ Hk).
    destruct Hs as [-> | ->].
    + rewrite find_translation_english, (dict_get_not_key _ _ Hk).
      reflexivity.
    + rewrite find_translation_hindi.
      rewrite <- Hkeys in Hk. rewrite (dict_get_not_key _ _ Hk).
      reflexivity.
Qed.

Lemma translations_are_complete_witness :
  LanguageManager.get_text
    {| LanguageManager.current_language := str "hindi" |}
    (str "language_switched")
  <> str "language_switched".
Proof.
  destruct (translations_are_complete
              {| LanguageManager.current_language := str "hindi" |}
              (str "language_switched") (or_intror eq_refl))
    as (_ & H & _).
  destruct (H ltac:(vm_compute; tauto)) as (text & _ & -> & _ & Hne).
  exact Hne.
Defined.

Section SecurityLog.
Import SecurityManager.

(** The event log after one more event: the new event last, before it the
    old events without the oldest ones when there were 1000 already. *)
Lemma log_event_window now lvl msg self :
  exists dropped kept,
    security_events self = dropped ++ kept
    /\ security_events (_log_security_event now lvl msg self)
       = kept ++ [ {| timestamp := now;
                      level := lvl;
                      message := msg;
                      event_threat_level := threat_level self |} ]
    /\ List.length (security_events (_log_security_event now lvl msg self))
       <= 1000
    /\ (List.length (security_events self) < 1000 -> dropped = []).
Proof.
  unfold _log_security_event. cbn [security_events set_events].
  set (event := {| timestamp := now; level := lvl; message := msg;
                   event_threat_level := threat_level self |}).
  set (old := security_events self).
  destruct (Nat.ltb_spec 1000 (List.length (old ++ [event]))) as [H|H];
    rewrite length_app in H; cbn [List.length] in H.
  - exists (firstn (List.length old + 1 - 1000) old),
           (skipn (List.length old + 1 - 1000) old).
    split; [symmetry; apply firstn_skipn|]. split; [|split].
    + unfold last_n. rewrite length_app. cbn [List.length].
      rewrite skipn_app.
      replace (List.length old + 1 - 1000 - List.length old) with 0 by lia.
      reflexivity.
    + apply last_n_length.
    + intros Hlt. lia.
  - exists [], old. split; [reflexivity|]. split; [reflexivity|].
    split; [rewrite length_app; cbn [List.length]; lia|reflexivity].
Qed.

(** The state that [authenticate] hands to [_log_security_event], with the
    level and the message. *)
Lemma authenticate_logs t now pw self :
  match outcome t pw self with
  | LockedOut => authenticate t now pw self = (false, self)
  | NotRequired =>
      exists s, threat_level s = threat_level self
                /\ security_events s = security_events self
                /\ authenticate t now pw self
                   = (true,
                      _log_security_event now (str "INFO")
                        (str "User authenticated (no auth required)") s)
  | Accepted =>
      exists s, threat_level s = threat_level self
                /\ security_events s = security_events self
                /\ authenticate t now pw self
                   = (true,
                      _log_security_event now (str "INFO")
                        (str "User authenticated successfully") s)
  | Rejected =>
      exists s, threat_level s = threat_level self
                /\ security_events s = security_events self
                /\ authenticate t now pw self
                   = (false,
                      _log_security_event now (str "WARNING")
                        (str "Authentication failed (attempt "
                         ++ of_Z (auth_attempts s) ++ str ")") s)
  end.
Proof.
  unfold authenticate, outcome.
  destruct ((max_auth_attempts self <=? auth_attempts self)%Z) eqn:L;
    cbn [andb].
  - destruct (Qlt_bool _ _); [reflexivity|].
    unfold require_authentication, stored_password.
    cbn [config set_attempts].
    destruct (truthy _ _); cbn [negb];
      [destruct (password_accepted pw _)|];
      eexists; (split; [|split; [|reflexivity]]); reflexivity.
  - unfold require_authentication, stored_password.
    destruct (truthy _ _); cbn [negb];
      [destruct (password_accepted pw _)|];
      eexists; (split; [|split; [|reflexivity]]); reflexivity.
Qed.

End SecurityLog.

(** X28.  The security log of [authenticate].  A call that is locked out
    leaves no event.  Every other call appends exactly one event, stamped
    with the current time and the current threat level: of level [INFO]
    when the call returns true, of level [WARNING] when it returns false,
    the message then naming the new value of the attempt counter.  The log
    never exceeds 1000 events: older events are dropped from the front,
    none while fewer than 1000 are held. *)
Theorem authentication_is_logged :
  forall (t : Q) (now : pystr) (password : option pystr)
         (self : SecurityManager.SecurityManager),
    let r := SecurityManager.authenticate t now password self in
    (outcome t password self = LockedOut ->
     SecurityManager.security_events (snd r)
     = SecurityManager.security_events self)
    /\ (outcome t password self <> LockedOut ->
        exists dropped kept event,
          SecurityManager.security_events self = dropped ++ kept
          /\ SecurityManager.security_events (snd r) = kept ++ [event]
          /\ List.length (SecurityManager.security_events (snd r)) <= 1000
          /\ (List.length (SecurityManager.security_events self) < 1000 ->
              dropped = [])
          /\ SecurityManager.timestamp event = now
          /\ SecurityManager.event_threat_level event
             = SecurityManager.threat_level self
          /\ SecurityManager.level event
             = (if fst r then str "INFO" else str "WARNING")
          /\ (fst r = false ->
              SecurityManager.message event
              = str "Authentication failed (attempt "
                ++ of_Z (SecurityManager.auth_attempts (snd r)) ++ str ")")).
Proof.
  intros t now password self. cbv zeta.
  pose proof (authenticate_logs t now password self) as H.
  split.
  - intros O. rewrite O in H. rewrite H. reflexivity.
  - intros O.
    assert (Hgen : forall ok lvl msg s,
               SecurityManager.threat_level s
               = SecurityManager.threat_level self ->
               SecurityManager.security_events s
               = SecurityManager.security_events self ->
               SecurityManager.authenticate t now password self
               = (ok, SecurityManager._log_security_event now lvl msg s) ->
               lvl = (if ok then str "INFO" else str "WARNING") ->
               (ok = false ->
                msg = str "Authentication failed (attempt "
                      ++ of_Z (SecurityManager.auth_attempts s) ++ str ")") ->
               exists dropped kept event,
                 SecurityManager.security_events self = dropped ++ kept
                 /\ SecurityManager.security_events
                      (snd (SecurityManager.authenticate t now password self))
                    = kept ++ [event]
                 /\ List.length
                      (SecurityManager.security_events
                         (snd (SecurityManager.authenticate t now password
                                 self))) <= 1000
                 /\ (List.length (SecurityManager.security_events self) < 1000 ->
                     dropped = [])
                 /\ SecurityManager.timestamp event = now
                 /\ SecurityManager.event_threat_level event
                    = SecurityManager.threat_level self
                 /\ SecurityManager.level event
                    = (if fst (SecurityManager.authenticate t now password self)
                       then str "INFO" else str "WARNING")
                 /\ (fst (SecurityManager.authenticate t now password self)
                     = false ->
                     SecurityManager.message event
                     = str "Authentication failed (attempt "
                       ++ of_Z (SecurityManager.auth_attempts
                                  (snd (SecurityManager.authenticate t now
                                          password self)))
                       ++ str ")")).
    { intros ok lvl msg s Ht Hev Hr Hlvl Hmsg. rewrite Hr. cbn [fst snd].
      destruct (log_event_window now lvl msg s)
        as (dropped & kept & Hold & Hnew & Hlen & Hdrop).
      rewrite Hev in Hold, Hdrop.
      exists dropped, kept. eexists.
      split; [exact Hold|]. split; [exact Hnew|]. split; [exact Hlen|].
      split; [exact Hdrop|].
      cbn [SecurityManager.timestamp SecurityManager.event_threat_level
             SecurityManager.level SecurityManager.message].
      split; [reflexivity|]. split; [exact Ht|]. split; [exact Hlvl|].
      intros Hok. rewrite (Hmsg Hok). reflexivity. }
    destruct (outcome t password self).
    + contradiction O. reflexivity.
    + destruct H as (s & Ht & Hev & Hr).
      apply (Hgen true _ _ s Ht Hev Hr); [reflexivity|discriminate].
    + destruct H as (s & Ht & Hev & Hr).
      apply (Hgen true _ _ s Ht Hev Hr); [reflexivity|discriminate].
    + destruct H as (s & Ht & Hev & Hr).
      apply (Hgen false _ _ s Ht Hev Hr); [reflexivity|reflexivity].
Qed.

Lemma authentication_is_logged_witness :
  map SecurityManager.message
    (SecurityManager.security_events
       (snd (SecurityManager.authenticate 100 (str "2024-01-01T00:01:40")
               (Some (str "secret"))
               (SecurityManager.init
                  (ConfigManager.set (str "security.require_authentication")
                     (ConfigManager.Leaf (ConfigManager.LBool true))
                     (ConfigManager.init (str "key")))))))
  = [str "Authentication failed (attempt 1)"].
Proof.
  destruct (proj2 (authentication_is_logged 100 (str "2024-01-01T00:01:40")
                     (Some (str "secret"))
                     (SecurityManager.init
                        (ConfigManager.set
                           (str "security.require_authentication")
                           (ConfigManager.Leaf (ConfigManager.LBool true))
                           (ConfigManager.init (str "key"))))))
    as (dropped & kept & event & Hold & Hnew & _ & _ & _ & _ & _ & Hmsg).
  - vm_compute. discriminate.
  - rewrite Hnew.
    destruct dropped; [|discriminate Hold].
    destruct kept; [|discriminate Hold].
    cbn [map app]. rewrite Hmsg by reflexivity. reflexivity.
Defined.
